(** * rocALUTION: the HIP block-compressed-row matrix (hip_matrix_bcsr.cpp)

    A shallow embedding of [HIPAcceleratorMatrixBCSR<ValueType>]: its
    allocation and ownership-transfer primitives, the eight transfer
    operations, the format conversion and the two multiply entry points.

    Conventions of the embedding.
    - A C++ [int] is a [Z]; [Int.add] and [Int.mul] write out the 32-bit
      two's-complement wrap-around of the arithmetic the code performs, and
      [bytes_of] the [size_t] arithmetic of the byte counts.
    - Member functions take the object ([this]) as a record and return the
      updated record; the operands of a transfer are distinct objects.
    - Everything outside the objects (device and host storage, the calls made
      to the HIP runtime, the log) lives in a [World] that is threaded through
      a small state-and-failure monad [M].  A run ends in [Ok] (the function
      returned), [Abort] (an [assert] failed) or [Fatal] ([FATAL_ERROR]).
    - The headers this file includes are not part of the sources.  The structs
      and class members are written down as this file uses them; the memory
      primitives, macros and kernels it calls are modelled from the interface
      section of the specification or taken as parameters, and say so where
      they are introduced. *)

From Stdlib Require Import ZArith Lia.
From Stdlib Require Import Strings.Byte.
From stdpp Require Import base gmap list strings.

Local Open Scope Z_scope.

(** ** Machine integers *)

Definition int := Z.
Definition ptr := Z.
Definition NULL : ptr := 0.

Module Int.
Definition min_signed : Z := - 2 ^ 31.
Definition max_signed : Z := 2 ^ 31 - 1.

Definition in_range (z : Z) : Prop := min_signed <= z <= max_signed.

(** Reduction of a mathematical result to the 32-bit signed representation. *)
Definition wrap (z : Z) : int := (z + 2 ^ 31) mod 2 ^ 32 - 2 ^ 31.

Definition add (a b : int) : int := wrap (a + b).
Definition mul (a b : int) : int := wrap (a * b).
End Int.

(** [n * sizeof(T)] with [n] an [int]: the [int] is converted to [size_t]
    (64 bits, unsigned) and the product is taken there. *)
Definition bytes_of (n : int) (elt : Z) : Z := ((n mod 2 ^ 64) * elt) mod 2 ^ 64.

Definition sizeof_int : Z := 4.

(** The value types the class template is instantiated at. *)
Inductive ValueType := VT_double | VT_float | VT_complex_double | VT_complex_float.

Definition sizeof (T : ValueType) : Z :=
  match T with
  | VT_double => 8
  | VT_float => 4
  | VT_complex_double => 16
  | VT_complex_float => 8
  end.

(** ** Objects *)

(** [MatrixBCSR<ValueType, int>]: the block layout held in [mat_], with the
    seven members this file reads and writes. *)
Record MatrixBCSR := mkMatrixBCSR {
  row_offset : ptr;
  col : ptr;
  val : ptr;
  nrowb : int;
  ncolb : int;
  nnzb : int;
  blockdim : int
}.

(** [Rocalution_Backend_Descriptor], reduced to the two members this file reads. *)
Record Backend := mkBackend {
  HIP_block_size : int;
  ROC_sparse_handle : Z
}.

(** The data members of a block-format matrix object.  The host class
    [HostMatrixBCSR] carries the same members. *)
Record Handle := mkHandle {
  nrow_ : int;
  ncol_ : int;
  nnz_ : int;
  blockdim_ : int;
  mat_ : MatrixBCSR;
  mat_descr_ : Z;
  local_backend_ : Backend
}.

Definition set_shape (nrow ncol nnz : int) (h : Handle) : Handle :=
  mkHandle nrow ncol nnz (blockdim_ h) (mat_ h) (mat_descr_ h) (local_backend_ h).

Definition set_blockdim_ (b : int) (h : Handle) : Handle :=
  mkHandle (nrow_ h) (ncol_ h) (nnz_ h) b (mat_ h) (mat_descr_ h) (local_backend_ h).

Definition set_mat (m : MatrixBCSR) (h : Handle) : Handle :=
  mkHandle (nrow_ h) (ncol_ h) (nnz_ h) (blockdim_ h) m (mat_descr_ h) (local_backend_ h).

Definition set_backend (b : Backend) (h : Handle) : Handle :=
  mkHandle (nrow_ h) (ncol_ h) (nnz_ h) (blockdim_ h) (mat_ h) (mat_descr_ h) b.

Definition set_ptrs (r c v : ptr) (m : MatrixBCSR) : MatrixBCSR :=
  mkMatrixBCSR r c v (nrowb m) (ncolb m) (nnzb m) (blockdim m).

Definition set_counts (nrb ncb nzb bd : int) (m : MatrixBCSR) : MatrixBCSR :=
  mkMatrixBCSR (row_offset m) (col m) (val m) nrb ncb nzb bd.

Definition set_mat_blockdim (bd : int) (m : MatrixBCSR) : MatrixBCSR :=
  mkMatrixBCSR (row_offset m) (col m) (val m) (nrowb m) (ncolb m) (nnzb m) bd.

(** The empty state of the specification: [nrow = ncol = nnz = 0]. *)
Definition empty_state (h : Handle) : Prop :=
  nrow_ h = 0 /\ ncol_ h = 0 /\ nnz_ h = 0.

(** A handle is either populated or in the empty state; every object starts
    empty and the operations below only ever test [nnz_]. *)
Definition populated_or_empty (h : Handle) : Prop :=
  0 < nnz_ h \/ empty_state h.

(** The derived scalar shape, as the C++ expressions
    [mat_.nrowb * mat_.blockdim], [mat_.ncolb * mat_.blockdim] and
    [mat_.nnzb * mat_.blockdim * mat_.blockdim]. *)
Definition derived_nrow (m : MatrixBCSR) : int := Int.mul (nrowb m) (blockdim m).
Definition derived_ncol (m : MatrixBCSR) : int := Int.mul (ncolb m) (blockdim m).
Definition derived_nnz (m : MatrixBCSR) : int :=
  Int.mul (Int.mul (nnzb m) (blockdim m)) (blockdim m).

Definition shape_consistent (h : Handle) : Prop :=
  nrow_ h = derived_nrow (mat_ h) /\
  ncol_ h = derived_ncol (mat_ h) /\
  nnz_ h = derived_nnz (mat_ h).

(** ** The world: storage, and the calls issued to the runtime *)

Inductive Space := OnHost | OnDevice.

Inductive hipMemcpyKind :=
  hipMemcpyHostToDevice | hipMemcpyDeviceToHost | hipMemcpyDeviceToDevice.

(** The format tags [GetMatFormat()] can return. *)
Inductive MatFormat := DENSE | CSR | MCSR | BCSR | COO | DIA | ELL | HYB.

(** Run-time classes of the matrix objects that can reach this file. *)
Inductive ClassId :=
| C_HIPAcceleratorMatrixBCSR
| C_HIPAcceleratorMatrixCSR
| C_HostMatrixBCSR
| C_HostMatrix (f : MatFormat)
| C_OtherMatrix (f : MatFormat).

Inductive Event :=
| EvAllocate (sp : Space) (p : ptr) (count : int) (elt : Z)
| EvFree (sp : Space) (p : ptr)
| EvSetToZero (sp : Space) (p : ptr) (count : int) (elt : Z)
| EvMemcpy (dst src : ptr) (bytes : Z) (kind : hipMemcpyKind)
| EvMemcpyAsync (dst src : ptr) (bytes : Z) (kind : hipMemcpyKind)
| EvDeviceSynchronize
| EvLogInfo (msg : string)
| EvInfo (c : ClassId)
| EvCsrToBcsr (src_nnz src_nrow src_ncol : int) (dst_blockdim : int)
| EvBsrmv (row_major : bool) (nrowb ncolb nnzb : int) (val row_offset col : ptr)
          (blockdim : int) (x y : ptr).

(** A byte of storage; [None] is the indeterminate content of fresh storage. *)
Definition mbyte := option byte.

Record World := mkWorld {
  heap : gmap Z (list mbyte);
  next_ptr : ptr;
  trace : list Event
}.

Inductive Outcome (A : Type) :=
| Ok (a : A) (w : World)
| Abort (w : World)
| Fatal (w : World).
Arguments Ok {A} a w.
Arguments Abort {A} w.
Arguments Fatal {A} w.

Definition M (A : Type) : Type := World -> Outcome A.

Definition ret {A} (a : A) : M A := fun w => Ok a w.

Definition bind {A B} (c : M A) (k : A -> M B) : M B :=
  fun w =>
    match c w with
    | Ok a w' => k a w'
    | Abort w' => Abort w'
    | Fatal w' => Fatal w'
    end.

Notation "x <- c ;; k" := (bind c (fun x => k))
  (at level 100, c at next level, k at level 200, right associativity).
Notation "c ;;; k" := (bind c (fun _ => k))
  (at level 100, k at level 200, right associativity).

(** [assert(b)]: assertions are compiled in. *)
Definition assert (b : bool) : M unit :=
  fun w => if b then Ok tt w else Abort w.

Definition emit (e : Event) : M unit :=
  fun w => Ok tt (mkWorld (heap w) (next_ptr w) (trace w ++ [e])).

Definition when (b : bool) (c : M unit) : M unit :=
  if b then c else ret tt.

(** The world at which a run ended, whatever its outcome. *)
Definition final_world {A} (o : Outcome A) : World :=
  match o with Ok _ w | Abort w | Fatal w => w end.

(** ** Backend memory primitives *)

(** Modelled from the spec: [allocate_hip] and [allocate_host] (declared in
    hip_allocate_free.hpp and the host counterpart, not part of the sources)
    are the [allocate(count) -> pointer] of the BackendMemory interface:
    fresh storage for [count] elements of [elt] bytes each, content
    indeterminate. *)
Definition allocate (sp : Space) (elt : Z) (count : int) : M ptr :=
  fun w =>
    let p := next_ptr w in
    Ok p (mkWorld (<[p := replicate (Z.to_nat (count * elt)) None]> (heap w))
                  (p + 1)
                  (trace w ++ [EvAllocate sp p count elt])).

(** Modelled from the spec: [free_hip] / [free_host] are [free(pointer)].
    The call sites pass the address of the pointer member; the released
    member reads [NULL] afterwards. *)
Definition free (sp : Space) (p : ptr) : M ptr :=
  fun w =>
    Ok NULL (mkWorld (delete p (heap w)) (next_ptr w) (trace w ++ [EvFree sp p])).

Definition zero_byte : mbyte := Some x00.

Definition zero_fill (k : nat) (buf : list mbyte) : list mbyte :=
  replicate (Nat.min k (length buf)) zero_byte ++ drop k buf.

(** Modelled from the spec: [set_to_zero_hip] / [set_to_zero_host] are
    [zero(pointer, count)]: the first [count] elements become zero.  The
    leading block-size argument only tunes the device kernel. *)
Definition set_to_zero (sp : Space) (elt : Z) (blocksize : int) (count : int) (p : ptr)
  : M unit :=
  fun w =>
    Ok tt (mkWorld (alter (zero_fill (Z.to_nat (count * elt))) p (heap w))
                   (next_ptr w)
                   (trace w ++ [EvSetToZero sp p count elt])).

(** [hipMemcpy] and [hipMemcpyAsync] of the HIP runtime: the model records the
    call with its arguments; the bytes are moved by the runtime.

    Modelled from the spec: [CHECK_HIP_ERROR] (hip_utils.hpp) turns an error
    reported by the runtime into a fatal one; the runtime of the model reports
    none, so the check after each call passes.  What is proved of a run that
    returns therefore holds when the copies it issued succeeded; which copies
    a run issues, and where it stops before them, does not depend on it. *)
Definition hipMemcpy (dst src : ptr) (bytes : Z) (kind : hipMemcpyKind) : M unit :=
  emit (EvMemcpy dst src bytes kind).

Definition hipMemcpyAsync (dst src : ptr) (bytes : Z) (kind : hipMemcpyKind) : M unit :=
  emit (EvMemcpyAsync dst src bytes kind).

Definition hipDeviceSynchronize : M unit := emit EvDeviceSynchronize.

(** Modelled from the spec: [LOG_INFO] (utils/log.hpp) appends a line to the
    diagnostic log. *)
Definition LOG_INFO (msg : string) : M unit := emit (EvLogInfo msg).

(** Modelled from the spec: [FATAL_ERROR(__FILE__, __LINE__)] (utils/def.hpp)
    terminates the process. *)
Definition FATAL_ERROR {A} : M A := fun w => Fatal w.

(** The storage an array of [count] zero elements of [elt] bytes occupies. *)
Definition zeros (count : int) (elt : Z) : list mbyte :=
  replicate (Z.to_nat (count * elt)) zero_byte.

(** ** Allocation and ownership *)

(** [Clear()] (lines 139-151), on the storage of the object's backend. *)
Definition Clear_in (sp : Space) (h : Handle) : M Handle :=
  if 0 <? nnz_ h then
    r <- free sp (row_offset (mat_ h)) ;;
    c <- free sp (col (mat_ h)) ;;
    v <- free sp (val (mat_ h)) ;;
    ret (set_shape 0 0 0 (set_mat (set_ptrs r c v (mat_ h)) h))
  else ret h.

(** [AllocateBCSR(nnzb, nrowb, ncolb, blockdim)] (lines 100-136). *)
Definition AllocateBCSR_in (sp : Space) (T : ValueType)
    (nnzb0 nrowb0 ncolb0 blockdim0 : int) (h : Handle) : M Handle :=
  assert (0 <=? nnzb0) ;;;
  assert (0 <=? ncolb0) ;;;
  assert (0 <=? nrowb0) ;;;
  assert (1 <? blockdim0) ;;;
  h1 <- (if 0 <? nnz_ h then Clear_in sp h else ret h) ;;
  if 0 <? nnzb0 then
    let n_val := Int.mul (Int.mul nnzb0 blockdim0) blockdim0 in
    r <- allocate sp sizeof_int (Int.add nrowb0 1) ;;
    c <- allocate sp sizeof_int nnzb0 ;;
    v <- allocate sp (sizeof T) n_val ;;
    set_to_zero sp sizeof_int (HIP_block_size (local_backend_ h1)) (Int.add nrowb0 1) r ;;;
    set_to_zero sp sizeof_int (HIP_block_size (local_backend_ h1)) nnzb0 c ;;;
    set_to_zero sp (sizeof T) (HIP_block_size (local_backend_ h1)) n_val v ;;;
    ret (set_mat (mkMatrixBCSR r c v nrowb0 ncolb0 nnzb0 blockdim0)
           (set_shape (Int.mul nrowb0 blockdim0) (Int.mul ncolb0 blockdim0) n_val h1))
  else ret h1.

Definition Clear : Handle -> M Handle := Clear_in OnDevice.
Definition AllocateBCSR : ValueType -> int -> int -> int -> int -> Handle -> M Handle :=
  AllocateBCSR_in OnDevice.

(** Modelled from the spec: [HostMatrixBCSR::AllocateBCSR] (host_matrix_bcsr.cpp
    is not part of the sources) is the [Allocate] of the specification, the
    same contract on host storage. *)
Definition Host_AllocateBCSR : ValueType -> int -> int -> int -> int -> Handle -> M Handle :=
  AllocateBCSR_in OnHost.

(** [SetDataPtrBCSR(row_offset, col, val, nnzb, nrowb, ncolb, blockdim)]
    (lines 153-182); the three pointers are the values of [*row_offset],
    [*col] and [*val]. *)
Definition SetDataPtrBCSR (p_row_offset p_col p_val : ptr)
    (nnzb0 nrowb0 ncolb0 blockdim0 : int) (h : Handle) : M Handle :=
  assert (negb (p_row_offset =? NULL)) ;;;
  assert (negb (p_col =? NULL)) ;;;
  assert (negb (p_val =? NULL)) ;;;
  assert (0 <? nnzb0) ;;;
  assert (0 <? nrowb0) ;;;
  assert (0 <? ncolb0) ;;;
  assert (1 <? blockdim0) ;;;
  h1 <- Clear h ;;
  hipDeviceSynchronize ;;;
  let h2 := set_blockdim_ blockdim0 h1 in
  let h3 := set_shape (Int.mul nrowb0 blockdim0) (Int.mul ncolb0 blockdim0)
                      (Int.mul (Int.mul nnzb0 blockdim0) blockdim0) h2 in
  let m1 := set_counts nrowb0 ncolb0 nnzb0 blockdim0 (mat_ h3) in
  ret (set_mat (set_ptrs p_row_offset p_col p_val m1) h3).

(** What [LeaveDataPtrBCSR] hands back through its four out-parameters. *)
Record LeftData := mkLeftData {
  out_row_offset : ptr;
  out_col : ptr;
  out_val : ptr;
  out_blockdim : int
}.

(** [LeaveDataPtrBCSR(row_offset, col, val, blockdim)] (lines 184-212). *)
Definition LeaveDataPtrBCSR (h : Handle) : M (LeftData * Handle) :=
  assert (0 <? nrow_ h) ;;;
  assert (0 <? ncol_ h) ;;;
  assert (0 <? nnz_ h) ;;;
  assert (1 <? blockdim (mat_ h)) ;;;
  hipDeviceSynchronize ;;;
  let out := mkLeftData (row_offset (mat_ h)) (col (mat_ h)) (val (mat_ h))
                        (blockdim (mat_ h)) in
  let m1 := set_ptrs NULL NULL NULL (mat_ h) in
  let m2 := set_mat_blockdim 0 m1 in
  ret (out, set_shape 0 0 0 (set_mat m2 h)).

(** ** The polymorphic operands *)

(** [MatrixCSR<ValueType, int>] and the members of [HIPAcceleratorMatrixCSR]
    that [ConvertFrom] reads. *)
Record MatrixCSR := mkMatrixCSR {
  csr_row_offset : ptr;
  csr_col : ptr;
  csr_val : ptr
}.

Record CSRHandle := mkCSRHandle {
  csr_nrow_ : int;
  csr_ncol_ : int;
  csr_nnz_ : int;
  csr_mat_ : MatrixCSR;
  csr_mat_descr_ : Z
}.

(** A [HostMatrix<ValueType>] is a [HostMatrixBCSR] or an object of another
    host class, of which only the format tag and [GetNnz()] matter here. *)
Inductive HostMatrix :=
| HostMatrixBCSR (m : Handle)
| HostMatrixOther (f : MatFormat) (nnz : int).

(** A [BaseMatrix<ValueType>] by run-time class.  [OtherMatrix] stands for
    every class that is neither a host matrix nor one of the two HIP classes
    named in this file. *)
Inductive BaseMatrix :=
| Host (m : HostMatrix)
| HIPAcceleratorMatrixBCSR (m : Handle)
| HIPAcceleratorMatrixCSR (m : CSRHandle)
| OtherMatrix (f : MatFormat) (nnz : int).

Definition Host_GetMatFormat (m : HostMatrix) : MatFormat :=
  match m with
  | HostMatrixBCSR _ => BCSR
  | HostMatrixOther f _ => f
  end.

Definition GetMatFormat (m : BaseMatrix) : MatFormat :=
  match m with
  | Host hm => Host_GetMatFormat hm
  | HIPAcceleratorMatrixBCSR _ => BCSR
  | HIPAcceleratorMatrixCSR _ => CSR
  | OtherMatrix f _ => f
  end.

Definition GetNnz (m : BaseMatrix) : int :=
  match m with
  | Host (HostMatrixBCSR hm) => nnz_ hm
  | Host (HostMatrixOther _ n) => n
  | HIPAcceleratorMatrixBCSR hm => nnz_ hm
  | HIPAcceleratorMatrixCSR cm => csr_nnz_ cm
  | OtherMatrix _ n => n
  end.

Definition Host_class_of (m : HostMatrix) : ClassId :=
  match m with
  | HostMatrixBCSR _ => C_HostMatrixBCSR
  | HostMatrixOther f _ => C_HostMatrix f
  end.

Definition class_of (m : BaseMatrix) : ClassId :=
  match m with
  | Host hm => Host_class_of hm
  | HIPAcceleratorMatrixBCSR _ => C_HIPAcceleratorMatrixBCSR
  | HIPAcceleratorMatrixCSR _ => C_HIPAcceleratorMatrixCSR
  | OtherMatrix f _ => C_OtherMatrix f
  end.

Definition MatFormat_eqb (a b : MatFormat) : bool :=
  match a, b with
  | DENSE, DENSE | CSR, CSR | MCSR, MCSR | BCSR, BCSR
  | COO, COO | DIA, DIA | ELL, ELL | HYB, HYB => true
  | _, _ => false
  end.

(** [Info()] of this class (lines 94-98). *)
Definition Info : M unit := LOG_INFO "HIPAcceleratorMatrixBCSR<ValueType>".

(** The virtual [Info()] of an operand: this class's when the operand is of
    this class, a descriptive dump by its own class otherwise. *)
Definition Operand_Info (c : ClassId) : M unit :=
  match c with
  | C_HIPAcceleratorMatrixBCSR => Info
  | _ => emit (EvInfo c)
  end.

(** The [else] branch shared by the transfer operations: log, dump both
    operands, terminate. *)
Definition unsupported_type {A} (other : ClassId) : M A :=
  LOG_INFO "Error unsupported HIP matrix type" ;;;
  Info ;;;
  Operand_Info other ;;;
  FATAL_ERROR.

(** The seven shape assertions, in source order; [a] is [this], [b] the cast
    operand. *)
Definition assert_same_shape (a b : Handle) : M unit :=
  assert (nnz_ a =? nnz_ b) ;;;
  assert (nrow_ a =? nrow_ b) ;;;
  assert (ncol_ a =? ncol_ b) ;;;
  assert (nrowb (mat_ a) =? nrowb (mat_ b)) ;;;
  assert (ncolb (mat_ a) =? ncolb (mat_ b)) ;;;
  assert (nnzb (mat_ a) =? nnzb (mat_ b)) ;;;
  assert (blockdim (mat_ a) =? blockdim (mat_ b)).

(** The byte counts of the three copies, computed from [this->mat_];
    [elt] is the [sizeof] used for the value array. *)
Definition row_offset_bytes (m : MatrixBCSR) : Z :=
  bytes_of (Int.add (nrowb m) 1) sizeof_int.
Definition col_bytes (m : MatrixBCSR) : Z :=
  bytes_of (nnzb m) sizeof_int.
Definition val_bytes (elt : Z) (m : MatrixBCSR) : Z :=
  bytes_of (Int.mul (Int.mul (nnzb m) (blockdim m)) (blockdim m)) elt.

(** ** Synchronous transfers *)

(** [CopyFromHost(src)] (lines 214-267). *)
Definition CopyFromHost (T : ValueType) (src : HostMatrix) (h : Handle) : M Handle :=
  assert (MatFormat_eqb BCSR (Host_GetMatFormat src)) ;;;
  match src with
  | HostMatrixBCSR cast_mat =>
      h1 <- (if nnz_ h =? 0
             then AllocateBCSR T (nnzb (mat_ cast_mat)) (nrowb (mat_ cast_mat))
                                 (ncolb (mat_ cast_mat)) (blockdim (mat_ cast_mat)) h
             else ret h) ;;
      assert_same_shape h1 cast_mat ;;;
      hipMemcpy (row_offset (mat_ h1)) (row_offset (mat_ cast_mat))
                (row_offset_bytes (mat_ h1)) hipMemcpyHostToDevice ;;;
      hipMemcpy (col (mat_ h1)) (col (mat_ cast_mat))
                (col_bytes (mat_ h1)) hipMemcpyHostToDevice ;;;
      hipMemcpy (val (mat_ h1)) (val (mat_ cast_mat))
                (val_bytes (sizeof T) (mat_ h1)) hipMemcpyHostToDevice ;;;
      ret h1
  | _ => unsupported_type (Host_class_of src)
  end.

(** [CopyToHost(dst)] (lines 269-322); returns the updated [*dst]. *)
Definition CopyToHost (T : ValueType) (dst : HostMatrix) (h : Handle) : M HostMatrix :=
  assert (MatFormat_eqb BCSR (Host_GetMatFormat dst)) ;;;
  match dst with
  | HostMatrixBCSR cast_mat0 =>
      let cast_mat := set_backend (local_backend_ h) cast_mat0 in
      c1 <- (if nnz_ cast_mat =? 0
             then Host_AllocateBCSR T (nnzb (mat_ h)) (nrowb (mat_ h))
                                      (ncolb (mat_ h)) (blockdim (mat_ h)) cast_mat
             else ret cast_mat) ;;
      assert_same_shape h c1 ;;;
      hipMemcpy (row_offset (mat_ c1)) (row_offset (mat_ h))
                (row_offset_bytes (mat_ h)) hipMemcpyDeviceToHost ;;;
      hipMemcpy (col (mat_ c1)) (col (mat_ h))
                (col_bytes (mat_ h)) hipMemcpyDeviceToHost ;;;
      hipMemcpy (val (mat_ c1)) (val (mat_ h))
                (val_bytes (sizeof T) (mat_ h)) hipMemcpyDeviceToHost ;;;
      ret (HostMatrixBCSR c1)
  | _ => unsupported_type (Host_class_of dst)
  end.

(** [CopyFrom(src)] (lines 324-386). *)
Definition CopyFrom (T : ValueType) (src : BaseMatrix) (h : Handle) : M Handle :=
  assert (MatFormat_eqb BCSR (GetMatFormat src)) ;;;
  match src with
  | HIPAcceleratorMatrixBCSR hip_cast_mat =>
      h1 <- (if nnz_ h =? 0
             then AllocateBCSR T (nnzb (mat_ hip_cast_mat)) (nrowb (mat_ hip_cast_mat))
                                 (ncolb (mat_ hip_cast_mat)) (blockdim (mat_ hip_cast_mat)) h
             else ret h) ;;
      assert_same_shape h1 hip_cast_mat ;;;
      hipMemcpy (row_offset (mat_ h1)) (row_offset (mat_ hip_cast_mat))
                (row_offset_bytes (mat_ h1)) hipMemcpyDeviceToDevice ;;;
      hipMemcpy (col (mat_ h1)) (col (mat_ hip_cast_mat))
                (col_bytes (mat_ h1)) hipMemcpyDeviceToDevice ;;;
      hipMemcpy (val (mat_ h1)) (val (mat_ hip_cast_mat))
                (val_bytes (sizeof T) (mat_ h1)) hipMemcpyDeviceToDevice ;;;
      ret h1
  | Host host_cast_mat => CopyFromHost T host_cast_mat h
  | _ => unsupported_type (class_of src)
  end.

(** [CopyTo(dst)] (lines 388-450); returns the updated [*dst]. *)
Definition CopyTo (T : ValueType) (dst : BaseMatrix) (h : Handle) : M BaseMatrix :=
  assert (MatFormat_eqb BCSR (GetMatFormat dst)) ;;;
  match dst with
  | HIPAcceleratorMatrixBCSR hip_cast_mat0 =>
      let hip_cast_mat := set_backend (local_backend_ h) hip_cast_mat0 in
      c1 <- (if nnz_ hip_cast_mat =? 0
             then AllocateBCSR T (nnzb (mat_ h)) (nrowb (mat_ h))
                                 (ncolb (mat_ h)) (blockdim (mat_ h)) hip_cast_mat
             else ret hip_cast_mat) ;;
      assert_same_shape h c1 ;;;
      hipMemcpy (row_offset (mat_ c1)) (row_offset (mat_ h))
                (row_offset_bytes (mat_ h)) hipMemcpyDeviceToDevice ;;;
      hipMemcpy (col (mat_ c1)) (col (mat_ h))
                (col_bytes (mat_ h)) hipMemcpyDeviceToDevice ;;;
      hipMemcpy (val (mat_ c1)) (val (mat_ h))
                (val_bytes (sizeof T) (mat_ h)) hipMemcpyDeviceToDevice ;;;
      ret (HIPAcceleratorMatrixBCSR c1)
  | Host host_cast_mat =>
      d <- CopyToHost T host_cast_mat h ;; ret (Host d)
  | _ => unsupported_type (class_of dst)
  end.

(** ** Asynchronous transfers *)

(** [CopyFromHostAsync(src)] (lines 452-508).  The value copy is sized with
    [sizeof(int)] (line 496). *)
Definition CopyFromHostAsync (T : ValueType) (src : HostMatrix) (h : Handle) : M Handle :=
  assert (MatFormat_eqb BCSR (Host_GetMatFormat src)) ;;;
  match src with
  | HostMatrixBCSR cast_mat =>
      h1 <- (if nnz_ h =? 0
             then AllocateBCSR T (nnzb (mat_ cast_mat)) (nrowb (mat_ cast_mat))
                                 (ncolb (mat_ cast_mat)) (blockdim (mat_ cast_mat)) h
             else ret h) ;;
      assert_same_shape h1 cast_mat ;;;
      when (0 <? nnz_ h1)
        (hipMemcpyAsync (row_offset (mat_ h1)) (row_offset (mat_ cast_mat))
                        (row_offset_bytes (mat_ h1)) hipMemcpyHostToDevice ;;;
         hipMemcpyAsync (col (mat_ h1)) (col (mat_ cast_mat))
                        (col_bytes (mat_ h1)) hipMemcpyHostToDevice ;;;
         hipMemcpyAsync (val (mat_ h1)) (val (mat_ cast_mat))
                        (val_bytes sizeof_int (mat_ h1)) hipMemcpyHostToDevice) ;;;
      ret h1
  | _ => unsupported_type (Host_class_of src)
  end.

(** [CopyToHostAsync(dst)] (lines 510-566). *)
Definition CopyToHostAsync (T : ValueType) (dst : HostMatrix) (h : Handle) : M HostMatrix :=
  assert (MatFormat_eqb BCSR (Host_GetMatFormat dst)) ;;;
  match dst with
  | HostMatrixBCSR cast_mat0 =>
      let cast_mat := set_backend (local_backend_ h) cast_mat0 in
      c1 <- (if nnz_ cast_mat =? 0
             then Host_AllocateBCSR T (nnzb (mat_ h)) (nrowb (mat_ h))
                                      (ncolb (mat_ h)) (blockdim (mat_ h)) cast_mat
             else ret cast_mat) ;;
      assert_same_shape h c1 ;;;
      when (0 <? nnz_ h)
        (hipMemcpyAsync (row_offset (mat_ c1)) (row_offset (mat_ h))
                        (row_offset_bytes (mat_ h)) hipMemcpyDeviceToHost ;;;
         hipMemcpyAsync (col (mat_ c1)) (col (mat_ h))
                        (col_bytes (mat_ h)) hipMemcpyDeviceToHost ;;;
         hipMemcpyAsync (val (mat_ c1)) (val (mat_ h))
                        (val_bytes sizeof_int (mat_ h)) hipMemcpyDeviceToHost) ;;;
      ret (HostMatrixBCSR c1)
  | _ => unsupported_type (Host_class_of dst)
  end.

(** [CopyFromAsync(src)] (lines 568-633). *)
Definition CopyFromAsync (T : ValueType) (src : BaseMatrix) (h : Handle) : M Handle :=
  assert (MatFormat_eqb BCSR (GetMatFormat src)) ;;;
  match src with
  | HIPAcceleratorMatrixBCSR hip_cast_mat =>
      h1 <- (if nnz_ h =? 0
             then AllocateBCSR T (nnzb (mat_ hip_cast_mat)) (nrowb (mat_ hip_cast_mat))
                                 (ncolb (mat_ hip_cast_mat)) (blockdim (mat_ hip_cast_mat)) h
             else ret h) ;;
      assert_same_shape h1 hip_cast_mat ;;;
      when (0 <? nnz_ h1)
        (hipMemcpyAsync (row_offset (mat_ h1)) (row_offset (mat_ hip_cast_mat))
                        (row_offset_bytes (mat_ h1)) hipMemcpyDeviceToDevice ;;;
         hipMemcpyAsync (col (mat_ h1)) (col (mat_ hip_cast_mat))
                        (col_bytes (mat_ h1)) hipMemcpyDeviceToDevice ;;;
         hipMemcpyAsync (val (mat_ h1)) (val (mat_ hip_cast_mat))
                        (val_bytes sizeof_int (mat_ h1)) hipMemcpyDeviceToDevice) ;;;
      ret h1
  | Host host_cast_mat => CopyFromHostAsync T host_cast_mat h
  | _ => unsupported_type (class_of src)
  end.

(** [CopyToAsync(dst)] (lines 635-700).  The allocation of the destination is
    guarded by [this->nnz_ == 0] (line 649), the source's count. *)
Definition CopyToAsync (T : ValueType) (dst : BaseMatrix) (h : Handle) : M BaseMatrix :=
  assert (MatFormat_eqb BCSR (GetMatFormat dst)) ;;;
  match dst with
  | HIPAcceleratorMatrixBCSR hip_cast_mat0 =>
      let hip_cast_mat := set_backend (local_backend_ h) hip_cast_mat0 in
      c1 <- (if nnz_ h =? 0
             then AllocateBCSR T (nnzb (mat_ h)) (nrowb (mat_ h))
                                 (ncolb (mat_ h)) (blockdim (mat_ h)) hip_cast_mat
             else ret hip_cast_mat) ;;
      assert_same_shape h c1 ;;;
      when (0 <? nnz_ h)
        (hipMemcpyAsync (row_offset (mat_ c1)) (row_offset (mat_ h))
                        (row_offset_bytes (mat_ h)) hipMemcpyDeviceToDevice ;;;
         hipMemcpyAsync (col (mat_ c1)) (col (mat_ h))
                        (col_bytes (mat_ h)) hipMemcpyDeviceToDevice ;;;
         hipMemcpyAsync (val (mat_ c1)) (val (mat_ h))
                        (val_bytes sizeof_int (mat_ h)) hipMemcpyDeviceToDevice) ;;;
      ret (HIPAcceleratorMatrixBCSR c1)
  | Host host_cast_mat =>
      d <- CopyToHostAsync T host_cast_mat h ;; ret (Host d)
  | _ => unsupported_type (class_of dst)
  end.

(** ** Conversion and multiply *)

Inductive rocsparse_status := rocsparse_status_success | rocsparse_status_error (code : Z).

(** Modelled from the spec: [CHECK_ROCSPARSE_ERROR(status, __FILE__, __LINE__)]
    (hip_utils.hpp): a kernel status other than success is fatal. *)
Definition CHECK_ROCSPARSE_ERROR (status : rocsparse_status) : M unit :=
  match status with
  | rocsparse_status_success => ret tt
  | rocsparse_status_error _ => FATAL_ERROR
  end.

Inductive VectorClass := C_HIPAcceleratorVector | C_OtherVector.

(** A [BaseVector<ValueType>] as [Apply] sees it: its run-time class, what
    [GetSize()] returns and the device array [vec_]. *)
Record BaseVector := mkBaseVector {
  vec_class : VectorClass;
  vec_size : Z;
  vec_ : ptr
}.

Definition is_HIPAcceleratorVector (v : BaseVector) : bool :=
  match vec_class v with C_HIPAcceleratorVector => true | C_OtherVector => false end.

Section Kernels.

(** The two backend kernels and the block-direction macro are consumed
    through their interfaces.  [csr_to_bcsr_hip] receives the destination
    layout by pointer and returns its success flag together with the layout
    it leaves behind; [rocsparseTbsrmv] returns its status. *)
Variable Scalar : Type.
Variables scalar_one scalar_zero : Scalar.
Variable BCSR_IND_BASE : bool.
Variable csr_to_bcsr_hip :
  Z -> int -> int -> int -> MatrixCSR -> Z -> MatrixBCSR -> Z -> M (bool * MatrixBCSR).
Variable rocsparseTbsrmv :
  Z -> bool -> int -> int -> int -> Scalar -> Z -> ptr -> ptr -> ptr -> int ->
  ptr -> Scalar -> ptr -> M rocsparse_status.

(** [ConvertFrom(mat)] (lines 702-747). *)
Definition ConvertFrom (T : ValueType) (mat : BaseMatrix) (h : Handle) : M (bool * Handle) :=
  h1 <- Clear h ;;
  if GetNnz mat =? 0 then ret (true, h1)
  else
    match mat with
    | HIPAcceleratorMatrixBCSR _ =>
        h2 <- CopyFrom T mat h1 ;;
        ret (true, h2)
    | HIPAcceleratorMatrixCSR cast_mat_csr =>
        h2 <- Clear h1 ;;
        let h3 := set_mat (set_mat_blockdim (blockdim_ h2) (mat_ h2)) h2 in
        emit (EvCsrToBcsr (csr_nnz_ cast_mat_csr) (csr_nrow_ cast_mat_csr)
                          (csr_ncol_ cast_mat_csr) (blockdim (mat_ h3))) ;;;
        r <- csr_to_bcsr_hip (ROC_sparse_handle (local_backend_ h3))
                             (csr_nnz_ cast_mat_csr) (csr_nrow_ cast_mat_csr)
                             (csr_ncol_ cast_mat_csr) (csr_mat_ cast_mat_csr)
                             (csr_mat_descr_ cast_mat_csr) (mat_ h3) (mat_descr_ h3) ;;
        let h4 := set_mat (snd r) h3 in
        if fst r
        then ret (true,
                  set_shape (Int.mul (nrowb (mat_ h4)) (blockdim (mat_ h4)))
                            (Int.mul (ncolb (mat_ h4)) (blockdim (mat_ h4)))
                            (Int.mul (Int.mul (nnzb (mat_ h4)) (blockdim (mat_ h4)))
                                     (blockdim (mat_ h4)))
                            h4)
        else ret (false, h4)
    | _ => ret (false, h1)
    end.

(** The call of the multiply kernel shared by [Apply] and [ApplyAdd]. *)
Definition call_bsrmv (h : Handle) (alpha beta : Scalar) (x y : BaseVector) : M unit :=
  emit (EvBsrmv BCSR_IND_BASE (nrowb (mat_ h)) (ncolb (mat_ h)) (nnzb (mat_ h))
                (val (mat_ h)) (row_offset (mat_ h)) (col (mat_ h))
                (blockdim (mat_ h)) (vec_ x) (vec_ y)) ;;;
  status <- rocsparseTbsrmv (ROC_sparse_handle (local_backend_ h)) BCSR_IND_BASE
                            (nrowb (mat_ h)) (ncolb (mat_ h)) (nnzb (mat_ h))
                            alpha (mat_descr_ h)
                            (val (mat_ h)) (row_offset (mat_ h)) (col (mat_ h))
                            (blockdim (mat_ h)) (vec_ x) beta (vec_ y) ;;
  CHECK_ROCSPARSE_ERROR status.

(** [Apply(in, out)] (lines 749-793). *)
Definition Apply (h : Handle) (v_in v_out : BaseVector) : M unit :=
  when (0 <? nnz_ h)
    (assert (0 <=? vec_size v_in) ;;;
     assert (0 <=? vec_size v_out) ;;;
     assert (vec_size v_in =? ncol_ h) ;;;
     assert (vec_size v_out =? nrow_ h) ;;;
     assert (is_HIPAcceleratorVector v_in) ;;;
     assert (is_HIPAcceleratorVector v_out) ;;;
     call_bsrmv h scalar_one scalar_zero v_in v_out).

(** [ApplyAdd(in, scalar, out)] (lines 795-839). *)
Definition ApplyAdd (h : Handle) (v_in : BaseVector) (scalar : Scalar)
    (v_out : BaseVector) : M unit :=
  when (0 <? nnz_ h)
    (assert (0 <=? vec_size v_in) ;;;
     assert (0 <=? vec_size v_out) ;;;
     assert (vec_size v_in =? ncol_ h) ;;;
     assert (vec_size v_out =? nrow_ h) ;;;
     assert (is_HIPAcceleratorVector v_in) ;;;
     assert (is_HIPAcceleratorVector v_out) ;;;
     call_bsrmv h scalar scalar_one v_in v_out).

End Kernels.

(** ** Example data *)

Definition example_backend : Backend := mkBackend 256 1.

(** An object as its constructor leaves it: [NULL] arrays, the empty shape. *)
Definition fresh_handle : Handle :=
  mkHandle 0 0 0 0 (mkMatrixBCSR NULL NULL NULL 0 0 0 0) 0 example_backend.

Definition initial_world : World := mkWorld ∅ 1 [].

(** The [blockdim_] member of an operand of one of the block classes. *)
Definition operand_blockdim_ (m : BaseMatrix) : option int :=
  match m with
  | Host (HostMatrixBCSR hm) => Some (blockdim_ hm)
  | HIPAcceleratorMatrixBCSR hm => Some (blockdim_ hm)
  | _ => None
  end.

(** An operation on [this] that leaves [blockdim_] as it found it. *)
Definition preserves_blockdim_ (op : Handle -> M Handle) : Prop :=
  forall h w h' w', op h w = Ok h' w' -> blockdim_ h' = blockdim_ h.

(** The block-format object behind an operand, if it is one. *)
Definition operand_handle (m : BaseMatrix) : option Handle :=
  match m with
  | Host (HostMatrixBCSR hm) => Some hm
  | HIPAcceleratorMatrixBCSR hm => Some hm
  | _ => None
  end.

(** What the seven shape assertions of a transfer establish. *)
Definition same_shape (a b : Handle) : Prop :=
  nnz_ a = nnz_ b /\ nrow_ a = nrow_ b /\ ncol_ a = ncol_ b /\
  nrowb (mat_ a) = nrowb (mat_ b) /\ ncolb (mat_ a) = ncolb (mat_ b) /\
  nnzb (mat_ a) = nnzb (mat_ b) /\ blockdim (mat_ a) = blockdim (mat_ b).

(** The four counts of a layout. *)
Definition counts (m : MatrixBCSR) : int * int * int * int :=
  (nrowb m, ncolb m, nnzb m, blockdim m).

(** A populated handle whose target block dimension is 3. *)
Definition handle_blockdim3 : Handle :=
  mkHandle 4 4 4 3 (mkMatrixBCSR 10 11 12 2 2 1 2) 0 example_backend.

(** The handle and world [AllocateBCSR(1, 2, 2, 2)] produces from a fresh
    object: one 2x2 block in a 4x4 matrix. *)
Definition one_block_handle : Handle :=
  mkHandle 4 4 4 0 (mkMatrixBCSR 1 2 3 2 2 1 2) 0 example_backend.

Definition one_block_world : World :=
  final_world (AllocateBCSR VT_double 1 2 2 2 fresh_handle initial_world).

(** ** Observing the copies a run issues *)

Definition is_copy (e : Event) : bool :=
  match e with
  | EvMemcpy _ _ _ _ | EvMemcpyAsync _ _ _ _ => true
  | _ => false
  end.

Definition copies (l : list Event) : list Event := List.filter is_copy l.

(** The events a run starting in [w] appended to the trace. *)
Definition new_events {A} (w : World) (o : Outcome A) : list Event :=
  drop (length (trace w)) (trace (final_world o)).

(** The copy calls issued by a run starting in [w], in order. *)
Definition issued_copies {A} (w : World) (o : Outcome A) : list Event :=
  copies (new_events w o).

Definition copy_bytes (e : Event) : Z :=
  match e with
  | EvMemcpy _ _ n _ | EvMemcpyAsync _ _ n _ => n
  | _ => 0
  end.

(** The three array copies of a transfer, in source order: row pointer,
    column index, values.  [this_m] is the layout the byte counts are read
    from and [elt] the [sizeof] applied to the value array. *)
Definition three_copies (async : bool) (kind : hipMemcpyKind)
    (dst_m src_m this_m : MatrixBCSR) (elt : Z) : list Event :=
  let ev := if async then EvMemcpyAsync else EvMemcpy in
  [ ev (row_offset dst_m) (row_offset src_m) (row_offset_bytes this_m) kind;
    ev (col dst_m) (col src_m) (col_bytes this_m) kind;
    ev (val dst_m) (val src_m) (val_bytes elt this_m) kind ].

(** The seven comparisons of [assert_same_shape] as one boolean. *)
Definition same_shape_b (a b : Handle) : bool :=
  (nnz_ a =? nnz_ b) && (nrow_ a =? nrow_ b) && (ncol_ a =? ncol_ b) &&
  (nrowb (mat_ a) =? nrowb (mat_ b)) && (ncolb (mat_ a) =? ncolb (mat_ b)) &&
  (nnzb (mat_ a) =? nnzb (mat_ b)) && (blockdim (mat_ a) =? blockdim (mat_ b)).

(** The world [w] after the calls [es] were issued. *)
Definition with_events (w : World) (es : list Event) : World :=
  mkWorld (heap w) (next_ptr w) (trace w ++ es).

(** The allocate-on-first-use step of a transfer: [guard] is the test the
    code makes, [m] the layout whose counts are passed to [AllocateBCSR] and
    [d] the object that receives the storage. *)
Definition first_use (sp : Space) (T : ValueType) (guard : bool) (m : MatrixBCSR)
    (d : Handle) : M Handle :=
  if guard
  then AllocateBCSR_in sp T (nnzb m) (nrowb m) (ncolb m) (blockdim m) d
  else ret d.

(** How a transfer ends, given how its first-use step [o1] ended: the shape
    assertions on ([this_of x], [other_of x]) are next, then the copies [cs]. *)
Definition finish {A} (o1 : Outcome Handle) (this_of other_of : Handle -> Handle)
    (wrap : Handle -> A) (cs : Handle -> list Event) : Outcome A :=
  match o1 with
  | Ok x w1 =>
      if same_shape_b (this_of x) (other_of x)
      then Ok (wrap x) (with_events w1 (cs x))
      else Abort w1
  | Abort w1 => Abort w1
  | Fatal w1 => Fatal w1
  end.

(** The copies a transfer into [this] is to issue, by the class of the
    source: [h'] is [this] after the first-use step. *)
Definition copies_from (async : bool) (elt : Z) (src : BaseMatrix) (h' : Handle)
  : list Event :=
  match src with
  | HIPAcceleratorMatrixBCSR s =>
      three_copies async hipMemcpyDeviceToDevice (mat_ h') (mat_ s) (mat_ h') elt
  | Host (HostMatrixBCSR s) =>
      three_copies async hipMemcpyHostToDevice (mat_ h') (mat_ s) (mat_ h') elt
  | _ => []
  end.

(** The copies a transfer out of [this] (the handle [h]) is to issue, by the
    class of the destination [dst'] after the first-use step. *)
Definition copies_to (async : bool) (elt : Z) (h : Handle) (dst' : BaseMatrix)
  : list Event :=
  match dst' with
  | HIPAcceleratorMatrixBCSR d =>
      three_copies async hipMemcpyDeviceToDevice (mat_ d) (mat_ h) (mat_ h) elt
  | Host (HostMatrixBCSR d) =>
      three_copies async hipMemcpyDeviceToHost (mat_ d) (mat_ h) (mat_ h) elt
  | _ => []
  end.

(** The storage a block-format operand lives in, and the operand of the same
    class around an updated object. *)
Definition space_of (m : BaseMatrix) : Space :=
  match m with Host _ => OnHost | _ => OnDevice end.

Definition rewrap (m : BaseMatrix) (x : Handle) : BaseMatrix :=
  match m with
  | Host _ => Host (HostMatrixBCSR x)
  | _ => HIPAcceleratorMatrixBCSR x
  end.

(** How a transfer ends on an operand that is not of a block class: the
    same-format assertion, then the unsupported-type branch. *)
Definition reject {A} (m : BaseMatrix) (w : World) : Outcome A :=
  if MatFormat_eqb BCSR (GetMatFormat m) then unsupported_type (class_of m) w else Abort w.

(** A populated host matrix of the same shape as [one_block_handle], its
    arrays at host addresses 101, 102 and 103. *)
Definition host_one_block : Handle :=
  mkHandle 4 4 4 0 (mkMatrixBCSR 101 102 103 2 2 1 2) 0 example_backend.

(** An empty matrix whose layout still describes 2x2 blocks in two block
    rows and columns, with no stored block. *)
Definition empty_blocked : Handle :=
  mkHandle 0 0 0 0 (mkMatrixBCSR NULL NULL NULL 2 2 0 2) 0 example_backend.

(** The handle [LeaveDataPtrBCSR] leaves behind after
    [SetDataPtrBCSR(100, 200, 300, 1, 2, 2, 2)] on a fresh object. *)
Definition left_handle : Handle :=
  mkHandle 0 0 0 2 (mkMatrixBCSR NULL NULL NULL 2 2 1 0) 0 example_backend.

(** A regrouping kernel that refuses every input and leaves the destination
    layout as it received it. *)
Definition rejecting_kernel
  : Z -> int -> int -> int -> MatrixCSR -> Z -> MatrixBCSR -> Z -> M (bool * MatrixBCSR) :=
  fun _ _ _ _ _ _ dst _ w => Ok (false, dst) w.

(** A multiply kernel that overwrites the first byte of the output array and
    reports success. *)
Definition marking_kernel
  : Z -> bool -> int -> int -> int -> Z -> Z -> ptr -> ptr -> ptr -> int ->
    ptr -> Z -> ptr -> M rocsparse_status :=
  fun _ _ _ _ _ _ _ _ _ _ _ _ _ y w =>
    Ok rocsparse_status_success
       (mkWorld (alter (fun buf => Some xff :: drop 1 buf) y (heap w))
                (next_ptr w) (trace w)).

(** A device CSR matrix with four nonzeros in four rows and columns. *)
Definition csr_identity4 : CSRHandle :=
  mkCSRHandle 4 4 4 (mkMatrixCSR 7 8 9) 0.

Definition example_vector : BaseVector := mkBaseVector C_HIPAcceleratorVector 4 50.

(** Sources [ConvertFrom] has no path for: neither this class nor the device
    CSR class. *)
Definition convert_unsupported (m : BaseMatrix) : Prop :=
  match m with
  | HIPAcceleratorMatrixBCSR _ | HIPAcceleratorMatrixCSR _ => False
  | _ => True
  end.

(** The three log entries of the unsupported-type branch. *)
Definition unsupported_log (c : ClassId) : list Event :=
  [ EvLogInfo "Error unsupported HIP matrix type";
    EvLogInfo "HIPAcceleratorMatrixBCSR<ValueType>";
    EvInfo c ].

(** What the allocating branch of [AllocateBCSR] leaves behind, from any
    handle [h1] and world [w1]. *)
Definition allocated (sp : Space) (T : ValueType) (nnzb0 nrowb0 ncolb0 blockdim0 : int)
    (h1 : Handle) (w1 : World) (h' : Handle) (w' : World) : Prop :=
  let p := next_ptr w1 in
  h' = set_mat (mkMatrixBCSR p (p + 1) (p + 2) nrowb0 ncolb0 nnzb0 blockdim0)
         (set_shape (Int.mul nrowb0 blockdim0) (Int.mul ncolb0 blockdim0)
                    (Int.mul (Int.mul nnzb0 blockdim0) blockdim0) h1) /\
  heap w' !! p = Some (zeros (Int.add nrowb0 1) sizeof_int) /\
  heap w' !! (p + 1) = Some (zeros nnzb0 sizeof_int) /\
  heap w' !! (p + 2) = Some (zeros (Int.mul (Int.mul nnzb0 blockdim0) blockdim0) (sizeof T)).

(** A run only appends to the trace, and what it appends holds no copy. *)
Definition quiet {A} (w : World) (o : Outcome A) : Prop :=
  exists es, trace (final_world o) = trace w ++ es /\ copies es = [].

(** [emits w o cs]: the run that started in [w] and ended as [o] appended
    events to the trace of which the copies are exactly [cs], in that order. *)
Definition emits {A} (w : World) (o : Outcome A) (cs : list Event) : Prop :=
  exists es, trace (final_world o) = trace w ++ es /\ copies es = cs.

(** ** Observing the releases a run issues *)

Definition is_free (e : Event) : bool :=
  match e with
  | EvFree _ _ => true
  | _ => false
  end.

Definition frees (l : list Event) : list Event := List.filter is_free l.

(** The [free] calls issued by a run starting in [w], in order. *)
Definition issued_frees {A} (w : World) (o : Outcome A) : list Event :=
  frees (new_events w o).

(** The three releases of [Clear] on the arrays of [m]. *)
Definition three_frees (sp : Space) (m : MatrixBCSR) : list Event :=
  [EvFree sp (row_offset m); EvFree sp (col m); EvFree sp (val m)].

(** The four argument assertions of [AllocateBCSR] as one boolean. *)
Definition AllocateBCSR_args_ok (nnzb0 nrowb0 ncolb0 blockdim0 : int) : bool :=
  (0 <=? nnzb0) && (0 <=? ncolb0) && (0 <=? nrowb0) && (1 <? blockdim0).

(** The seven argument assertions of [SetDataPtrBCSR] as one boolean. *)
Definition SetDataPtrBCSR_args_ok (p_r p_c p_v : ptr)
    (nnzb0 nrowb0 ncolb0 blockdim0 : int) : bool :=
  negb (p_r =? NULL) && negb (p_c =? NULL) && negb (p_v =? NULL) &&
  (0 <? nnzb0) && (0 <? nrowb0) && (0 <? ncolb0) && (1 <? blockdim0).

(** The four state assertions of [LeaveDataPtrBCSR] as one boolean. *)
Definition LeaveDataPtrBCSR_state_ok (h : Handle) : bool :=
  (0 <? nrow_ h) && (0 <? ncol_ h) && (0 <? nnz_ h) && (1 <? blockdim (mat_ h)).

(** The six operand assertions of [Apply] and [ApplyAdd] as one boolean. *)
Definition Apply_operands_ok (h : Handle) (v_in v_out : BaseVector) : bool :=
  (0 <=? vec_size v_in) && (0 <=? vec_size v_out) &&
  (vec_size v_in =? ncol_ h) && (vec_size v_out =? nrow_ h) &&
  is_HIPAcceleratorVector v_in && is_HIPAcceleratorVector v_out.

(** A layout whose counts pass the assertions of [AllocateBCSR] and hold at
    least one block. *)
Definition allocatable (m : MatrixBCSR) : Prop :=
  0 < nnzb m /\ 0 <= nrowb m /\ 0 <= ncolb m /\ 1 < blockdim m.

(** The handle [Clear] leaves when it releases the arrays, and the world it
    leaves then. *)
Definition cleared (h : Handle) : Handle :=
  set_shape 0 0 0 (set_mat (set_ptrs NULL NULL NULL (mat_ h)) h).

Definition cleared_world (sp : Space) (h : Handle) (w : World) : World :=
  mkWorld (delete (val (mat_ h)) (delete (col (mat_ h))
             (delete (row_offset (mat_ h)) (heap w))))
          (next_ptr w)
          (trace w ++ three_frees sp (mat_ h)).

(** The handle, storage and calls of the allocating branch of [AllocateBCSR],
    entered with handle [h1] in world [w1]. *)
Definition allocation_handle (nnzb0 nrowb0 ncolb0 blockdim0 : int) (h1 : Handle)
    (w1 : World) : Handle :=
  let p := next_ptr w1 in
  set_mat (mkMatrixBCSR p (p + 1) (p + 1 + 1) nrowb0 ncolb0 nnzb0 blockdim0)
    (set_shape (Int.mul nrowb0 blockdim0) (Int.mul ncolb0 blockdim0)
               (Int.mul (Int.mul nnzb0 blockdim0) blockdim0) h1).

Definition allocation_events (sp : Space) (T : ValueType)
    (nnzb0 nrowb0 blockdim0 : int) (p : ptr) : list Event :=
  let n_val := Int.mul (Int.mul nnzb0 blockdim0) blockdim0 in
  [ EvAllocate sp p (Int.add nrowb0 1) sizeof_int;
    EvAllocate sp (p + 1) nnzb0 sizeof_int;
    EvAllocate sp (p + 1 + 1) n_val (sizeof T);
    EvSetToZero sp p (Int.add nrowb0 1) sizeof_int;
    EvSetToZero sp (p + 1) nnzb0 sizeof_int;
    EvSetToZero sp (p + 1 + 1) n_val (sizeof T) ].

Definition allocation_world (sp : Space) (T : ValueType)
    (nnzb0 nrowb0 blockdim0 : int) (w1 : World) : World :=
  let p := next_ptr w1 in
  let n_val := Int.mul (Int.mul nnzb0 blockdim0) blockdim0 in
  mkWorld
    (alter (zero_fill (Z.to_nat (n_val * sizeof T))) (p + 1 + 1)
       (alter (zero_fill (Z.to_nat (nnzb0 * sizeof_int))) (p + 1)
          (alter (zero_fill (Z.to_nat (Int.add nrowb0 1 * sizeof_int))) p
             (<[p + 1 + 1 := replicate (Z.to_nat (n_val * sizeof T)) None]>
                (<[p + 1 := replicate (Z.to_nat (nnzb0 * sizeof_int)) None]>
                   (<[p := replicate (Z.to_nat (Int.add nrowb0 1 * sizeof_int)) None]>
                      (heap w1)))))))
    (p + 1 + 1 + 1)
    (trace w1 ++ allocation_events sp T nnzb0 nrowb0 blockdim0 p).

(** The handle [SetDataPtrBCSR] builds around the arrays it is given; [h1] is
    the handle after the leading [Clear]. *)
Definition adopted (p_r p_c p_v : ptr) (nnzb0 nrowb0 ncolb0 blockdim0 : int)
    (h1 : Handle) : Handle :=
  mkHandle (Int.mul nrowb0 blockdim0) (Int.mul ncolb0 blockdim0)
           (Int.mul (Int.mul nnzb0 blockdim0) blockdim0) blockdim0
           (mkMatrixBCSR p_r p_c p_v nrowb0 ncolb0 nnzb0 blockdim0)
           (mat_descr_ h1) (local_backend_ h1).

(** What [LeaveDataPtrBCSR] hands out and the handle it leaves. *)
Definition handed_out (h : Handle) : LeftData :=
  mkLeftData (row_offset (mat_ h)) (col (mat_ h)) (val (mat_ h)) (blockdim (mat_ h)).

Definition relinquished (h : Handle) : Handle :=
  set_shape 0 0 0 (set_mat (set_mat_blockdim 0 (set_ptrs NULL NULL NULL (mat_ h))) h).

(** A run that did not return. *)
Definition stopped {A} (o : Outcome A) : Prop :=
  match o with Ok _ _ => False | _ => True end.

(** A regrouping kernel that accepts every input: it lays the blocks out at
    addresses 21, 22 and 23 with one block per block row. *)
Definition blocking_kernel
  : Z -> int -> int -> int -> MatrixCSR -> Z -> MatrixBCSR -> Z -> M (bool * MatrixBCSR) :=
  fun _ _ nrow ncol _ _ dst _ w =>
    Ok (true, mkMatrixBCSR 21 22 23 (nrow / blockdim dst) (ncol / blockdim dst)
                           (nrow / blockdim dst) (blockdim dst)) w.

(** How the cross-format path of [ConvertFrom] ends, given how the kernel
    call [r] ended; [h1] is the cleared handle. *)
Definition converted (h1 : Handle) (r : Outcome (bool * MatrixBCSR))
  : Outcome (bool * Handle) :=
  match r with
  | Ok (true, m') w' =>
      Ok (true, set_shape (derived_nrow m') (derived_ncol m') (derived_nnz m')
                          (set_mat m' h1)) w'
  | Ok (false, m') w' => Ok (false, set_mat m' h1) w'
  | Abort w' => Abort w'
  | Fatal w' => Fatal w'
  end.

(** How a multiply ends, given how the kernel call [r] ended: the status
    check after the call. *)
Definition checked (r : Outcome rocsparse_status) : Outcome unit :=
  match r with
  | Ok rocsparse_status_success w' => Ok tt w'
  | Ok (rocsparse_status_error _) w' => Fatal w'
  | Abort w' => Abort w'
  | Fatal w' => Fatal w'
  end.

(** The kernel call a multiply records before it hands over to the kernel. *)
Definition bsrmv_event (row_major : bool) (h : Handle) (x y : BaseVector) : Event :=
  EvBsrmv row_major (nrowb (mat_ h)) (ncolb (mat_ h)) (nnzb (mat_ h))
          (val (mat_ h)) (row_offset (mat_ h)) (col (mat_ h)) (blockdim (mat_ h))
          (vec_ x) (vec_ y).

(** A multiply kernel that reports an error. *)
Definition failing_multiply
  : Z -> bool -> int -> int -> int -> Z -> Z -> ptr -> ptr -> ptr -> int ->
    ptr -> Z -> ptr -> M rocsparse_status :=
  fun _ _ _ _ _ _ _ _ _ _ _ _ _ _ w => Ok (rocsparse_status_error 3) w.

(** A vector of three elements, one short of the four columns of the
    one-block matrix. *)
Definition short_vector : BaseVector := mkBaseVector C_HIPAcceleratorVector 3 60.

(** The value copies of a synchronous and an asynchronous run compared: the
    third copy each issued, [n] the number of values of the layout [m]. *)
Definition value_copies_compared (T : ValueType) (m : MatrixBCSR)
    (sync async : list Event) : Prop :=
  let n := nnzb m * blockdim m * blockdim m in
  exists e_sync e_async,
    sync !! 2%nat = Some e_sync /\
    async !! 2%nat = Some e_async /\
    copy_bytes e_sync = sizeof T * n /\
    copy_bytes e_async = 4 * n /\
    (copy_bytes e_async = copy_bytes e_sync <-> T = VT_float) /\
    (T <> VT_float -> copy_bytes e_async < copy_bytes e_sync).




(** * Properties *)

(** ** Arithmetic *)

Lemma Int_wrap_exact z : Int.in_range z -> Int.wrap z = z.
Proof.
  unfold Int.in_range, Int.min_signed, Int.max_signed, Int.wrap. intros Hz.
  rewrite Z.mod_small; lia.
Qed.

Lemma Int_mul_exact a b : Int.in_range (a * b) -> Int.mul a b = a * b.
Proof. apply Int_wrap_exact. Qed.

Lemma Int_add_exact a b : Int.in_range (a + b) -> Int.add a b = a + b.
Proof. apply Int_wrap_exact. Qed.

Lemma Int_mul_0_r a : Int.mul a 0 = 0.
Proof. unfold Int.mul. rewrite Z.mul_0_r. reflexivity. Qed.

(** ** Running the monad *)

Lemma bind_Ok {A B} (c : M A) (k : A -> M B) w b w' :
  bind c k w = Ok b w' <-> exists a w1, c w = Ok a w1 /\ k a w1 = Ok b w'.
Proof.
  unfold bind. split.
  - destruct (c w) as [a w1 | w1 | w1]; try discriminate. intros E. by exists a, w1.
  - intros (a & w1 & -> & E). exact E.
Qed.

Lemma assert_Ok b w u w' : assert b w = Ok u w' <-> b = true /\ w' = w.
Proof.
  unfold assert. destruct b, u; split.
  - intros [= ->]. by split.
  - intros [_ ->]. reflexivity.
  - discriminate.
  - intros [[=] _].
Qed.

Lemma ret_Ok {A} (a : A) w a' w' : ret a w = Ok a' w' <-> a' = a /\ w' = w.
Proof. unfold ret. split; [intros [= -> ->]; by split | intros [-> ->]; reflexivity]. Qed.

Lemma emit_Ok e w u w' :
  emit e w = Ok u w' <-> w' = mkWorld (heap w) (next_ptr w) (trace w ++ [e]).
Proof.
  unfold emit. destruct u. split; [intros [= <-]; reflexivity | intros ->; reflexivity].
Qed.

(** Take a returning run apart, one statement at a time. *)
Ltac run_inv :=
  repeat match goal with
  | H : bind _ _ _ = Ok _ _ |- _ =>
      apply bind_Ok in H; destruct H as (? & ? & ? & ?)
  | H : assert _ _ = Ok _ _ |- _ =>
      apply assert_Ok in H; destruct H as [? ?]; simplify_eq
  | H : ret _ _ = Ok _ _ |- _ =>
      apply ret_Ok in H; destruct H as [? ?]; simplify_eq
  | H : emit _ _ = Ok _ _ |- _ => apply emit_Ok in H; simplify_eq
  | H : hipMemcpy _ _ _ _ _ = Ok _ _ |- _ => unfold hipMemcpy in H
  | H : hipMemcpyAsync _ _ _ _ _ = Ok _ _ |- _ => unfold hipMemcpyAsync in H
  | H : hipDeviceSynchronize _ = Ok _ _ |- _ => unfold hipDeviceSynchronize in H
  | H : LOG_INFO _ _ = Ok _ _ |- _ => unfold LOG_INFO in H
  | H : FATAL_ERROR _ = Ok _ _ |- _ => discriminate H
  | H : when ?b _ _ = Ok _ _ |- _ => unfold when in H; destruct b eqn:?
  end.

(** ** Clear and Allocate *)

Lemma Clear_in_returns sp h w :
  exists h' w', Clear_in sp h w = Ok h' w' /\
    blockdim_ h' = blockdim_ h /\
    nnz_ h' <= 0 /\
    (populated_or_empty h -> empty_state h') /\
    (nnz_ h <= 0 -> h' = h /\ w' = w).
Proof.
  unfold Clear_in. destruct (Z.ltb_spec 0 (nnz_ h)) as [Hpos | Hle].
  - eexists _, _. split; [reflexivity |]. cbn.
    split; [reflexivity |]. split; [lia |]. split; [| lia].
    intros _. repeat split.
  - exists h, w. split; [reflexivity |].
    split; [reflexivity |]. split; [lia |]. split; [| tauto].
    intros [Hp | He]; [lia | exact He].
Qed.

Lemma Clear_in_eq sp h w :
  Clear_in sp h w
  = if 0 <? nnz_ h then Ok (cleared h) (cleared_world sp h w) else Ok h w.
Proof.
  unfold Clear_in, cleared, cleared_world, three_frees, bind, free, ret.
  destruct (0 <? nnz_ h); [| reflexivity].
  cbn. rewrite <- !app_assoc. reflexivity.
Qed.

Lemma zero_fill_fresh k : zero_fill k (replicate k None) = replicate k zero_byte.
Proof.
  unfold zero_fill. rewrite length_replicate, Nat.min_id.
  rewrite drop_replicate, Nat.sub_diag. cbn. apply app_nil_r.
Qed.

Lemma AllocateBCSR_in_returns sp T nnzb0 nrowb0 ncolb0 blockdim0 h w :
  0 <= nnzb0 -> 0 <= nrowb0 -> 0 <= ncolb0 -> 1 < blockdim0 ->
  exists h1 w1 h' w',
    (if 0 <? nnz_ h then Clear_in sp h w else Ok h w) = Ok h1 w1 /\
    AllocateBCSR_in sp T nnzb0 nrowb0 ncolb0 blockdim0 h w = Ok h' w' /\
    (0 < nnzb0 -> allocated sp T nnzb0 nrowb0 ncolb0 blockdim0 h1 w1 h' w') /\
    (nnzb0 = 0 -> h' = h1 /\ w' = w1).
Proof.
  intros Hnnzb Hnrowb Hncolb Hbd.
  unfold AllocateBCSR_in, bind, assert.
  rewrite (proj2 (Z.leb_le _ _) Hnnzb), (proj2 (Z.leb_le _ _) Hncolb),
          (proj2 (Z.leb_le _ _) Hnrowb), (proj2 (Z.ltb_lt _ _) Hbd).
  assert (exists h1 w1, (if 0 <? nnz_ h then Clear_in sp h w else Ok h w) = Ok h1 w1)
    as (h1 & w1 & Hclear).
  { destruct (0 <? nnz_ h); [| by eexists _, _].
    destruct (Clear_in_returns sp h w) as (h1 & w1 & E & _). by exists h1, w1. }
  assert ((if 0 <? nnz_ h then Clear_in sp h else ret h) w = Ok h1 w1) as ->.
  { destruct (0 <? nnz_ h); exact Hclear. }
  exists h1, w1.
  destruct (Z.ltb_spec 0 nnzb0) as [Hpos | Hzero].
  - eexists _, _. split; [exact Hclear |]. split; [reflexivity |].
    split; [| lia]. intros _. unfold allocated. cbn.
    set (p := next_ptr w1).
    replace (p + 1 + 1) with (p + 2) by lia.
    split; [reflexivity |].
    repeat split.
    + rewrite lookup_alter_ne by lia. rewrite lookup_alter_ne by lia.
      rewrite lookup_alter_eq.
      rewrite lookup_insert_ne by lia. rewrite lookup_insert_ne by lia.
      rewrite lookup_insert_eq. cbn. f_equal. apply zero_fill_fresh.
    + rewrite lookup_alter_ne by lia. rewrite lookup_alter_eq.
      rewrite lookup_alter_ne by lia.
      rewrite lookup_insert_ne by lia. rewrite lookup_insert_eq.
      cbn. f_equal. apply zero_fill_fresh.
    + rewrite lookup_alter_eq.
      rewrite lookup_alter_ne by lia. rewrite lookup_alter_ne by lia.
      rewrite lookup_insert_eq. cbn. f_equal. apply zero_fill_fresh.
  - exists h1, w1. split; [exact Hclear |]. split; [reflexivity |].
    split; [lia | tauto].
Qed.

(** ** Conversion of sources without a kernel path *)

Section KernelFacts.

Variable csr_to_bcsr_hip :
  Z -> int -> int -> int -> MatrixCSR -> Z -> MatrixBCSR -> Z -> M (bool * MatrixBCSR).

Lemma ConvertFrom_unsupported T mat h w :
  convert_unsupported mat ->
  exists h1 w1,
    Clear h w = Ok h1 w1 /\
    ConvertFrom csr_to_bcsr_hip T mat h w
    = Ok (if GetNnz mat =? 0 then true else false, h1) w1.
Proof.
  intros Hmat. destruct (Clear_in_returns OnDevice h w) as (h1 & w1 & E & _).
  exists h1, w1. split; [exact E |].
  unfold ConvertFrom, bind. unfold Clear in *. rewrite E.
  destruct (GetNnz mat =? 0); [reflexivity |].
  destruct mat as [[d | f n] | d | c | f n]; cbn in Hmat; try contradiction;
    reflexivity.
Qed.

Lemma ConvertFrom_empty_source T mat h w :
  GetNnz mat = 0 ->
  exists h1 w1,
    Clear h w = Ok h1 w1 /\
    ConvertFrom csr_to_bcsr_hip T mat h w = Ok (true, h1) w1.
Proof.
  intros Hnnz. destruct (Clear_in_returns OnDevice h w) as (h1 & w1 & E & _).
  exists h1, w1. split; [exact E |].
  unfold ConvertFrom, bind. unfold Clear in *. rewrite E, Hnnz. reflexivity.
Qed.

End KernelFacts.

(** ** The target block dimension [blockdim_] *)

Lemma Clear_in_blockdim_ sp h w h' w' :
  Clear_in sp h w = Ok h' w' -> blockdim_ h' = blockdim_ h.
Proof.
  intros E. destruct (Clear_in_returns sp h w) as (h1 & w1 & E1 & Hbd & _).
  congruence.
Qed.

Lemma AllocateBCSR_in_blockdim_ sp T nnzb0 nrowb0 ncolb0 blockdim0 h w h' w' :
  AllocateBCSR_in sp T nnzb0 nrowb0 ncolb0 blockdim0 h w = Ok h' w' ->
  blockdim_ h' = blockdim_ h.
Proof.
  unfold AllocateBCSR_in. intros E. run_inv.
  repeat match goal with
  | H : (if ?b then _ else _) _ = Ok _ _ |- _ => destruct b eqn:?
  | H : Clear_in _ _ _ = Ok _ _ |- _ => apply Clear_in_blockdim_ in H
  end; run_inv; unfold allocate, set_to_zero in *; simplify_eq; cbn; congruence.
Qed.

Lemma LeaveDataPtrBCSR_blockdim_ h w out h' w' :
  LeaveDataPtrBCSR h w = Ok (out, h') w' -> blockdim_ h' = blockdim_ h.
Proof. unfold LeaveDataPtrBCSR. intros E. run_inv. reflexivity. Qed.

Lemma SetDataPtrBCSR_blockdim_ r c v nnzb0 nrowb0 ncolb0 blockdim0 h w h' w' :
  SetDataPtrBCSR r c v nnzb0 nrowb0 ncolb0 blockdim0 h w = Ok h' w' ->
  blockdim_ h' = blockdim0.
Proof. unfold SetDataPtrBCSR. intros E. run_inv. reflexivity. Qed.

(** The allocate-on-first-use step of every transfer. *)
Lemma first_use_blockdim_ sp T (b : bool) n1 n2 n3 n4 h w h' w' :
  (if b then AllocateBCSR_in sp T n1 n2 n3 n4 h else ret h) w = Ok h' w' ->
  blockdim_ h' = blockdim_ h.
Proof.
  destruct b; intros E; [by eapply AllocateBCSR_in_blockdim_ | by run_inv].
Qed.

Lemma CopyFromHost_blockdim_ T src h w h' w' :
  CopyFromHost T src h w = Ok h' w' -> blockdim_ h' = blockdim_ h.
Proof.
  unfold CopyFromHost, unsupported_type. intros E. run_inv.
  destruct src; run_inv.
  match goal with H : (if _ then _ else _) _ = Ok _ _ |- _ =>
    apply first_use_blockdim_ in H end.
  congruence.
Qed.

Lemma CopyFromHostAsync_blockdim_ T src h w h' w' :
  CopyFromHostAsync T src h w = Ok h' w' -> blockdim_ h' = blockdim_ h.
Proof.
  unfold CopyFromHostAsync, unsupported_type. intros E. run_inv.
  destruct src; run_inv;
  match goal with H : (if _ then _ else _) _ = Ok _ _ |- _ =>
    apply first_use_blockdim_ in H end;
  congruence.
Qed.

Lemma CopyFrom_blockdim_ T src h w h' w' :
  CopyFrom T src h w = Ok h' w' -> blockdim_ h' = blockdim_ h.
Proof.
  unfold CopyFrom, unsupported_type. intros E. run_inv.
  destruct src; run_inv.
  - by eapply CopyFromHost_blockdim_.
  - match goal with H : (if _ then _ else _) _ = Ok _ _ |- _ =>
      apply first_use_blockdim_ in H end.
    congruence.
Qed.

Lemma CopyFromAsync_blockdim_ T src h w h' w' :
  CopyFromAsync T src h w = Ok h' w' -> blockdim_ h' = blockdim_ h.
Proof.
  unfold CopyFromAsync, unsupported_type. intros E. run_inv.
  destruct src; run_inv; try by eapply CopyFromHostAsync_blockdim_.
  all: match goal with H : (if _ then _ else _) _ = Ok _ _ |- _ =>
      apply first_use_blockdim_ in H end; congruence.
Qed.

Lemma CopyToHost_blockdim_ T dst h w dst' w' :
  CopyToHost T dst h w = Ok dst' w' ->
  operand_blockdim_ (Host dst') = operand_blockdim_ (Host dst).
Proof.
  unfold CopyToHost, unsupported_type. intros E. run_inv.
  destruct dst; run_inv.
  match goal with H : (if _ then _ else _) _ = Ok _ _ |- _ =>
    apply first_use_blockdim_ in H end.
  cbn in *. congruence.
Qed.

Lemma CopyToHostAsync_blockdim_ T dst h w dst' w' :
  CopyToHostAsync T dst h w = Ok dst' w' ->
  operand_blockdim_ (Host dst') = operand_blockdim_ (Host dst).
Proof.
  unfold CopyToHostAsync, unsupported_type. intros E. run_inv.
  destruct dst; run_inv;
  match goal with H : (if _ then _ else _) _ = Ok _ _ |- _ =>
    apply first_use_blockdim_ in H end;
  cbn in *; congruence.
Qed.

Lemma CopyTo_blockdim_ T dst h w dst' w' :
  CopyTo T dst h w = Ok dst' w' -> operand_blockdim_ dst' = operand_blockdim_ dst.
Proof.
  unfold CopyTo, unsupported_type. intros E. run_inv.
  destruct dst; run_inv.
  - by eapply CopyToHost_blockdim_.
  - match goal with H : (if _ then _ else _) _ = Ok _ _ |- _ =>
      apply first_use_blockdim_ in H end.
    cbn in *. congruence.
Qed.

Lemma CopyToAsync_blockdim_ T dst h w dst' w' :
  CopyToAsync T dst h w = Ok dst' w' -> operand_blockdim_ dst' = operand_blockdim_ dst.
Proof.
  unfold CopyToAsync, unsupported_type. intros E. run_inv.
  destruct dst; run_inv; try by eapply CopyToHostAsync_blockdim_.
  all: match goal with H : (if _ then _ else _) _ = Ok _ _ |- _ =>
      apply first_use_blockdim_ in H end; cbn in *; congruence.
Qed.

Lemma ConvertFrom_blockdim_ k T mat h w ok h' w' :
  ConvertFrom k T mat h w = Ok (ok, h') w' -> blockdim_ h' = blockdim_ h.
Proof.
  unfold ConvertFrom. intros E. run_inv.
  match goal with H : Clear _ _ = Ok _ _ |- _ => apply Clear_in_blockdim_ in H end.
  destruct (GetNnz mat =? 0); run_inv; [congruence |].
  destruct mat; run_inv; try congruence.
  - match goal with H : CopyFrom _ _ _ _ = Ok _ _ |- _ =>
      apply CopyFrom_blockdim_ in H end. congruence.
  - match goal with H : Clear _ _ = Ok _ _ |- _ => apply Clear_in_blockdim_ in H end.
    match goal with H : (if ?b then _ else _) _ = Ok _ _ |- _ => destruct b end;
      run_inv; cbn; congruence.
Qed.

(** ** Allocate: shape and zero-filled arrays *)

(** C5.  For all [nnzb, nrowb, ncolb >= 0] and [blockdim > 1], on a handle
    that is populated or empty, [AllocateBCSR] returns.  If [nnzb > 0] the
    scalar shape is [nrow == nrowb * blockdim], [ncol == ncolb * blockdim],
    [nnz == nnzb * blockdim * blockdim] (the [int] products of the code, which
    are the exact products whenever those fit in an [int]), the layout holds
    the four counts, and the row-offset, column-index and value arrays are
    allocated with [nrowb + 1], [nnzb] and [nnz] elements, every byte zero.
    If [nnzb == 0] the handle is left in the empty state. *)
Theorem AllocateBCSR_postcondition T nnzb0 nrowb0 ncolb0 blockdim0 h w :
  0 <= nnzb0 -> 0 <= nrowb0 -> 0 <= ncolb0 -> 1 < blockdim0 ->
  populated_or_empty h ->
  exists h' w',
    AllocateBCSR T nnzb0 nrowb0 ncolb0 blockdim0 h w = Ok h' w' /\
    (0 < nnzb0 ->
       nrow_ h' = Int.mul nrowb0 blockdim0 /\
       ncol_ h' = Int.mul ncolb0 blockdim0 /\
       nnz_ h' = Int.mul (Int.mul nnzb0 blockdim0) blockdim0 /\
       (Int.in_range (nrowb0 * blockdim0) -> nrow_ h' = nrowb0 * blockdim0) /\
       (Int.in_range (ncolb0 * blockdim0) -> ncol_ h' = ncolb0 * blockdim0) /\
       (Int.in_range (nnzb0 * blockdim0 * blockdim0) ->
          nnz_ h' = nnzb0 * blockdim0 * blockdim0) /\
       (nrowb (mat_ h'), ncolb (mat_ h'), nnzb (mat_ h'), blockdim (mat_ h'))
         = (nrowb0, ncolb0, nnzb0, blockdim0) /\
       heap w' !! row_offset (mat_ h') = Some (zeros (Int.add nrowb0 1) sizeof_int) /\
       heap w' !! col (mat_ h') = Some (zeros nnzb0 sizeof_int) /\
       heap w' !! val (mat_ h') = Some (zeros (nnz_ h') (sizeof T))) /\
    (nnzb0 = 0 -> empty_state h').
Proof.
  intros Hnnzb Hnrowb Hncolb Hbd Hh.
  destruct (AllocateBCSR_in_returns OnDevice T nnzb0 nrowb0 ncolb0 blockdim0 h w)
    as (h1 & w1 & h' & w' & Hclear & Hrun & Hpos & Hzero); try assumption.
  exists h', w'. split; [exact Hrun |]. split.
  - intros Hp. destruct (Hpos Hp) as (-> & Hr & Hc & Hv). cbn.
    repeat split; try assumption.
    + apply Int_mul_exact.
    + apply Int_mul_exact.
    + intros Hfit. rewrite (Int_mul_exact nnzb0 blockdim0).
      * by apply Int_mul_exact.
      * unfold Int.in_range, Int.min_signed, Int.max_signed in *. nia.
  - intros Hz. destruct (Hzero Hz) as [-> ->].
    destruct (0 <? nnz_ h) eqn:Hn.
    + destruct (Clear_in_returns OnDevice h w) as (h2 & w2 & E & _ & _ & Hempty & _).
      rewrite E in Hclear. simplify_eq. by apply Hempty.
    + simplify_eq. destruct Hh as [Hp | He]; [lia | exact He].
Qed.

Lemma AllocateBCSR_postcondition_witness :
  (0 <= 1 /\ 0 <= 2 /\ 0 <= 2 /\ 1 < 2 /\ populated_or_empty fresh_handle) /\
  exists h' w',
    AllocateBCSR VT_double 1 2 2 2 fresh_handle initial_world = Ok h' w' /\
    nnz_ h' = 4 /\
    heap w' !! val (mat_ h') = Some (replicate 32 zero_byte).
Proof.
  assert (populated_or_empty fresh_handle) as Hfresh.
  { right. repeat split. }
  split; [repeat split; try lia; exact Hfresh |].
  destruct (AllocateBCSR_postcondition VT_double 1 2 2 2 fresh_handle initial_world)
    as (h' & w' & Hrun & Hpos & _); try lia; try exact Hfresh.
  exists h', w'. split; [exact Hrun |].
  destruct Hpos as (_ & _ & Hnnz & _ & _ & _ & _ & _ & _ & Hval); [lia |].
  rewrite Hval, Hnnz. split; reflexivity.
Defined.

(** ** Ownership transfer *)

Lemma SetDataPtrBCSR_returns p_r p_c p_v nnzb0 nrowb0 ncolb0 blockdim0 h w :
  p_r <> NULL -> p_c <> NULL -> p_v <> NULL ->
  0 < nnzb0 -> 0 < nrowb0 -> 0 < ncolb0 -> 1 < blockdim0 ->
  exists h1 w1,
    Clear h w = Ok h1 w1 /\
    SetDataPtrBCSR p_r p_c p_v nnzb0 nrowb0 ncolb0 blockdim0 h w =
      Ok (mkHandle (Int.mul nrowb0 blockdim0) (Int.mul ncolb0 blockdim0)
                   (Int.mul (Int.mul nnzb0 blockdim0) blockdim0) blockdim0
                   (mkMatrixBCSR p_r p_c p_v nrowb0 ncolb0 nnzb0 blockdim0)
                   (mat_descr_ h1) (local_backend_ h1))
         (mkWorld (heap w1) (next_ptr w1) (trace w1 ++ [EvDeviceSynchronize])).
Proof.
  intros Hr Hc Hv Hnnzb Hnrowb Hncolb Hbd.
  destruct (Clear_in_returns OnDevice h w) as (h1 & w1 & E & _).
  exists h1, w1. split; [exact E |].
  unfold SetDataPtrBCSR, bind, assert.
  rewrite (proj2 (Z.eqb_neq _ _) Hr), (proj2 (Z.eqb_neq _ _) Hc),
          (proj2 (Z.eqb_neq _ _) Hv). cbn [negb].
  rewrite (proj2 (Z.ltb_lt _ _) Hnnzb), (proj2 (Z.ltb_lt _ _) Hnrowb),
          (proj2 (Z.ltb_lt _ _) Hncolb), (proj2 (Z.ltb_lt _ _) Hbd).
  unfold Clear. rewrite E. reflexivity.
Qed.

(** C6.  For every handle, every three non-null arrays and every
    [nnzb, nrowb, ncolb > 0], [blockdim > 1] whose derived shape fits in an
    [int]: [SetDataPtrBCSR] followed immediately by [LeaveDataPtrBCSR]
    returns, hands back exactly the three pointers and the [blockdim] that
    were passed in, and leaves the handle in the empty state
    [nrow == 0, ncol == 0, nnz == 0]. *)
Theorem SetDataPtr_then_LeaveDataPtr p_r p_c p_v nnzb0 nrowb0 ncolb0 blockdim0 h w :
  p_r <> NULL -> p_c <> NULL -> p_v <> NULL ->
  0 < nnzb0 -> 0 < nrowb0 -> 0 < ncolb0 -> 1 < blockdim0 ->
  Int.in_range (nrowb0 * blockdim0) ->
  Int.in_range (ncolb0 * blockdim0) ->
  Int.in_range (nnzb0 * blockdim0 * blockdim0) ->
  exists h' w',
    (h1 <- SetDataPtrBCSR p_r p_c p_v nnzb0 nrowb0 ncolb0 blockdim0 h ;;
     LeaveDataPtrBCSR h1) w
      = Ok (mkLeftData p_r p_c p_v blockdim0, h') w' /\
    empty_state h' /\
    (row_offset (mat_ h'), col (mat_ h'), val (mat_ h')) = (NULL, NULL, NULL).
Proof.
  intros Hr Hc Hv Hnnzb Hnrowb Hncolb Hbd Hfr Hfc Hfn.
  destruct (SetDataPtrBCSR_returns p_r p_c p_v nnzb0 nrowb0 ncolb0 blockdim0 h w)
    as (h1 & w1 & _ & Hset); try assumption.
  assert (Int.in_range (nnzb0 * blockdim0)) as Hfb.
  { unfold Int.in_range, Int.min_signed, Int.max_signed in *. nia. }
  unfold bind at 1. rewrite Hset.
  unfold LeaveDataPtrBCSR, bind, assert. cbn.
  rewrite (Int_mul_exact nnzb0 blockdim0) by exact Hfb.
  rewrite !Int_mul_exact by assumption.
  rewrite (proj2 (Z.ltb_lt 0 (nrowb0 * blockdim0))) by nia.
  rewrite (proj2 (Z.ltb_lt 0 (ncolb0 * blockdim0))) by nia.
  rewrite (proj2 (Z.ltb_lt 0 (nnzb0 * blockdim0 * blockdim0))) by nia.
  rewrite (proj2 (Z.ltb_lt 1 blockdim0)) by lia.
  eexists _, _. split; [reflexivity |]. cbn. repeat split.
Qed.

Lemma SetDataPtr_then_LeaveDataPtr_witness :
  exists h' w',
    (h1 <- SetDataPtrBCSR 100 200 300 1 2 2 2 fresh_handle ;; LeaveDataPtrBCSR h1)
      initial_world
      = Ok (mkLeftData 100 200 300 2, h') w' /\
    empty_state h'.
Proof.
  destruct (SetDataPtr_then_LeaveDataPtr 100 200 300 1 2 2 2 fresh_handle initial_world)
    as (h' & w' & Hrun & Hempty & _);
    try (unfold NULL; lia);
    try (unfold Int.in_range, Int.min_signed, Int.max_signed; lia).
  exists h', w'. split; assumption.
Defined.

(** C10.  [AllocateBCSR] never writes the handle's own [blockdim_] member: it
    sets only [mat_.blockdim].  Whenever it returns, [blockdim_] is what it was
    before, and it does return on every argument list that passes its
    assertions.  The same holds for every other operation of the class on the
    object it updates ([Clear], [LeaveDataPtrBCSR], the eight transfers,
    [ConvertFrom], which only reads it to preset [mat_.blockdim]); the one
    writer is [SetDataPtrBCSR], which stores its [blockdim] argument. *)
Theorem blockdim__written_only_by_SetDataPtrBCSR :
  (forall T nnzb0 nrowb0 ncolb0 blockdim0,
      preserves_blockdim_ (AllocateBCSR T nnzb0 nrowb0 ncolb0 blockdim0)) /\
  (forall T nnzb0 nrowb0 ncolb0 blockdim0 h w,
      0 <= nnzb0 -> 0 <= nrowb0 -> 0 <= ncolb0 -> 1 < blockdim0 ->
      exists h' w', AllocateBCSR T nnzb0 nrowb0 ncolb0 blockdim0 h w = Ok h' w' /\
                    blockdim_ h' = blockdim_ h /\
                    (0 < nnzb0 -> blockdim (mat_ h') = blockdim0)) /\
  preserves_blockdim_ Clear /\
  (forall h w out h' w',
      LeaveDataPtrBCSR h w = Ok (out, h') w' -> blockdim_ h' = blockdim_ h) /\
  (forall T src, preserves_blockdim_ (CopyFromHost T src)) /\
  (forall T src, preserves_blockdim_ (CopyFrom T src)) /\
  (forall T src, preserves_blockdim_ (CopyFromHostAsync T src)) /\
  (forall T src, preserves_blockdim_ (CopyFromAsync T src)) /\
  (forall T dst h w dst' w',
      CopyToHost T dst h w = Ok dst' w' \/ CopyToHostAsync T dst h w = Ok dst' w' ->
      operand_blockdim_ (Host dst') = operand_blockdim_ (Host dst)) /\
  (forall T dst h w dst' w',
      CopyTo T dst h w = Ok dst' w' \/ CopyToAsync T dst h w = Ok dst' w' ->
      operand_blockdim_ dst' = operand_blockdim_ dst) /\
  (forall csr_to_bcsr_hip T mat h w ok h' w',
      ConvertFrom csr_to_bcsr_hip T mat h w = Ok (ok, h') w' ->
      blockdim_ h' = blockdim_ h) /\
  (forall p_r p_c p_v nnzb0 nrowb0 ncolb0 blockdim0 h w h' w',
      SetDataPtrBCSR p_r p_c p_v nnzb0 nrowb0 ncolb0 blockdim0 h w = Ok h' w' ->
      blockdim_ h' = blockdim0).
Proof.
  unfold preserves_blockdim_.
  split; [intros *; apply AllocateBCSR_in_blockdim_ |].
  split.
  { intros T nnzb0 nrowb0 ncolb0 blockdim0 h w H1 H2 H3 H4.
    destruct (AllocateBCSR_in_returns OnDevice T nnzb0 nrowb0 ncolb0 blockdim0 h w)
      as (h1 & w1 & h' & w' & _ & Hrun & Hpos & _); try assumption.
    exists h', w'. split; [exact Hrun |]. split.
    - by eapply AllocateBCSR_in_blockdim_.
    - intros Hp. destruct (Hpos Hp) as (-> & _). reflexivity. }
  split; [intros *; apply Clear_in_blockdim_ |].
  split; [intros *; apply LeaveDataPtrBCSR_blockdim_ |].
  split; [intros *; apply CopyFromHost_blockdim_ |].
  split; [intros *; apply CopyFrom_blockdim_ |].
  split; [intros *; apply CopyFromHostAsync_blockdim_ |].
  split; [intros *; apply CopyFromAsync_blockdim_ |].
  split.
  { intros * [E | E];
      [by eapply CopyToHost_blockdim_ | by eapply CopyToHostAsync_blockdim_]. }
  split.
  { intros * [E | E]; [by eapply CopyTo_blockdim_ | by eapply CopyToAsync_blockdim_]. }
  split; [intros *; apply ConvertFrom_blockdim_ |].
  intros *. apply SetDataPtrBCSR_blockdim_.
Qed.

Lemma blockdim__written_only_by_SetDataPtrBCSR_witness :
  exists h' w',
    AllocateBCSR VT_double 2 3 3 2 handle_blockdim3 initial_world = Ok h' w' /\
    blockdim_ h' = 3 /\ blockdim (mat_ h') = 2.
Proof.
  pose proof (proj1 blockdim__written_only_by_SetDataPtrBCSR
                VT_double 2 3 3 2 handle_blockdim3 initial_world) as Hframe.
  eexists _, _. split; [vm_compute; reflexivity |].
  split; [| reflexivity].
  eapply Hframe. vm_compute. reflexivity.
Defined.

(** ** The derived scalar shape *)

Lemma assert_same_shape_Ok a b w u w' :
  assert_same_shape a b w = Ok u w' <-> same_shape a b /\ w' = w.
Proof.
  unfold assert_same_shape, same_shape. split.
  - intros E. run_inv. repeat split; by apply Z.eqb_eq.
  - intros ((H1 & H2 & H3 & H4 & H5 & H6 & H7) & ->).
    unfold bind, assert.
    rewrite (proj2 (Z.eqb_eq _ _) H1), (proj2 (Z.eqb_eq _ _) H2),
            (proj2 (Z.eqb_eq _ _) H3), (proj2 (Z.eqb_eq _ _) H4),
            (proj2 (Z.eqb_eq _ _) H5), (proj2 (Z.eqb_eq _ _) H6),
            (proj2 (Z.eqb_eq _ _) H7).
    by destruct u.
Qed.

Lemma same_shape_consistent a b :
  same_shape a b -> shape_consistent b <-> shape_consistent a.
Proof.
  unfold same_shape, shape_consistent, derived_nrow, derived_ncol, derived_nnz.
  intros (H1 & H2 & H3 & H4 & H5 & H6 & H7).
  rewrite H1, H2, H3, H4, H5, H6, H7. reflexivity.
Qed.

Lemma same_shape_sym a b : same_shape a b -> same_shape b a.
Proof. unfold same_shape. intuition congruence. Qed.

Ltac run_shape :=
  repeat match goal with
  | H : assert_same_shape _ _ _ = Ok _ _ |- _ =>
      apply assert_same_shape_Ok in H; destruct H as [? ?]; simplify_eq
  end.

Lemma CopyFromHost_same_shape T src h w h' w' :
  CopyFromHost T src h w = Ok h' w' ->
  exists s, operand_handle (Host src) = Some s /\ same_shape h' s.
Proof.
  unfold CopyFromHost, unsupported_type. intros E. run_inv.
  destruct src; run_inv. run_shape. eexists. split; [reflexivity | assumption].
Qed.

Lemma CopyFromHostAsync_same_shape T src h w h' w' :
  CopyFromHostAsync T src h w = Ok h' w' ->
  exists s, operand_handle (Host src) = Some s /\ same_shape h' s.
Proof.
  unfold CopyFromHostAsync, unsupported_type. intros E. run_inv.
  destruct src; run_inv; run_shape; eexists; (split; [reflexivity | assumption]).
Qed.

Lemma CopyFrom_same_shape T src h w h' w' :
  CopyFrom T src h w = Ok h' w' ->
  exists s, operand_handle src = Some s /\ same_shape h' s.
Proof.
  unfold CopyFrom, unsupported_type. intros E. run_inv.
  destruct src; run_inv; [by eapply CopyFromHost_same_shape |].
  run_shape. eexists. split; [reflexivity | assumption].
Qed.

Lemma CopyFromAsync_same_shape T src h w h' w' :
  CopyFromAsync T src h w = Ok h' w' ->
  exists s, operand_handle src = Some s /\ same_shape h' s.
Proof.
  unfold CopyFromAsync, unsupported_type. intros E. run_inv.
  destruct src; run_inv; try by eapply CopyFromHostAsync_same_shape.
  all: run_shape; eexists; (split; [reflexivity | assumption]).
Qed.

Lemma CopyToHost_same_shape T dst h w dst' w' :
  CopyToHost T dst h w = Ok dst' w' ->
  exists d, operand_handle (Host dst') = Some d /\ same_shape h d.
Proof.
  unfold CopyToHost, unsupported_type. intros E. run_inv.
  destruct dst; run_inv. run_shape. eexists. split; [reflexivity | assumption].
Qed.

Lemma CopyToHostAsync_same_shape T dst h w dst' w' :
  CopyToHostAsync T dst h w = Ok dst' w' ->
  exists d, operand_handle (Host dst') = Some d /\ same_shape h d.
Proof.
  unfold CopyToHostAsync, unsupported_type. intros E. run_inv.
  destruct dst; run_inv; run_shape; eexists; (split; [reflexivity | assumption]).
Qed.

Lemma CopyTo_same_shape T dst h w dst' w' :
  CopyTo T dst h w = Ok dst' w' ->
  exists d, operand_handle dst' = Some d /\ same_shape h d.
Proof.
  unfold CopyTo, unsupported_type. intros E. run_inv.
  destruct dst; run_inv; [by eapply CopyToHost_same_shape |].
  run_shape. eexists. split; [reflexivity | assumption].
Qed.

Lemma CopyToAsync_same_shape T dst h w dst' w' :
  CopyToAsync T dst h w = Ok dst' w' ->
  exists d, operand_handle dst' = Some d /\ same_shape h d.
Proof.
  unfold CopyToAsync, unsupported_type. intros E. run_inv.
  destruct dst; run_inv; try by eapply CopyToHostAsync_same_shape.
  all: run_shape; eexists; (split; [reflexivity | assumption]).
Qed.

Lemma Clear_in_counts sp h w h' w' :
  Clear_in sp h w = Ok h' w' -> counts (mat_ h') = counts (mat_ h).
Proof.
  unfold Clear_in. destruct (0 <? nnz_ h); intros E.
  - unfold free in E. run_inv. reflexivity.
  - run_inv. reflexivity.
Qed.

Lemma AllocateBCSR_in_shape_consistent sp T nnzb0 nrowb0 ncolb0 blockdim0 h w h' w' :
  0 < nnzb0 ->
  AllocateBCSR_in sp T nnzb0 nrowb0 ncolb0 blockdim0 h w = Ok h' w' ->
  shape_consistent h' /\ counts (mat_ h') = (nrowb0, ncolb0, nnzb0, blockdim0).
Proof.
  intros Hpos. unfold AllocateBCSR_in. intros E. run_inv.
  rewrite (proj2 (Z.ltb_lt _ _) Hpos) in *.
  unfold allocate, set_to_zero in *. run_inv. simplify_eq.
  split; [repeat split | reflexivity].
Qed.

Lemma SetDataPtrBCSR_shape_consistent p_r p_c p_v nnzb0 nrowb0 ncolb0 blockdim0 h w h' w' :
  SetDataPtrBCSR p_r p_c p_v nnzb0 nrowb0 ncolb0 blockdim0 h w = Ok h' w' ->
  shape_consistent h' /\ counts (mat_ h') = (nrowb0, ncolb0, nnzb0, blockdim0).
Proof.
  unfold SetDataPtrBCSR. intros E. run_inv. split; [repeat split | reflexivity].
Qed.

Lemma LeaveDataPtrBCSR_shape_consistent h w out h' w' :
  LeaveDataPtrBCSR h w = Ok (out, h') w' ->
  shape_consistent h' /\ empty_state h' /\ blockdim (mat_ h') = 0.
Proof.
  unfold LeaveDataPtrBCSR. intros E. run_inv.
  split; [| split; [repeat split | reflexivity]].
  unfold shape_consistent, derived_nrow, derived_ncol, derived_nnz. cbn.
  rewrite !Int_mul_0_r. repeat split.
Qed.

Lemma ConvertFrom_csr_success k T cm h w h' w' :
  csr_nnz_ cm <> 0 ->
  ConvertFrom k T (HIPAcceleratorMatrixCSR cm) h w = Ok (true, h') w' ->
  shape_consistent h'.
Proof.
  intros Hnnz. unfold ConvertFrom. intros E. run_inv.
  cbn [GetNnz] in *. rewrite (proj2 (Z.eqb_neq _ _) Hnnz) in *. run_inv.
  match goal with H : (if ?b then _ else _) _ = Ok _ _ |- _ => destruct b end;
    run_inv.
  repeat split.
Qed.

Lemma ConvertFrom_same_class k T s h w ok h' w' :
  nnz_ s <> 0 ->
  ConvertFrom k T (HIPAcceleratorMatrixBCSR s) h w = Ok (ok, h') w' ->
  ok = true /\ same_shape h' s.
Proof.
  intros Hnnz. unfold ConvertFrom. intros E. run_inv.
  cbn [GetNnz] in *. rewrite (proj2 (Z.eqb_neq _ _) Hnnz) in *. run_inv.
  split; [reflexivity |].
  match goal with H : CopyFrom _ _ _ _ = Ok _ _ |- _ =>
    apply CopyFrom_same_shape in H; destruct H as (s' & Hs & Hsame) end.
  cbn in Hs. by simplify_eq.
Qed.

(** C3 (as the code has it).  The derived equalities
    [nrow == nrowb * blockdim], [ncol == ncolb * blockdim],
    [nnz == nnzb * blockdim * blockdim] hold on the handle when
    [AllocateBCSR] with [nnzb > 0], [SetDataPtrBCSR], [LeaveDataPtrBCSR] or a
    successful cross-format [ConvertFrom] returns.  When a transfer returns
    (also as the same-class path of [ConvertFrom]) the seven shape fields of
    the destination equal those of the source, so the equalities hold on the
    one exactly when they hold on the other.  [Clear] resets only
    [nrow, ncol, nnz]: it leaves a populated-or-empty handle in the empty
    state and the four counts of the layout as they were. *)
Theorem derived_shape_after_mutation :
  (forall T nnzb0 nrowb0 ncolb0 blockdim0 h w h' w',
      0 < nnzb0 ->
      AllocateBCSR T nnzb0 nrowb0 ncolb0 blockdim0 h w = Ok h' w' ->
      shape_consistent h') /\
  (forall p_r p_c p_v nnzb0 nrowb0 ncolb0 blockdim0 h w h' w',
      SetDataPtrBCSR p_r p_c p_v nnzb0 nrowb0 ncolb0 blockdim0 h w = Ok h' w' ->
      shape_consistent h') /\
  (forall h w out h' w',
      LeaveDataPtrBCSR h w = Ok (out, h') w' -> shape_consistent h' /\ empty_state h') /\
  (forall csr_to_bcsr_hip T cm h w h' w',
      csr_nnz_ cm <> 0 ->
      ConvertFrom csr_to_bcsr_hip T (HIPAcceleratorMatrixCSR cm) h w = Ok (true, h') w' ->
      shape_consistent h') /\
  (forall csr_to_bcsr_hip T s h w ok h' w',
      nnz_ s <> 0 ->
      ConvertFrom csr_to_bcsr_hip T (HIPAcceleratorMatrixBCSR s) h w = Ok (ok, h') w' ->
      same_shape h' s /\ (shape_consistent s <-> shape_consistent h')) /\
  (forall T src h w h' w',
      CopyFrom T src h w = Ok h' w' \/ CopyFromAsync T src h w = Ok h' w' ->
      exists s, operand_handle src = Some s /\ same_shape h' s /\
                (shape_consistent s <-> shape_consistent h')) /\
  (forall T src h w h' w',
      CopyFromHost T src h w = Ok h' w' \/ CopyFromHostAsync T src h w = Ok h' w' ->
      exists s, operand_handle (Host src) = Some s /\ same_shape h' s /\
                (shape_consistent s <-> shape_consistent h')) /\
  (forall T dst h w dst' w',
      CopyTo T dst h w = Ok dst' w' \/ CopyToAsync T dst h w = Ok dst' w' ->
      exists d, operand_handle dst' = Some d /\ same_shape h d /\
                (shape_consistent h <-> shape_consistent d)) /\
  (forall T dst h w dst' w',
      CopyToHost T dst h w = Ok dst' w' \/ CopyToHostAsync T dst h w = Ok dst' w' ->
      exists d, operand_handle (Host dst') = Some d /\ same_shape h d /\
                (shape_consistent h <-> shape_consistent d)) /\
  (forall h w, exists h' w',
      Clear h w = Ok h' w' /\
      counts (mat_ h') = counts (mat_ h) /\
      (populated_or_empty h -> empty_state h')) /\
  (forall T nrowb0 ncolb0 blockdim0 h w,
      0 <= nrowb0 -> 0 <= ncolb0 -> 1 < blockdim0 ->
      AllocateBCSR T 0 nrowb0 ncolb0 blockdim0 h w
      = if 0 <? nnz_ h then Clear h w else Ok h w) /\
  (forall csr_to_bcsr_hip T mat h w,
      GetNnz mat = 0 ->
      exists h1 w1,
        Clear h w = Ok h1 w1 /\
        ConvertFrom csr_to_bcsr_hip T mat h w = Ok (true, h1) w1).
Proof.
  split; [intros * Hpos E; by eapply AllocateBCSR_in_shape_consistent |].
  split; [intros * E; by eapply SetDataPtrBCSR_shape_consistent |].
  split.
  { intros * E. apply LeaveDataPtrBCSR_shape_consistent in E. tauto. }
  split; [intros *; apply ConvertFrom_csr_success |].
  split.
  { intros * Hnnz E. apply ConvertFrom_same_class in E as [_ Hs]; [| exact Hnnz].
    split; [exact Hs | by apply same_shape_consistent]. }
  split.
  { intros * [E | E];
      [apply CopyFrom_same_shape in E | apply CopyFromAsync_same_shape in E];
      destruct E as (s & Hs & Hsame); exists s;
      (split; [exact Hs | split; [exact Hsame | by apply same_shape_consistent]]). }
  split.
  { intros * [E | E];
      [apply CopyFromHost_same_shape in E | apply CopyFromHostAsync_same_shape in E];
      destruct E as (s & Hs & Hsame); exists s;
      (split; [exact Hs | split; [exact Hsame | by apply same_shape_consistent]]). }
  split.
  { intros * [E | E];
      [apply CopyTo_same_shape in E | apply CopyToAsync_same_shape in E];
      destruct E as (d & Hd & Hsame); exists d;
      (split; [exact Hd | split; [exact Hsame |]]);
      apply same_shape_consistent; by apply same_shape_sym. }
  split.
  { intros * [E | E];
      [apply CopyToHost_same_shape in E | apply CopyToHostAsync_same_shape in E];
      destruct E as (d & Hd & Hsame); exists d;
      (split; [exact Hd | split; [exact Hsame |]]);
      apply same_shape_consistent; by apply same_shape_sym. }
  split.
  { intros h w.
    destruct (Clear_in_returns OnDevice h w) as (h' & w' & E & _ & _ & He & _).
    exists h', w'. split; [exact E |]. split; [by eapply Clear_in_counts | exact He]. }
  split.
  { intros T nrowb0 ncolb0 blockdim0 h w Hr Hc Hbd.
    destruct (AllocateBCSR_in_returns OnDevice T 0 nrowb0 ncolb0 blockdim0 h w)
      as (h1 & w1 & h' & w' & Hclear & Hrun & _ & Hzero); try assumption; try lia.
    destruct (Hzero eq_refl) as [-> ->]. unfold AllocateBCSR, Clear.
    by rewrite Hrun, Hclear. }
  intros k T mat h w Hnnz. by apply ConvertFrom_empty_source.
Qed.

Lemma derived_shape_after_mutation_witness :
  AllocateBCSR VT_double 1 2 2 2 fresh_handle initial_world
    = Ok one_block_handle one_block_world /\
  shape_consistent one_block_handle.
Proof.
  assert (AllocateBCSR VT_double 1 2 2 2 fresh_handle initial_world
          = Ok one_block_handle one_block_world) as Hrun by (vm_compute; reflexivity).
  split; [exact Hrun |].
  apply (proj1 derived_shape_after_mutation
           VT_double 1 2 2 2 fresh_handle initial_world one_block_handle one_block_world);
    [lia | exact Hrun].
Defined.

(** C3, as stated, fails: clearing the one-block matrix resets [nnz] to 0
    while the layout still says [nnzb * blockdim * blockdim = 4]. *)
Lemma Clear_leaves_layout_counts_stale :
  exists h' w',
    Clear one_block_handle one_block_world = Ok h' w' /\
    nnz_ h' = 0 /\
    Int.mul (Int.mul (nnzb (mat_ h')) (blockdim (mat_ h'))) (blockdim (mat_ h')) = 4 /\
    ~ shape_consistent h'.
Proof.
  eexists _, _. split; [vm_compute; reflexivity |].
  split; [reflexivity |]. split; [reflexivity |].
  intros (_ & _ & Hnnz). vm_compute in Hnnz. discriminate Hnnz.
Qed.

(** ** The copies a transfer issues *)

Lemma quiet_refl {A} (w : World) (o : Outcome A) : final_world o = w -> quiet w o.
Proof. intros E. exists []. rewrite E. by rewrite app_nil_r. Qed.

Lemma Clear_in_quiet sp h w : quiet w (Clear_in sp h w).
Proof.
  unfold Clear_in. destruct (0 <? nnz_ h).
  - eexists. cbn. rewrite <- !app_assoc. split; reflexivity.
  - by apply quiet_refl.
Qed.

Lemma AllocateBCSR_in_quiet sp T nnzb0 nrowb0 ncolb0 blockdim0 h w :
  quiet w (AllocateBCSR_in sp T nnzb0 nrowb0 ncolb0 blockdim0 h w).
Proof.
  unfold AllocateBCSR_in, bind, assert.
  destruct (0 <=? nnzb0); [| by apply quiet_refl].
  destruct (0 <=? ncolb0); [| by apply quiet_refl].
  destruct (0 <=? nrowb0); [| by apply quiet_refl].
  destruct (1 <? blockdim0); [| by apply quiet_refl].
  assert (exists h1 w1 es, (if 0 <? nnz_ h then Clear_in sp h else ret h) w = Ok h1 w1 /\
            trace w1 = trace w ++ es /\ copies es = []) as (h1 & w1 & es & -> & Ht & Hc).
  { destruct (0 <? nnz_ h).
    - destruct (Clear_in_returns sp h w) as (h1 & w1 & E & _).
      destruct (Clear_in_quiet sp h w) as (es & Ht & Hc). rewrite E in Ht.
      by exists h1, w1, es.
    - exists h, w, []. by rewrite app_nil_r. }
  destruct (0 <? nnzb0).
  - eexists. cbn. rewrite Ht, <- !app_assoc. split; [reflexivity |].
    unfold copies in *. rewrite List.filter_app, Hc. reflexivity.
  - by exists es.
Qed.

Lemma emits_issued {A} (w : World) (o : Outcome A) cs :
  emits w o cs -> issued_copies w o = cs.
Proof.
  intros (es & Ht & Hc). unfold issued_copies, new_events.
  rewrite Ht, drop_app_length. exact Hc.
Qed.

Lemma first_use_quiet sp T (b : bool) n1 n2 n3 n4 h w :
  quiet w ((if b then AllocateBCSR_in sp T n1 n2 n3 n4 h else ret h) w).
Proof. destruct b; [apply AllocateBCSR_in_quiet | by apply quiet_refl]. Qed.

Lemma unsupported_type_emits {A} c w :
  emits w (@unsupported_type A c w) [].
Proof.
  unfold unsupported_type, Operand_Info, Info, LOG_INFO.
  destruct c; (eexists; split; [cbn; rewrite <- !app_assoc; reflexivity | reflexivity]).
Qed.

Lemma same_shape_b_true a b : same_shape_b a b = true <-> same_shape a b.
Proof.
  unfold same_shape_b, same_shape. rewrite !andb_true_iff, !Z.eqb_eq. tauto.
Qed.

Lemma assert_same_shape_eq a b w :
  assert_same_shape a b w = if same_shape_b a b then Ok tt w else Abort w.
Proof.
  unfold assert_same_shape, same_shape_b, bind, assert.
  repeat match goal with |- context [?x =? ?y] => destruct (x =? y) end; reflexivity.
Qed.

Lemma with_events_nil w : with_events w [] = w.
Proof. destruct w. unfold with_events. cbn. by rewrite app_nil_r. Qed.

(** The body every synchronous transfer runs once the operand is cast. *)
Lemma sync_body_eq {A} (c : M Handle) (this_of other_of : Handle -> Handle)
    (wrap : Handle -> A) (dst_m src_m this_m : Handle -> MatrixBCSR) kind elt w :
  (x <- c ;;
   assert_same_shape (this_of x) (other_of x) ;;;
   hipMemcpy (row_offset (dst_m x)) (row_offset (src_m x))
             (row_offset_bytes (this_m x)) kind ;;;
   hipMemcpy (col (dst_m x)) (col (src_m x)) (col_bytes (this_m x)) kind ;;;
   hipMemcpy (val (dst_m x)) (val (src_m x)) (val_bytes elt (this_m x)) kind ;;;
   ret (wrap x)) w
  = finish (c w) this_of other_of wrap
      (fun x => three_copies false kind (dst_m x) (src_m x) (this_m x) elt).
Proof.
  unfold bind at 1, finish. destruct (c w) as [x w1 | w1 | w1]; try reflexivity.
  unfold bind at 1. rewrite assert_same_shape_eq.
  destruct (same_shape_b (this_of x) (other_of x)); [| reflexivity].
  unfold with_events. cbn. rewrite <- !app_assoc. reflexivity.
Qed.

(** The body every asynchronous transfer runs once the operand is cast: the
    copies are guarded by [this->nnz_ > 0] and the value copy is sized with
    [sizeof(int)]. *)
Lemma async_body_eq {A} (c : M Handle) (this_of other_of : Handle -> Handle)
    (wrap : Handle -> A) (dst_m src_m this_m : Handle -> MatrixBCSR) kind w :
  (x <- c ;;
   assert_same_shape (this_of x) (other_of x) ;;;
   when (0 <? nnz_ (this_of x))
     (hipMemcpyAsync (row_offset (dst_m x)) (row_offset (src_m x))
                     (row_offset_bytes (this_m x)) kind ;;;
      hipMemcpyAsync (col (dst_m x)) (col (src_m x)) (col_bytes (this_m x)) kind ;;;
      hipMemcpyAsync (val (dst_m x)) (val (src_m x))
                     (val_bytes sizeof_int (this_m x)) kind) ;;;
   ret (wrap x)) w
  = finish (c w) this_of other_of wrap
      (fun x => if 0 <? nnz_ (this_of x)
                then three_copies true kind (dst_m x) (src_m x) (this_m x) sizeof_int
                else []).
Proof.
  unfold bind at 1, finish. destruct (c w) as [x w1 | w1 | w1]; try reflexivity.
  unfold bind at 1. rewrite assert_same_shape_eq.
  destruct (same_shape_b (this_of x) (other_of x)); [| reflexivity].
  unfold when. destruct (0 <? nnz_ (this_of x)).
  - unfold with_events. cbn. rewrite <- !app_assoc. reflexivity.
  - cbn. by rewrite with_events_nil.
Qed.

(** *** Every transfer in normal form *)

Lemma CopyFrom_Host T hm h w : CopyFrom T (Host hm) h w = CopyFromHost T hm h w.
Proof.
  unfold CopyFrom, CopyFromHost, bind at 1, assert. cbn [GetMatFormat].
  destruct (MatFormat_eqb BCSR (Host_GetMatFormat hm)); reflexivity.
Qed.

Lemma CopyFromAsync_Host T hm h w :
  CopyFromAsync T (Host hm) h w = CopyFromHostAsync T hm h w.
Proof.
  unfold CopyFromAsync, CopyFromHostAsync, bind at 1, assert. cbn [GetMatFormat].
  destruct (MatFormat_eqb BCSR (Host_GetMatFormat hm)); reflexivity.
Qed.

Lemma CopyTo_Host T hm h w :
  CopyTo T (Host hm) h w = (d <- CopyToHost T hm h ;; ret (Host d)) w.
Proof.
  unfold CopyTo, CopyToHost, bind at 1, assert. cbn [GetMatFormat].
  destruct (MatFormat_eqb BCSR (Host_GetMatFormat hm)); reflexivity.
Qed.

Lemma CopyToAsync_Host T hm h w :
  CopyToAsync T (Host hm) h w = (d <- CopyToHostAsync T hm h ;; ret (Host d)) w.
Proof.
  unfold CopyToAsync, CopyToHostAsync, bind at 1, assert. cbn [GetMatFormat].
  destruct (MatFormat_eqb BCSR (Host_GetMatFormat hm)); reflexivity.
Qed.

Lemma CopyFrom_eq T src h w :
  CopyFrom T src h w =
  match operand_handle src with
  | Some s =>
      finish (first_use OnDevice T (nnz_ h =? 0) (mat_ s) h w)
             (fun x => x) (fun _ => s) (fun x => x) (copies_from false (sizeof T) src)
  | None => reject src w
  end.
Proof.
  destruct src as [[s | f n] | s | c | f n]; cbn [operand_handle].
  - rewrite CopyFrom_Host. unfold CopyFromHost, bind at 1, assert. cbn.
    exact (sync_body_eq _ (fun x => x) (fun _ => s) (fun x => x)
             (fun x => mat_ x) (fun _ => mat_ s) (fun x => mat_ x) _ _ w).
  - rewrite CopyFrom_Host. unfold CopyFromHost, reject. cbn [GetMatFormat Host_GetMatFormat].
    unfold bind at 1, assert. by destruct (MatFormat_eqb BCSR f).
  - unfold CopyFrom, bind at 1, assert. cbn.
    exact (sync_body_eq _ (fun x => x) (fun _ => s) (fun x => x)
             (fun x => mat_ x) (fun _ => mat_ s) (fun x => mat_ x) _ _ w).
  - reflexivity.
  - unfold CopyFrom, reject. cbn [GetMatFormat].
    unfold bind at 1, assert. by destruct (MatFormat_eqb BCSR f).
Qed.

Lemma CopyFromAsync_eq T src h w :
  CopyFromAsync T src h w =
  match operand_handle src with
  | Some s =>
      finish (first_use OnDevice T (nnz_ h =? 0) (mat_ s) h w)
             (fun x => x) (fun _ => s) (fun x => x)
             (fun x => if 0 <? nnz_ x then copies_from true sizeof_int src x else [])
  | None => reject src w
  end.
Proof.
  destruct src as [[s | f n] | s | c | f n]; cbn [operand_handle].
  - rewrite CopyFromAsync_Host. unfold CopyFromHostAsync, bind at 1, assert. cbn.
    exact (async_body_eq _ (fun x => x) (fun _ => s) (fun x => x)
             (fun x => mat_ x) (fun _ => mat_ s) (fun x => mat_ x) _ w).
  - rewrite CopyFromAsync_Host. unfold CopyFromHostAsync, reject.
    cbn [GetMatFormat Host_GetMatFormat].
    unfold bind at 1, assert. by destruct (MatFormat_eqb BCSR f).
  - unfold CopyFromAsync, bind at 1, assert. cbn.
    exact (async_body_eq _ (fun x => x) (fun _ => s) (fun x => x)
             (fun x => mat_ x) (fun _ => mat_ s) (fun x => mat_ x) _ w).
  - reflexivity.
  - unfold CopyFromAsync, reject. cbn [GetMatFormat].
    unfold bind at 1, assert. by destruct (MatFormat_eqb BCSR f).
Qed.

Lemma finish_map {A B} (g : A -> B) o1 this_of other_of (wrap : Handle -> A) cs w :
  (a <- (fun _ => finish o1 this_of other_of wrap cs) ;; ret (g a)) w
  = finish o1 this_of other_of (fun x => g (wrap x)) cs.
Proof.
  unfold bind, finish, ret. destruct o1 as [x w1 | w1 | w1]; try reflexivity.
  by destruct (same_shape_b (this_of x) (other_of x)).
Qed.

Lemma CopyToHost_eq T d h w :
  CopyToHost T (HostMatrixBCSR d) h w =
  finish (first_use OnHost T (nnz_ d =? 0) (mat_ h) (set_backend (local_backend_ h) d) w)
         (fun _ => h) (fun x => x) HostMatrixBCSR
         (fun x => copies_to false (sizeof T) h (Host (HostMatrixBCSR x))).
Proof.
  unfold CopyToHost, bind at 1, assert. cbn.
  exact (sync_body_eq _ (fun _ => h) (fun x => x) HostMatrixBCSR
           (fun x => mat_ x) (fun _ => mat_ h) (fun _ => mat_ h) _ _ w).
Qed.

Lemma CopyToHostAsync_eq T d h w :
  CopyToHostAsync T (HostMatrixBCSR d) h w =
  finish (first_use OnHost T (nnz_ d =? 0) (mat_ h) (set_backend (local_backend_ h) d) w)
         (fun _ => h) (fun x => x) HostMatrixBCSR
         (fun x => if 0 <? nnz_ h
                   then copies_to true sizeof_int h (Host (HostMatrixBCSR x)) else []).
Proof.
  unfold CopyToHostAsync, bind at 1, assert. cbn.
  exact (async_body_eq _ (fun _ => h) (fun x => x) HostMatrixBCSR
           (fun x => mat_ x) (fun _ => mat_ h) (fun _ => mat_ h) _ w).
Qed.

Lemma CopyTo_eq T dst h w :
  CopyTo T dst h w =
  match operand_handle dst with
  | Some d =>
      finish (first_use (space_of dst) T (nnz_ d =? 0) (mat_ h)
                        (set_backend (local_backend_ h) d) w)
             (fun _ => h) (fun x => x) (rewrap dst)
             (fun x => copies_to false (sizeof T) h (rewrap dst x))
  | None => reject dst w
  end.
Proof.
  destruct dst as [[d | f n] | d | c | f n]; cbn [operand_handle space_of rewrap].
  - rewrite CopyTo_Host. unfold bind at 1. rewrite CopyToHost_eq.
    exact (finish_map Host _ _ _ _ _ w).
  - rewrite CopyTo_Host. unfold CopyToHost, reject.
    cbn [GetMatFormat Host_GetMatFormat].
    unfold bind, assert. by destruct (MatFormat_eqb BCSR f).
  - unfold CopyTo, bind at 1, assert. cbn.
    exact (sync_body_eq _ (fun _ => h) (fun x => x) HIPAcceleratorMatrixBCSR
             (fun x => mat_ x) (fun _ => mat_ h) (fun _ => mat_ h) _ _ w).
  - reflexivity.
  - unfold CopyTo, reject. cbn [GetMatFormat].
    unfold bind at 1, assert. by destruct (MatFormat_eqb BCSR f).
Qed.

Lemma CopyToAsync_eq T dst h w :
  CopyToAsync T dst h w =
  match operand_handle dst with
  | Some d =>
      finish (first_use (space_of dst) T
                        (match dst with Host _ => nnz_ d =? 0 | _ => nnz_ h =? 0 end)
                        (mat_ h) (set_backend (local_backend_ h) d) w)
             (fun _ => h) (fun x => x) (rewrap dst)
             (fun x => if 0 <? nnz_ h
                       then copies_to true sizeof_int h (rewrap dst x) else [])
  | None => reject dst w
  end.
Proof.
  destruct dst as [[d | f n] | d | c | f n]; cbn [operand_handle space_of rewrap].
  - rewrite CopyToAsync_Host. unfold bind at 1. rewrite CopyToHostAsync_eq.
    exact (finish_map Host _ _ _ _ _ w).
  - rewrite CopyToAsync_Host. unfold CopyToHostAsync, reject.
    cbn [GetMatFormat Host_GetMatFormat].
    unfold bind, assert. by destruct (MatFormat_eqb BCSR f).
  - unfold CopyToAsync, bind at 1, assert. cbn.
    exact (async_body_eq _ (fun _ => h) (fun x => x) HIPAcceleratorMatrixBCSR
             (fun x => mat_ x) (fun _ => mat_ h) (fun _ => mat_ h) _ w).
  - reflexivity.
  - unfold CopyToAsync, reject. cbn [GetMatFormat].
    unfold bind at 1, assert. by destruct (MatFormat_eqb BCSR f).
Qed.

(** *** What a transfer issues *)

Lemma copies_three_copies async kind dst_m src_m this_m elt :
  copies (three_copies async kind dst_m src_m this_m elt)
  = three_copies async kind dst_m src_m this_m elt.
Proof. by destruct async. Qed.

Lemma copies_copies_from async elt src h' :
  copies (copies_from async elt src h') = copies_from async elt src h'.
Proof.
  destruct src as [[s | f n] | s | c | f n]; try reflexivity;
    apply copies_three_copies.
Qed.

Lemma copies_copies_to async elt h dst' :
  copies (copies_to async elt h dst') = copies_to async elt h dst'.
Proof.
  destruct dst' as [[s | f n] | s | c | f n]; try reflexivity;
    apply copies_three_copies.
Qed.

Lemma first_use_is_quiet sp T guard m d w : quiet w (first_use sp T guard m d w).
Proof. apply first_use_quiet. Qed.

Lemma reject_issues_nothing {A} m w : issued_copies w (@reject A m w) = [].
Proof.
  apply emits_issued. unfold reject.
  destruct (MatFormat_eqb BCSR (GetMatFormat m)).
  - apply unsupported_type_emits.
  - exists []. by rewrite app_nil_r.
Qed.

Lemma finish_issued {A} w o1 this_of other_of (wrap : Handle -> A) cs :
  quiet w o1 ->
  (forall x, copies (cs x) = cs x) ->
  issued_copies w (finish o1 this_of other_of wrap cs)
  = match o1 with
    | Ok x _ => if same_shape_b (this_of x) (other_of x) then cs x else []
    | _ => []
    end.
Proof.
  intros (es & Ht & Hc) Hcs. apply emits_issued. unfold finish.
  destruct o1 as [x w1 | w1 | w1]; cbn in Ht; try by exists es.
  destruct (same_shape_b (this_of x) (other_of x)); [| by exists es].
  exists (es ++ cs x). cbn. rewrite Ht, <- app_assoc. split; [reflexivity |].
  unfold copies in *. by rewrite List.filter_app, Hc, Hcs.
Qed.

(** The copies of a returning run are those of its result; a run that aborts
    or terminates has issued none. *)
Lemma finish_issued_result {A} w o1 this_of other_of (wrap : Handle -> A)
    (cs : Handle -> list Event) (cs' : A -> list Event) :
  quiet w o1 ->
  (forall x, copies (cs x) = cs x) ->
  (forall x, cs' (wrap x) = cs x) ->
  let o := finish o1 this_of other_of wrap cs in
  issued_copies w o = match o with Ok a _ => cs' a | _ => [] end.
Proof.
  intros Hq Hcs Hwrap o. subst o. rewrite finish_issued by assumption.
  unfold finish. destruct o1 as [x w1 | w1 | w1]; try reflexivity.
  destruct (same_shape_b (this_of x) (other_of x)); [by rewrite Hwrap | reflexivity].
Qed.

Lemma reject_not_Ok {A} m w : match @reject A m w with Ok _ _ => False | _ => True end.
Proof.
  unfold reject, unsupported_type, bind, LOG_INFO, Info, Operand_Info, emit, FATAL_ERROR.
  destruct (MatFormat_eqb BCSR (GetMatFormat m)); [| exact I].
  by destruct (class_of m).
Qed.

Lemma reject_issued_result {A} m w (cs' : A -> list Event) :
  issued_copies w (@reject A m w)
  = match @reject A m w with Ok a _ => cs' a | _ => [] end.
Proof.
  rewrite reject_issues_nothing. pose proof (@reject_not_Ok A m w) as H.
  by destruct (reject m w).
Qed.

Lemma CopyFrom_issues T src h w :
  issued_copies w (CopyFrom T src h w)
  = match CopyFrom T src h w with
    | Ok h' _ => copies_from false (sizeof T) src h'
    | _ => []
    end.
Proof.
  rewrite CopyFrom_eq. destruct (operand_handle src) as [s |].
  - apply (finish_issued_result w _ _ _ (fun x => x)).
    + apply first_use_is_quiet.
    + intros x. apply copies_copies_from.
    + reflexivity.
  - apply reject_issued_result.
Qed.

Lemma CopyFromAsync_issues T src h w :
  issued_copies w (CopyFromAsync T src h w)
  = match CopyFromAsync T src h w with
    | Ok h' _ => if 0 <? nnz_ h' then copies_from true sizeof_int src h' else []
    | _ => []
    end.
Proof.
  rewrite CopyFromAsync_eq. destruct (operand_handle src) as [s |].
  - apply (finish_issued_result w _ _ _ (fun x => x)).
    + apply first_use_is_quiet.
    + intros x. destruct (0 <? nnz_ x); [apply copies_copies_from | reflexivity].
    + reflexivity.
  - apply (reject_issued_result src w
             (fun h' => if 0 <? nnz_ h' then copies_from true sizeof_int src h' else [])).
Qed.

Lemma CopyTo_issues T dst h w :
  issued_copies w (CopyTo T dst h w)
  = match CopyTo T dst h w with
    | Ok dst' _ => copies_to false (sizeof T) h dst'
    | _ => []
    end.
Proof.
  rewrite CopyTo_eq. destruct (operand_handle dst) as [d |].
  - apply (finish_issued_result w _ _ _ (rewrap dst)).
    + apply first_use_is_quiet.
    + intros x. apply copies_copies_to.
    + reflexivity.
  - apply reject_issued_result.
Qed.

Lemma CopyToAsync_issues T dst h w :
  issued_copies w (CopyToAsync T dst h w)
  = match CopyToAsync T dst h w with
    | Ok dst' _ => if 0 <? nnz_ h then copies_to true sizeof_int h dst' else []
    | _ => []
    end.
Proof.
  rewrite CopyToAsync_eq. destruct (operand_handle dst) as [d |].
  - apply (finish_issued_result w _ _ _ (rewrap dst)).
    + apply first_use_is_quiet.
    + intros x. destruct (0 <? nnz_ h); [apply copies_copies_to | reflexivity].
    + reflexivity.
  - apply (reject_issued_result dst w
             (fun dst' => if 0 <? nnz_ h then copies_to true sizeof_int h dst' else [])).
Qed.

(** C1, on the code.  Every synchronous transfer that returns has issued
    exactly the three copies, row pointer ([nrowb + 1] [int]s), column index
    ([nnzb] [int]s), values ([nnzb * blockdim * blockdim] elements of
    [sizeof(ValueType)] bytes), in that order, and one that does not return
    has issued none.  Every asynchronous transfer sizes the value copy with
    [sizeof(int)] instead: copying a one-block matrix of [double] from the
    host, [CopyFromHostAsync] moves 16 bytes of values where [CopyFromHost]
    moves the 32 the four values occupy. *)
Theorem async_value_copy_sized_with_sizeof_int :
  (forall T src h w,
      issued_copies w (CopyFrom T src h w)
      = match CopyFrom T src h w with
        | Ok h' _ => copies_from false (sizeof T) src h'
        | _ => []
        end) /\
  (forall T dst h w,
      issued_copies w (CopyTo T dst h w)
      = match CopyTo T dst h w with
        | Ok dst' _ => copies_to false (sizeof T) h dst'
        | _ => []
        end) /\
  (forall T src h w,
      issued_copies w (CopyFromAsync T src h w)
      = match CopyFromAsync T src h w with
        | Ok h' _ => if 0 <? nnz_ h' then copies_from true sizeof_int src h' else []
        | _ => []
        end) /\
  (forall T dst h w,
      issued_copies w (CopyToAsync T dst h w)
      = match CopyToAsync T dst h w with
        | Ok dst' _ => if 0 <? nnz_ h then copies_to true sizeof_int h dst' else []
        | _ => []
        end) /\
  issued_copies initial_world
    (CopyFromHostAsync VT_double (HostMatrixBCSR host_one_block) fresh_handle initial_world)
  = [ EvMemcpyAsync 1 101 12 hipMemcpyHostToDevice;
      EvMemcpyAsync 2 102 4 hipMemcpyHostToDevice;
      EvMemcpyAsync 3 103 16 hipMemcpyHostToDevice ] /\
  issued_copies initial_world
    (CopyFromHost VT_double (HostMatrixBCSR host_one_block) fresh_handle initial_world)
  = [ EvMemcpy 1 101 12 hipMemcpyHostToDevice;
      EvMemcpy 2 102 4 hipMemcpyHostToDevice;
      EvMemcpy 3 103 32 hipMemcpyHostToDevice ] /\
  bytes_of (Int.mul (Int.mul 1 2) 2) (sizeof VT_double) = 32.
Proof.
  split; [exact CopyFrom_issues |].
  split; [exact CopyTo_issues |].
  split; [exact CopyFromAsync_issues |].
  split; [exact CopyToAsync_issues |].
  split; [vm_compute; reflexivity |].
  split; [vm_compute; reflexivity | reflexivity].
Qed.

(** ** Empty operands: the asynchronous copies *)

Lemma operand_handle_GetNnz m s : operand_handle m = Some s -> GetNnz m = nnz_ s.
Proof. destruct m as [[d | f n] | d | c | f n]; cbn; congruence. Qed.

Lemma CopyFromAsync_empty T src h w :
  GetNnz src = 0 ->
  issued_copies w (CopyFromAsync T src h w) = [].
Proof.
  intros Hsrc. rewrite CopyFromAsync_issues.
  destruct (CopyFromAsync T src h w) as [h' w' | |] eqn:E; try reflexivity.
  apply CopyFromAsync_same_shape in E as (s & Hs & Hsame).
  apply operand_handle_GetNnz in Hs. destruct Hsame as (Hn & _).
  replace (nnz_ h') with 0 by congruence. reflexivity.
Qed.

Lemma CopyToAsync_empty T dst h w :
  nnz_ h = 0 ->
  issued_copies w (CopyToAsync T dst h w) = [].
Proof.
  intros Hh. rewrite CopyToAsync_issues, Hh.
  by destruct (CopyToAsync T dst h w).
Qed.

Lemma row_offset_bytes_exact m :
  0 <= nrowb m < Int.max_signed -> row_offset_bytes m = 4 * (nrowb m + 1).
Proof.
  unfold row_offset_bytes, bytes_of, sizeof_int, Int.max_signed. intros H.
  rewrite Int_add_exact
    by (unfold Int.in_range, Int.min_signed, Int.max_signed; lia).
  rewrite (Z.mod_small (nrowb m + 1)) by lia.
  rewrite Z.mod_small by lia. lia.
Qed.

Lemma left_handle_is_left :
  exists w',
    (h1 <- SetDataPtrBCSR 100 200 300 1 2 2 2 fresh_handle ;; LeaveDataPtrBCSR h1)
      initial_world
    = Ok (mkLeftData 100 200 300 2, left_handle) w'.
Proof. eexists. vm_compute. reflexivity. Qed.

(** ** Allocation on first use *)

(** C2, on the code.  Every transfer runs three stages in order: the
    first-use step, the seven shape assertions, the copies; so no copy is
    issued unless the assertions passed.  The first-use step allocates the
    destination from the source's [(nnzb, nrowb, ncolb, blockdim)] exactly
    when the destination has [nnz == 0], in seven of the eight paths.  The
    device-to-device path of [CopyToAsync] tests the source's [nnz_] instead
    (line 649): copying the populated one-block matrix onto a fresh, empty
    handle it allocates nothing and fails the first shape assertion, where
    [CopyTo] on the same operands allocates the destination and issues the
    three copies. *)
Theorem CopyToAsync_first_use_tests_source_nnz :
  (forall T src h w,
      CopyFrom T src h w =
      match operand_handle src with
      | Some s =>
          finish (first_use OnDevice T (nnz_ h =? 0) (mat_ s) h w)
                 (fun x => x) (fun _ => s) (fun x => x)
                 (copies_from false (sizeof T) src)
      | None => reject src w
      end) /\
  (forall T src h w,
      CopyFromAsync T src h w =
      match operand_handle src with
      | Some s =>
          finish (first_use OnDevice T (nnz_ h =? 0) (mat_ s) h w)
                 (fun x => x) (fun _ => s) (fun x => x)
                 (fun x => if 0 <? nnz_ x
                           then copies_from true sizeof_int src x else [])
      | None => reject src w
      end) /\
  (forall T dst h w,
      CopyTo T dst h w =
      match operand_handle dst with
      | Some d =>
          finish (first_use (space_of dst) T (nnz_ d =? 0) (mat_ h)
                            (set_backend (local_backend_ h) d) w)
                 (fun _ => h) (fun x => x) (rewrap dst)
                 (fun x => copies_to false (sizeof T) h (rewrap dst x))
      | None => reject dst w
      end) /\
  (forall T dst h w,
      CopyToAsync T dst h w =
      match operand_handle dst with
      | Some d =>
          finish (first_use (space_of dst) T
                            (match dst with Host _ => nnz_ d =? 0 | _ => nnz_ h =? 0 end)
                            (mat_ h) (set_backend (local_backend_ h) d) w)
                 (fun _ => h) (fun x => x) (rewrap dst)
                 (fun x => if 0 <? nnz_ h
                           then copies_to true sizeof_int h (rewrap dst x) else [])
      | None => reject dst w
      end) /\
  nnz_ fresh_handle = 0 /\
  CopyToAsync VT_double (HIPAcceleratorMatrixBCSR fresh_handle)
              one_block_handle one_block_world
  = Abort one_block_world /\
  CopyTo VT_double (HIPAcceleratorMatrixBCSR fresh_handle)
         one_block_handle one_block_world
  = Ok (HIPAcceleratorMatrixBCSR
          (mkHandle 4 4 4 0 (mkMatrixBCSR 4 5 6 2 2 1 2) 0 example_backend))
       (with_events
          (final_world (AllocateBCSR VT_double 1 2 2 2 fresh_handle one_block_world))
          [ EvMemcpy 4 1 12 hipMemcpyDeviceToDevice;
            EvMemcpy 5 2 4 hipMemcpyDeviceToDevice;
            EvMemcpy 6 3 32 hipMemcpyDeviceToDevice ]).
Proof.
  split; [exact CopyFrom_eq |].
  split; [exact CopyFromAsync_eq |].
  split; [exact CopyTo_eq |].
  split; [exact CopyToAsync_eq |].
  split; [reflexivity |].
  split; vm_compute; reflexivity.
Qed.

(** ** Unsupported operands *)

Lemma unsupported_type_eq {A} c w :
  c <> C_HIPAcceleratorMatrixBCSR ->
  @unsupported_type A c w = Fatal (with_events w (unsupported_log c)).
Proof.
  intros Hc. unfold unsupported_type, with_events, unsupported_log, bind,
    LOG_INFO, Info, Operand_Info, emit, FATAL_ERROR.
  destruct c; try congruence; cbn; rewrite <- !app_assoc; reflexivity.
Qed.

Lemma class_of_no_handle m :
  operand_handle m = None -> class_of m <> C_HIPAcceleratorMatrixBCSR.
Proof. destruct m as [[d | f n] | d | c | f n]; cbn; congruence. Qed.

Lemma reject_eq {A} m w :
  operand_handle m = None ->
  @reject A m w =
  if MatFormat_eqb BCSR (GetMatFormat m)
  then Fatal (with_events w (unsupported_log (class_of m)))
  else Abort w.
Proof.
  intros Hm. unfold reject.
  destruct (MatFormat_eqb BCSR (GetMatFormat m)); [| reflexivity].
  apply unsupported_type_eq. by apply class_of_no_handle.
Qed.


(** C8 (as the code has it).  For an operand that is of neither block class
    (not [HIPAcceleratorMatrixBCSR], not [HostMatrixBCSR]): [CopyFrom] and
    [CopyTo] terminate fatally, having logged the error line and the
    descriptive state of both operands and nothing else, provided the
    operand's format tag is the block format; with any other format tag the
    same-format assertion stops them first and nothing is logged.
    [ConvertFrom] on a source it has no path for (neither this class nor the
    device CSR class) clears the destination and returns, never terminating:
    [false] when the source has [nnz != 0], [true] when it has [nnz == 0]. *)
Theorem unsupported_operand_policy :
  (forall T src h w,
      operand_handle src = None ->
      CopyFrom T src h w =
      if MatFormat_eqb BCSR (GetMatFormat src)
      then Fatal (with_events w (unsupported_log (class_of src)))
      else Abort w) /\
  (forall T dst h w,
      operand_handle dst = None ->
      CopyTo T dst h w =
      if MatFormat_eqb BCSR (GetMatFormat dst)
      then Fatal (with_events w (unsupported_log (class_of dst)))
      else Abort w) /\
  (forall csr_to_bcsr_hip T mat h w,
      convert_unsupported mat ->
      exists h1 w1,
        Clear h w = Ok h1 w1 /\
        ConvertFrom csr_to_bcsr_hip T mat h w
        = Ok (if GetNnz mat =? 0 then true else false, h1) w1).
Proof.
  split; [| split].
  - intros T src h w Hsrc. rewrite CopyFrom_eq, Hsrc. by apply reject_eq.
  - intros T dst h w Hdst. rewrite CopyTo_eq, Hdst. by apply reject_eq.
  - intros k T mat h w Hmat. by apply ConvertFrom_unsupported.
Qed.

Lemma unsupported_operand_policy_witness :
  operand_handle (OtherMatrix BCSR 4) = None /\
  convert_unsupported (OtherMatrix BCSR 4) /\
  CopyFrom VT_double (OtherMatrix BCSR 4) fresh_handle initial_world
  = Fatal (with_events initial_world (unsupported_log (C_OtherMatrix BCSR))) /\
  exists h1 w1,
    Clear fresh_handle initial_world = Ok h1 w1 /\
    ConvertFrom rejecting_kernel VT_double (OtherMatrix BCSR 4) fresh_handle initial_world
    = Ok (false, h1) w1.
Proof.
  split; [reflexivity |]. split; [exact I |]. split.
  - apply (proj1 unsupported_operand_policy VT_double (OtherMatrix BCSR 4)
             fresh_handle initial_world eq_refl).
  - apply (proj2 (proj2 unsupported_operand_policy) rejecting_kernel VT_double
             (OtherMatrix BCSR 4) fresh_handle initial_world I).
Defined.

(** C8, as stated, fails twice.  [ConvertFrom] on an unsupported source that
    is empty returns [true]; and [CopyFrom] on a device CSR source stops at
    the same-format assertion, before anything is logged. *)
Lemma unsupported_source_not_always_false_nor_logged :
  convert_unsupported (OtherMatrix COO 0) /\
  ConvertFrom rejecting_kernel VT_double (OtherMatrix COO 0) fresh_handle initial_world
  = Ok (true, fresh_handle) initial_world /\
  operand_handle (HIPAcceleratorMatrixCSR csr_identity4) = None /\
  CopyFrom VT_double (HIPAcceleratorMatrixCSR csr_identity4) fresh_handle initial_world
  = Abort initial_world /\
  trace initial_world = [].
Proof. repeat split. Qed.

(** ** Conversion failure *)




(** ** Multiply on an empty matrix *)

(** C9.  For every handle with [nnz == 0], every pair of vectors and every
    multiply kernel, [Apply] and [ApplyAdd] return at once in the world they
    were called in: the storage of the output vector is as it was and the
    trace holds no kernel call. *)
Theorem Apply_on_empty_is_noop (Scalar : Type) (scalar_one scalar_zero : Scalar)
    (BCSR_IND_BASE : bool)
    (rocsparseTbsrmv :
       Z -> bool -> int -> int -> int -> Scalar -> Z -> ptr -> ptr -> ptr -> int ->
       ptr -> Scalar -> ptr -> M rocsparse_status)
    h v_in v_out scalar w :
  nnz_ h = 0 ->
  Apply Scalar scalar_one scalar_zero BCSR_IND_BASE rocsparseTbsrmv h v_in v_out w
  = Ok tt w /\
  ApplyAdd Scalar scalar_one BCSR_IND_BASE rocsparseTbsrmv h v_in scalar v_out w
  = Ok tt w.
Proof.
  intros Hnnz. unfold Apply, ApplyAdd, when. rewrite Hnnz. split; reflexivity.
Qed.

Lemma Apply_on_empty_is_noop_witness :
  nnz_ fresh_handle = 0 /\
  Apply Z 1 0 false marking_kernel fresh_handle example_vector example_vector
        initial_world = Ok tt initial_world /\
  ApplyAdd Z 1 false marking_kernel fresh_handle example_vector 5 example_vector
           initial_world = Ok tt initial_world.
Proof.
  split; [reflexivity |].
  apply (Apply_on_empty_is_noop Z 1 0 false marking_kernel fresh_handle
           example_vector example_vector 5 initial_world eq_refl).
Defined.

(** On a populated handle the kernel is called: the guard is the only thing
    that keeps it from the output vector. *)
Lemma Apply_on_populated_calls_kernel :
  exists w',
    Apply Z 1 0 false marking_kernel one_block_handle example_vector example_vector
          one_block_world = Ok tt w' /\
    last (trace w') = Some (EvBsrmv false 2 2 1 3 1 2 2 50 50).
Proof. eexists. split; vm_compute; reflexivity. Qed.

(** * Further properties of the class *)

(** ** Clear, Allocate and the storage *)

(** X1.  [Clear] is idempotent: clearing a handle twice ends with the same
    handle, storage and trace as clearing it once; the second call issues
    nothing. *)
Theorem Clear_idempotent h w :
  (h1 <- Clear h ;; Clear h1) w = Clear h w.
Proof.
  destruct (Clear_in_returns OnDevice h w) as (h1 & w1 & E & _ & Hle & _).
  destruct (Clear_in_returns OnDevice h1 w1) as (h2 & w2 & E2 & _ & _ & _ & Hsame).
  destruct (Hsame Hle) as [-> ->].
  unfold bind, Clear. rewrite E. exact E2.
Qed.

Lemma AllocateBCSR_in_eq sp T nnzb0 nrowb0 ncolb0 blockdim0 h w :
  AllocateBCSR_in sp T nnzb0 nrowb0 ncolb0 blockdim0 h w
  = if AllocateBCSR_args_ok nnzb0 nrowb0 ncolb0 blockdim0
    then
      let h1 := if 0 <? nnz_ h then cleared h else h in
      let w1 := if 0 <? nnz_ h then cleared_world sp h w else w in
      if 0 <? nnzb0
      then Ok (allocation_handle nnzb0 nrowb0 ncolb0 blockdim0 h1 w1)
              (allocation_world sp T nnzb0 nrowb0 blockdim0 w1)
      else Ok h1 w1
    else Abort w.
Proof.
  unfold AllocateBCSR_in, AllocateBCSR_args_ok, bind, assert.
  destruct (0 <=? nnzb0); [| reflexivity].
  destruct (0 <=? ncolb0); [| reflexivity].
  destruct (0 <=? nrowb0); [| reflexivity].
  destruct (1 <? blockdim0); [| reflexivity].
  cbn [andb].
  destruct (0 <? nnz_ h) eqn:Hn; cbv beta iota zeta;
    [rewrite Clear_in_eq, Hn | unfold ret];
    (destruct (0 <? nnzb0); [| reflexivity]);
    unfold allocation_handle, allocation_world, allocation_events, allocate,
      set_to_zero; cbn; rewrite <- !app_assoc; reflexivity.
Qed.

(** X2.  Allocating and then clearing gives the storage back: from any handle,
    [AllocateBCSR] with valid arguments, at least one block and a value count
    that fits in an [int], followed by [Clear], ends in the empty state with
    [NULL] arrays and with the storage that [Clear] alone would have left,
    provided the three addresses the allocator hands out were free. *)
Theorem Allocate_then_Clear_restores_storage T nnzb0 nrowb0 ncolb0 blockdim0 h w :
  0 < nnzb0 -> 0 <= nrowb0 -> 0 <= ncolb0 -> 1 < blockdim0 ->
  Int.in_range (nnzb0 * blockdim0 * blockdim0) ->
  heap w !! next_ptr w = None ->
  heap w !! (next_ptr w + 1) = None ->
  heap w !! (next_ptr w + 2) = None ->
  exists h' w',
    (h1 <- AllocateBCSR T nnzb0 nrowb0 ncolb0 blockdim0 h ;; Clear h1) w = Ok h' w' /\
    empty_state h' /\
    (row_offset (mat_ h'), col (mat_ h'), val (mat_ h')) = (NULL, NULL, NULL) /\
    heap w' = heap (final_world (Clear h w)).
Proof.
  intros Hnnzb Hnrowb Hncolb Hbd Hfit Hp0 Hp1 Hp2.
  assert (Int.in_range (nnzb0 * blockdim0)) as Hfb.
  { unfold Int.in_range, Int.min_signed, Int.max_signed in *. nia. }
  unfold bind, AllocateBCSR, Clear. rewrite AllocateBCSR_in_eq.
  unfold AllocateBCSR_args_ok.
  rewrite (proj2 (Z.leb_le 0 nnzb0)) by lia.
  rewrite (proj2 (Z.leb_le _ _) Hncolb), (proj2 (Z.leb_le _ _) Hnrowb),
          (proj2 (Z.ltb_lt _ _) Hbd), (proj2 (Z.ltb_lt _ _) Hnnzb).
  cbn [andb]. cbn zeta. rewrite !Clear_in_eq.
  set (h1 := if 0 <? nnz_ h then cleared h else h).
  set (w1 := if 0 <? nnz_ h then cleared_world OnDevice h w else w).
  assert ((0 <? nnz_ (allocation_handle nnzb0 nrowb0 ncolb0 blockdim0 h1 w1)) = true)
    as ->.
  { cbn. rewrite (Int_mul_exact nnzb0 blockdim0) by exact Hfb.
    rewrite Int_mul_exact by exact Hfit. apply Z.ltb_lt. nia. }
  eexists _, _. split; [reflexivity |].
  split; [repeat split |]. split; [reflexivity |].
  assert (next_ptr w1 = next_ptr w) as Hnext by (subst w1; by destruct (0 <? nnz_ h)).
  assert (heap (final_world
                  (if 0 <? nnz_ h then Ok (cleared h) (cleared_world OnDevice h w)
                   else Ok h w)) = heap w1) as -> by (subst w1; by destruct (0 <? nnz_ h)).
  assert (forall q, heap w !! q = None -> heap w1 !! q = None) as Hstill.
  { intros q Hq. subst w1. destruct (0 <? nnz_ h); [| exact Hq].
    cbn. rewrite !lookup_delete. repeat case_decide; done. }
  cbn. rewrite Hnext. set (p := next_ptr w).
  apply map_eq. intros i.
  rewrite !lookup_delete, !lookup_alter, !lookup_insert.
  repeat case_decide; subst; try lia; try reflexivity; symmetry; apply Hstill.
  - replace (p + 1 + 1) with (p + 2) by lia. exact Hp2.
  - exact Hp1.
  - exact Hp0.
Qed.

Lemma Allocate_then_Clear_restores_storage_witness :
  exists h' w',
    (h1 <- AllocateBCSR VT_double 1 2 2 2 fresh_handle ;; Clear h1) initial_world
      = Ok h' w' /\
    empty_state h' /\ heap w' = heap initial_world.
Proof.
  destruct (Allocate_then_Clear_restores_storage VT_double 1 2 2 2 fresh_handle
              initial_world)
    as (h' & w' & Hrun & Hempty & _ & Hheap);
    try lia; try reflexivity;
    try (unfold Int.in_range, Int.min_signed, Int.max_signed; lia).
  exists h', w'. split; [exact Hrun |]. split; [exact Hempty | exact Hheap].
Defined.

(** X3.  [AllocateBCSR] returns exactly when its four argument assertions
    hold; when one fails it stops at once, in the world it was called in, so
    the arrays the handle held are neither released nor replaced. *)
Theorem AllocateBCSR_returns_iff_arguments_valid T nnzb0 nrowb0 ncolb0 blockdim0 h w :
  ((exists h' w', AllocateBCSR T nnzb0 nrowb0 ncolb0 blockdim0 h w = Ok h' w') <->
   (0 <= nnzb0 /\ 0 <= nrowb0 /\ 0 <= ncolb0 /\ 1 < blockdim0)) /\
  (~ (0 <= nnzb0 /\ 0 <= nrowb0 /\ 0 <= ncolb0 /\ 1 < blockdim0) ->
   AllocateBCSR T nnzb0 nrowb0 ncolb0 blockdim0 h w = Abort w).
Proof.
  unfold AllocateBCSR. rewrite AllocateBCSR_in_eq. unfold AllocateBCSR_args_ok.
  destruct (Z.leb_spec 0 nnzb0), (Z.leb_spec 0 ncolb0), (Z.leb_spec 0 nrowb0),
    (Z.ltb_spec 1 blockdim0); cbn [andb].
  all: split; [split |].
  all: try (intros (? & ? & [=])).
  all: try (intros; lia).
  all: try (intros; reflexivity).
  cbn zeta. intros _. destruct (0 <? nnzb0); eexists _, _; reflexivity.
Qed.

Lemma AllocateBCSR_returns_iff_arguments_valid_witness :
  ~ (0 <= 1 /\ 0 <= 2 /\ 0 <= 2 /\ 1 < 1) /\
  AllocateBCSR VT_double 1 2 2 1 one_block_handle one_block_world
  = Abort one_block_world.
Proof.
  assert (~ (0 <= 1 /\ 0 <= 2 /\ 0 <= 2 /\ 1 < 1)) as Hbad by lia.
  split; [exact Hbad |].
  apply (proj2 (AllocateBCSR_returns_iff_arguments_valid VT_double 1 2 2 1
                  one_block_handle one_block_world) Hbad).
Defined.

Lemma issued_frees_app {A} (w : World) (o : Outcome A) es :
  trace (final_world o) = trace w ++ es -> issued_frees w o = frees es.
Proof.
  intros Ht. unfold issued_frees, new_events. by rewrite Ht, drop_app_length.
Qed.

Lemma issued_frees_same {A} (w : World) (o : Outcome A) :
  final_world o = w -> issued_frees w o = [].
Proof.
  intros E. apply (issued_frees_app w o []). rewrite E. by rewrite app_nil_r.
Qed.


(** ** Ownership transfer: preconditions and round trips *)

Lemma SetDataPtrBCSR_eq p_r p_c p_v nnzb0 nrowb0 ncolb0 blockdim0 h w :
  SetDataPtrBCSR p_r p_c p_v nnzb0 nrowb0 ncolb0 blockdim0 h w
  = if SetDataPtrBCSR_args_ok p_r p_c p_v nnzb0 nrowb0 ncolb0 blockdim0
    then Ok (adopted p_r p_c p_v nnzb0 nrowb0 ncolb0 blockdim0 h)
            (with_events (if 0 <? nnz_ h then cleared_world OnDevice h w else w)
                         [EvDeviceSynchronize])
    else Abort w.
Proof.
  unfold SetDataPtrBCSR, SetDataPtrBCSR_args_ok, bind, assert.
  destruct (negb (p_r =? NULL)); [| reflexivity].
  destruct (negb (p_c =? NULL)); [| reflexivity].
  destruct (negb (p_v =? NULL)); [| reflexivity].
  destruct (0 <? nnzb0); [| reflexivity].
  destruct (0 <? nrowb0); [| reflexivity].
  destruct (0 <? ncolb0); [| reflexivity].
  destruct (1 <? blockdim0); [| reflexivity].
  cbn [andb]. unfold Clear. rewrite Clear_in_eq.
  by destruct (0 <? nnz_ h).
Qed.

Lemma LeaveDataPtrBCSR_eq h w :
  LeaveDataPtrBCSR h w
  = if LeaveDataPtrBCSR_state_ok h
    then Ok (handed_out h, relinquished h) (with_events w [EvDeviceSynchronize])
    else Abort w.
Proof.
  unfold LeaveDataPtrBCSR, LeaveDataPtrBCSR_state_ok, bind, assert.
  destruct (0 <? nrow_ h); [| reflexivity].
  destruct (0 <? ncol_ h); [| reflexivity].
  destruct (0 <? nnz_ h); [| reflexivity].
  destruct (1 <? blockdim (mat_ h)); reflexivity.
Qed.

(** X5.  [SetDataPtrBCSR] adopts the arrays exactly when the three pointers
    are non-null, [nnzb, nrowb, ncolb > 0] and [blockdim > 1].  A rejected call
    stops in the world it was called in: the assertions come before the
    [Clear], so the arrays the handle held are not released. *)
Theorem SetDataPtrBCSR_returns_iff_arguments_valid
    p_r p_c p_v nnzb0 nrowb0 ncolb0 blockdim0 h w :
  ((exists h' w',
       SetDataPtrBCSR p_r p_c p_v nnzb0 nrowb0 ncolb0 blockdim0 h w = Ok h' w') <->
   (p_r <> NULL /\ p_c <> NULL /\ p_v <> NULL /\
    0 < nnzb0 /\ 0 < nrowb0 /\ 0 < ncolb0 /\ 1 < blockdim0)) /\
  (~ (p_r <> NULL /\ p_c <> NULL /\ p_v <> NULL /\
      0 < nnzb0 /\ 0 < nrowb0 /\ 0 < ncolb0 /\ 1 < blockdim0) ->
   SetDataPtrBCSR p_r p_c p_v nnzb0 nrowb0 ncolb0 blockdim0 h w = Abort w).
Proof.
  rewrite SetDataPtrBCSR_eq. unfold SetDataPtrBCSR_args_ok, NULL.
  destruct (Z.eqb_spec p_r 0), (Z.eqb_spec p_c 0), (Z.eqb_spec p_v 0),
    (Z.ltb_spec 0 nnzb0), (Z.ltb_spec 0 nrowb0), (Z.ltb_spec 0 ncolb0),
    (Z.ltb_spec 1 blockdim0); cbn [andb negb].
  all: split; [split |].
  all: try (intros (? & ? & [=])).
  all: try (intros; lia).
  all: try (intros; reflexivity).
  intros _. eexists _, _. reflexivity.
Qed.

Lemma SetDataPtrBCSR_returns_iff_arguments_valid_witness :
  SetDataPtrBCSR NULL 200 300 1 2 2 2 one_block_handle one_block_world
  = Abort one_block_world.
Proof.
  apply (proj2 (SetDataPtrBCSR_returns_iff_arguments_valid NULL 200 300 1 2 2 2
                  one_block_handle one_block_world)).
  unfold NULL. lia.
Defined.

(** X6.  [LeaveDataPtrBCSR] returns exactly when the handle is populated
    ([nrow, ncol, nnz > 0] and [mat_.blockdim > 1]).  It then hands out the
    handle's own three pointers and block dimension, leaves the handle in the
    empty state, and releases nothing: the storage is as it was, now the
    caller's.  Otherwise it stops in the world it was called in. *)
Theorem LeaveDataPtrBCSR_hands_over_without_release h w :
  (0 < nrow_ h /\ 0 < ncol_ h /\ 0 < nnz_ h /\ 1 < blockdim (mat_ h) ->
   exists h' w',
     LeaveDataPtrBCSR h w = Ok (handed_out h, h') w' /\
     empty_state h' /\
     heap w' = heap w /\
     issued_frees w (LeaveDataPtrBCSR h w) = []) /\
  (~ (0 < nrow_ h /\ 0 < ncol_ h /\ 0 < nnz_ h /\ 1 < blockdim (mat_ h)) ->
   LeaveDataPtrBCSR h w = Abort w).
Proof.
  rewrite LeaveDataPtrBCSR_eq. unfold LeaveDataPtrBCSR_state_ok.
  destruct (Z.ltb_spec 0 (nrow_ h)), (Z.ltb_spec 0 (ncol_ h)),
    (Z.ltb_spec 0 (nnz_ h)), (Z.ltb_spec 1 (blockdim (mat_ h))); cbn [andb].
  all: split.
  all: try (intros; lia).
  all: try (intros; reflexivity).
  intros _. eexists _, _. split; [reflexivity |].
  split; [repeat split |]. split; [reflexivity |].
  by apply (issued_frees_app w _ [EvDeviceSynchronize]).
Qed.

Lemma LeaveDataPtrBCSR_hands_over_without_release_witness :
  exists h' w',
    LeaveDataPtrBCSR one_block_handle one_block_world
    = Ok (mkLeftData 1 2 3 2, h') w' /\
    empty_state h' /\ heap w' = heap one_block_world.
Proof.
  destruct (proj1 (LeaveDataPtrBCSR_hands_over_without_release one_block_handle
                     one_block_world))
    as (h' & w' & Hrun & Hempty & Hheap & _).
  - cbn. lia.
  - exists h', w'. split; [exact Hrun |]. split; assumption.
Defined.

(** X7.  [LeaveDataPtrBCSR] cannot be called twice in a row, nor after
    [Clear]: from any handle and world, the second call of
    [LeaveDataPtrBCSR; LeaveDataPtrBCSR] and the [LeaveDataPtrBCSR] of
    [Clear; LeaveDataPtrBCSR] never return. *)
Theorem LeaveDataPtrBCSR_never_after_emptying h w :
  stopped ((r <- LeaveDataPtrBCSR h ;; LeaveDataPtrBCSR (snd r)) w) /\
  stopped ((h1 <- Clear h ;; LeaveDataPtrBCSR h1) w).
Proof.
  split.
  - unfold bind. rewrite LeaveDataPtrBCSR_eq.
    destruct (LeaveDataPtrBCSR_state_ok h); [| exact I].
    cbn [snd]. rewrite LeaveDataPtrBCSR_eq. unfold LeaveDataPtrBCSR_state_ok.
    cbn. exact I.
  - destruct (Clear_in_returns OnDevice h w) as (h1 & w1 & E & _ & Hle & _).
    unfold bind, Clear. rewrite E, LeaveDataPtrBCSR_eq.
    unfold LeaveDataPtrBCSR_state_ok.
    rewrite (proj2 (Z.ltb_ge 0 (nnz_ h1))) by exact Hle.
    rewrite !andb_false_r. cbn. exact I.
Qed.

(** X8.  Handing the arrays out and taking them straight back restores the
    matrix: on a populated handle whose scalar shape is the derived one,
    [LeaveDataPtrBCSR] followed by [SetDataPtrBCSR] with the pointers and block
    dimension handed out and the handle's own counts returns the handle it
    started from, with [blockdim_] now set to that block dimension; the
    storage is untouched and only the two synchronisations were issued. *)
Theorem LeaveDataPtr_then_SetDataPtr h w :
  0 < nrow_ h -> 0 < ncol_ h -> 0 < nnz_ h -> 1 < blockdim (mat_ h) ->
  0 < nnzb (mat_ h) -> 0 < nrowb (mat_ h) -> 0 < ncolb (mat_ h) ->
  row_offset (mat_ h) <> NULL -> col (mat_ h) <> NULL -> val (mat_ h) <> NULL ->
  shape_consistent h ->
  (r <- LeaveDataPtrBCSR h ;;
   SetDataPtrBCSR (out_row_offset (fst r)) (out_col (fst r)) (out_val (fst r))
                  (nnzb (mat_ h)) (nrowb (mat_ h)) (ncolb (mat_ h))
                  (out_blockdim (fst r)) (snd r)) w
  = Ok (set_blockdim_ (blockdim (mat_ h)) h)
       (with_events w [EvDeviceSynchronize; EvDeviceSynchronize]).
Proof.
  intros Hnrow Hncol Hnnz Hbd Hnnzb Hnrowb Hncolb Hr Hc Hv (Hs1 & Hs2 & Hs3).
  unfold bind. rewrite LeaveDataPtrBCSR_eq. unfold LeaveDataPtrBCSR_state_ok.
  rewrite (proj2 (Z.ltb_lt _ _) Hnrow), (proj2 (Z.ltb_lt _ _) Hncol),
          (proj2 (Z.ltb_lt _ _) Hnnz), (proj2 (Z.ltb_lt _ _) Hbd).
  cbn [andb fst snd handed_out out_row_offset out_col out_val out_blockdim].
  rewrite SetDataPtrBCSR_eq. unfold SetDataPtrBCSR_args_ok.
  rewrite (proj2 (Z.eqb_neq _ _) Hr), (proj2 (Z.eqb_neq _ _) Hc),
          (proj2 (Z.eqb_neq _ _) Hv).
  rewrite (proj2 (Z.ltb_lt _ _) Hnnzb), (proj2 (Z.ltb_lt _ _) Hnrowb),
          (proj2 (Z.ltb_lt _ _) Hncolb), (proj2 (Z.ltb_lt _ _) Hbd).
  cbn [andb negb]. unfold relinquished at 2. cbn [nnz_ set_shape].
  unfold with_events, adopted, set_blockdim_, derived_nrow, derived_ncol,
    derived_nnz in *.
  cbn. rewrite <- Hs1, <- Hs2, <- Hs3, <- app_assoc.
  destruct h as [nr nc nz bd_ [r c v nrb ncb nzb bd] descr be]. reflexivity.
Qed.

Lemma LeaveDataPtr_then_SetDataPtr_witness :
  (r <- LeaveDataPtrBCSR one_block_handle ;;
   SetDataPtrBCSR (out_row_offset (fst r)) (out_col (fst r)) (out_val (fst r))
                  1 2 2 (out_blockdim (fst r)) (snd r)) one_block_world
  = Ok (set_blockdim_ 2 one_block_handle)
       (with_events one_block_world [EvDeviceSynchronize; EvDeviceSynchronize]).
Proof.
  apply (LeaveDataPtr_then_SetDataPtr one_block_handle one_block_world);
    try (cbn; lia); try (cbn; unfold NULL; lia).
  repeat split.
Defined.

(** X9.  [SetDataPtrBCSR] on a populated handle releases the three arrays
    the handle held and touches no other storage.  So when the caller passes
    an array the handle already owned, the handle ends up holding a pointer
    to released storage. *)
Theorem SetDataPtrBCSR_releases_held_arrays
    p_r p_c p_v nnzb0 nrowb0 ncolb0 blockdim0 h w :
  0 < nnz_ h ->
  p_r <> NULL -> p_c <> NULL -> p_v <> NULL ->
  0 < nnzb0 -> 0 < nrowb0 -> 0 < ncolb0 -> 1 < blockdim0 ->
  exists h' w',
    SetDataPtrBCSR p_r p_c p_v nnzb0 nrowb0 ncolb0 blockdim0 h w = Ok h' w' /\
    (row_offset (mat_ h'), col (mat_ h'), val (mat_ h')) = (p_r, p_c, p_v) /\
    issued_frees w (SetDataPtrBCSR p_r p_c p_v nnzb0 nrowb0 ncolb0 blockdim0 h w)
      = three_frees OnDevice (mat_ h) /\
    (forall q, heap w' !! q =
               if decide (q = row_offset (mat_ h) \/ q = col (mat_ h) \/ q = val (mat_ h))
               then None else heap w !! q) /\
    (p_r = row_offset (mat_ h) -> heap w' !! row_offset (mat_ h') = None) /\
    (p_c = col (mat_ h) -> heap w' !! col (mat_ h') = None) /\
    (p_v = val (mat_ h) -> heap w' !! val (mat_ h') = None).
Proof.
  intros Hpop Hr Hc Hv Hnnzb Hnrowb Hncolb Hbd.
  rewrite SetDataPtrBCSR_eq. unfold SetDataPtrBCSR_args_ok.
  rewrite (proj2 (Z.eqb_neq _ _) Hr), (proj2 (Z.eqb_neq _ _) Hc),
          (proj2 (Z.eqb_neq _ _) Hv).
  rewrite (proj2 (Z.ltb_lt _ _) Hnnzb), (proj2 (Z.ltb_lt _ _) Hnrowb),
          (proj2 (Z.ltb_lt _ _) Hncolb), (proj2 (Z.ltb_lt _ _) Hbd),
          (proj2 (Z.ltb_lt _ _) Hpop).
  cbn [andb negb].
  assert (forall q, heap (with_events (cleared_world OnDevice h w) [EvDeviceSynchronize])
                      !! q
                    = if decide (q = row_offset (mat_ h) \/ q = col (mat_ h)
                                 \/ q = val (mat_ h))
                      then None else heap w !! q) as Hheap.
  { intros q. cbn. rewrite !lookup_delete.
    repeat case_decide; try reflexivity; exfalso; intuition congruence. }
  eexists _, _. split; [reflexivity |]. split; [reflexivity |]. split.
  { apply (issued_frees_app w _ (three_frees OnDevice (mat_ h) ++ [EvDeviceSynchronize])).
    cbn. by rewrite <- app_assoc. }
  split; [exact Hheap |].
  cbn [adopted mat_ row_offset col val].
  repeat split; intros ->; rewrite Hheap; case_decide; try reflexivity; exfalso; tauto.
Qed.

Lemma SetDataPtrBCSR_releases_held_arrays_witness :
  exists h' w',
    SetDataPtrBCSR 1 2 3 1 2 2 2 one_block_handle one_block_world = Ok h' w' /\
    row_offset (mat_ h') = 1 /\
    heap w' !! row_offset (mat_ h') = None.
Proof.
  destruct (SetDataPtrBCSR_releases_held_arrays 1 2 3 1 2 2 2 one_block_handle
              one_block_world)
    as (h' & w' & Hrun & Hptr & _ & _ & Hdangling & _);
    try (cbn; lia); try (unfold NULL; lia).
  exists h', w'. split; [exact Hrun |].
  injection Hptr as Hr _ _. split; [exact Hr |]. by apply Hdangling.
Defined.

(** ** Transfers: populated and empty destinations *)

Lemma first_use_skipped sp T m d w : first_use sp T false m d w = Ok d w.
Proof. reflexivity. Qed.

Lemma first_use_on_empty sp T m d w :
  nnz_ d = 0 -> allocatable m ->
  first_use sp T true m d w
  = Ok (allocation_handle (nnzb m) (nrowb m) (ncolb m) (blockdim m) d w)
       (allocation_world sp T (nnzb m) (nrowb m) (blockdim m) w).
Proof.
  intros Hd (Hnnzb & Hnrowb & Hncolb & Hbd).
  unfold first_use. rewrite AllocateBCSR_in_eq. unfold AllocateBCSR_args_ok.
  rewrite (proj2 (Z.leb_le 0 (nnzb m))) by lia.
  rewrite (proj2 (Z.leb_le _ _) Hncolb), (proj2 (Z.leb_le _ _) Hnrowb),
          (proj2 (Z.ltb_lt _ _) Hbd), (proj2 (Z.ltb_lt _ _) Hnnzb), Hd.
  reflexivity.
Qed.

Lemma allocation_same_shape m d w s :
  counts m = counts (mat_ s) ->
  same_shape (allocation_handle (nnzb m) (nrowb m) (ncolb m) (blockdim m) d w) s
  <-> shape_consistent s.
Proof.
  unfold counts, same_shape, shape_consistent, derived_nrow, derived_ncol, derived_nnz.
  intros [= -> -> -> ->]. cbn. intuition congruence.
Qed.

Lemma same_shape_b_false a b : same_shape_b a b = false <-> ~ same_shape a b.
Proof.
  rewrite <- same_shape_b_true. destruct (same_shape_b a b); intuition congruence.
Qed.

(** X10.  A transfer onto a populated destination never allocates and never
    releases: it returns exactly when the seven shape fields of the two
    operands already agree, with the destination object as it was and only
    the three copies issued, and otherwise stops at the shape assertions in
    the world it was called in. *)
Theorem transfer_onto_populated_destination :
  (forall T src s h w,
      operand_handle src = Some s -> nnz_ h <> 0 ->
      CopyFrom T src h w
      = if same_shape_b h s
        then Ok h (with_events w (copies_from false (sizeof T) src h))
        else Abort w) /\
  (forall T src s h w,
      operand_handle src = Some s -> nnz_ h <> 0 ->
      CopyFromAsync T src h w
      = if same_shape_b h s
        then Ok h (with_events w (if 0 <? nnz_ h
                                  then copies_from true sizeof_int src h else []))
        else Abort w) /\
  (forall T dst d h w,
      operand_handle dst = Some d -> nnz_ d <> 0 ->
      CopyTo T dst h w
      = if same_shape_b h d
        then Ok (rewrap dst (set_backend (local_backend_ h) d))
                (with_events w (copies_to false (sizeof T) h
                                  (rewrap dst (set_backend (local_backend_ h) d))))
        else Abort w).
Proof.
  split; [| split].
  - intros T src s h w Hs Hh. rewrite CopyFrom_eq, Hs.
    by rewrite (proj2 (Z.eqb_neq _ _) Hh), first_use_skipped.
  - intros T src s h w Hs Hh. rewrite CopyFromAsync_eq, Hs.
    by rewrite (proj2 (Z.eqb_neq _ _) Hh), first_use_skipped.
  - intros T dst d h w Hd Hnnz. rewrite CopyTo_eq, Hd.
    by rewrite (proj2 (Z.eqb_neq _ _) Hnnz), first_use_skipped.
Qed.

Lemma transfer_onto_populated_destination_witness :
  CopyFrom VT_double (Host (HostMatrixBCSR host_one_block)) one_block_handle
           one_block_world
  = Ok one_block_handle
       (with_events one_block_world
          [ EvMemcpy 1 101 12 hipMemcpyHostToDevice;
            EvMemcpy 2 102 4 hipMemcpyHostToDevice;
            EvMemcpy 3 103 32 hipMemcpyHostToDevice ]) /\
  CopyFrom VT_double (Host (HostMatrixBCSR empty_blocked)) one_block_handle
           one_block_world
  = Abort one_block_world.
Proof.
  split.
  - apply (proj1 transfer_onto_populated_destination VT_double
             (Host (HostMatrixBCSR host_one_block)) host_one_block one_block_handle
             one_block_world eq_refl).
    discriminate.
  - apply (proj1 transfer_onto_populated_destination VT_double
             (Host (HostMatrixBCSR empty_blocked)) empty_blocked one_block_handle
             one_block_world eq_refl).
    discriminate.
Defined.

Lemma CopyFrom_onto_empty T src s h w :
  operand_handle src = Some s -> nnz_ h = 0 -> allocatable (mat_ s) ->
  let h' := allocation_handle (nnzb (mat_ s)) (nrowb (mat_ s)) (ncolb (mat_ s))
                              (blockdim (mat_ s)) h w in
  let w1 := allocation_world OnDevice T (nnzb (mat_ s)) (nrowb (mat_ s))
                             (blockdim (mat_ s)) w in
  (shape_consistent s ->
   CopyFrom T src h w = Ok h' (with_events w1 (copies_from false (sizeof T) src h')) /\
   CopyFromAsync T src h w
   = Ok h' (with_events w1 (if 0 <? nnz_ s
                            then copies_from true sizeof_int src h' else [])) /\
   same_shape h' s) /\
  (~ shape_consistent s ->
   CopyFrom T src h w = Abort w1 /\ CopyFromAsync T src h w = Abort w1).
Proof.
  intros Hs Hh Halloc h' w1.
  rewrite CopyFrom_eq, CopyFromAsync_eq, Hs, Hh. cbn [Z.eqb].
  rewrite first_use_on_empty by assumption. fold h' w1. unfold finish.
  pose proof (allocation_same_shape (mat_ s) h w s eq_refl) as Hiff. fold h' in Hiff.
  split; intros Hcons.
  - assert (same_shape h' s) as Hsame by (by apply Hiff).
    rewrite (proj2 (same_shape_b_true h' s) Hsame).
    pose proof Hsame as (Hn & _). rewrite Hn.
    split; [reflexivity |]. split; [reflexivity | exact Hsame].
  - assert (~ same_shape h' s) as Hdiff by (by rewrite Hiff).
    by rewrite (proj2 (same_shape_b_false h' s) Hdiff).
Qed.

Lemma CopyTo_onto_empty T dst d h w :
  operand_handle dst = Some d -> nnz_ d = 0 -> allocatable (mat_ h) ->
  let d' := allocation_handle (nnzb (mat_ h)) (nrowb (mat_ h)) (ncolb (mat_ h))
                              (blockdim (mat_ h))
                              (set_backend (local_backend_ h) d) w in
  let w1 := allocation_world (space_of dst) T (nnzb (mat_ h)) (nrowb (mat_ h))
                             (blockdim (mat_ h)) w in
  (shape_consistent h ->
   CopyTo T dst h w
   = Ok (rewrap dst d') (with_events w1 (copies_to false (sizeof T) h (rewrap dst d'))) /\
   same_shape h d') /\
  (~ shape_consistent h -> CopyTo T dst h w = Abort w1).
Proof.
  intros Hd Hnnz Halloc d' w1.
  rewrite CopyTo_eq, Hd, Hnnz. cbn [Z.eqb].
  rewrite first_use_on_empty by (cbn; assumption). fold d' w1. unfold finish.
  pose proof (allocation_same_shape (mat_ h) (set_backend (local_backend_ h) d) w h
                eq_refl) as Hiff. fold d' in Hiff.
  split; intros Hcons.
  - assert (same_shape h d') as Hsame by (apply same_shape_sym; by apply Hiff).
    rewrite (proj2 (same_shape_b_true h d') Hsame).
    split; [reflexivity | exact Hsame].
  - assert (~ same_shape h d') as Hdiff.
    { intros Hsame. apply Hcons, Hiff. by apply same_shape_sym. }
    by rewrite (proj2 (same_shape_b_false h d') Hdiff).
Qed.

(** X11.  A synchronous transfer from a source whose layout has at least one
    block and valid counts and whose scalar shape is the derived one, onto an
    empty destination, succeeds: the destination is allocated at the
    three addresses the allocator hands out, its seven shape fields equal the
    source's, and exactly the three copies are issued into the new arrays.
    This holds for [CopyFrom] (device or host source) and for [CopyTo] (device
    or host destination). *)
Theorem transfer_onto_empty_destination_succeeds :
  (forall T src s h w,
      operand_handle src = Some s -> nnz_ h = 0 ->
      allocatable (mat_ s) -> shape_consistent s ->
      exists h' w',
        CopyFrom T src h w = Ok h' w' /\
        same_shape h' s /\
        (row_offset (mat_ h'), col (mat_ h'), val (mat_ h'))
          = (next_ptr w, next_ptr w + 1, next_ptr w + 1 + 1) /\
        issued_copies w (CopyFrom T src h w) = copies_from false (sizeof T) src h') /\
  (forall T dst d h w,
      operand_handle dst = Some d -> nnz_ d = 0 ->
      allocatable (mat_ h) -> shape_consistent h ->
      exists d' w',
        CopyTo T dst h w = Ok (rewrap dst d') w' /\
        same_shape h d' /\
        (row_offset (mat_ d'), col (mat_ d'), val (mat_ d'))
          = (next_ptr w, next_ptr w + 1, next_ptr w + 1 + 1) /\
        issued_copies w (CopyTo T dst h w) = copies_to false (sizeof T) h (rewrap dst d')).
Proof.
  split.
  - intros T src s h w Hs Hh Halloc Hcons.
    destruct (CopyFrom_onto_empty T src s h w Hs Hh Halloc) as [Hok _].
    destruct (Hok Hcons) as (Hrun & _ & Hsame).
    eexists _, _. split; [exact Hrun |]. split; [exact Hsame |].
    split; [reflexivity |]. by rewrite CopyFrom_issues, Hrun.
  - intros T dst d h w Hd Hnnz Halloc Hcons.
    destruct (CopyTo_onto_empty T dst d h w Hd Hnnz Halloc) as [Hok _].
    destruct (Hok Hcons) as (Hrun & Hsame).
    eexists _, _. split; [exact Hrun |]. split; [exact Hsame |].
    split; [reflexivity |]. by rewrite CopyTo_issues, Hrun.
Qed.

Lemma transfer_onto_empty_destination_succeeds_witness :
  exists h' w',
    CopyFrom VT_double (Host (HostMatrixBCSR host_one_block)) fresh_handle initial_world
    = Ok h' w' /\
    same_shape h' host_one_block /\
    row_offset (mat_ h') = 1.
Proof.
  destruct (proj1 transfer_onto_empty_destination_succeeds VT_double
              (Host (HostMatrixBCSR host_one_block)) host_one_block fresh_handle
              initial_world eq_refl eq_refl)
    as (h' & w' & Hrun & Hsame & Hptr & _).
  - unfold allocatable. cbn. lia.
  - repeat split.
  - exists h', w'. split; [exact Hrun |]. split; [exact Hsame |].
    by injection Hptr as -> _ _.
Defined.

(** X12.  A source whose scalar shape is not the one its layout derives
    cannot be copied onto an empty destination: the destination is allocated
    from the source's layout counts, the shape assertions then fail, and no
    copy is issued.  This is what happens with a source emptied by [Clear],
    whose [nnz] is 0 while its layout still counts blocks. *)
Theorem transfer_from_inconsistent_source_aborts :
  (forall T src s h w,
      operand_handle src = Some s -> nnz_ h = 0 ->
      allocatable (mat_ s) -> ~ shape_consistent s ->
      CopyFrom T src h w
      = Abort (allocation_world OnDevice T (nnzb (mat_ s)) (nrowb (mat_ s))
                                (blockdim (mat_ s)) w) /\
      CopyFromAsync T src h w = CopyFrom T src h w /\
      issued_copies w (CopyFrom T src h w) = []) /\
  (forall T s0 h w,
      allocatable (mat_ s0) -> derived_nnz (mat_ s0) <> 0 -> nnz_ h = 0 ->
      stopped (CopyFrom T (HIPAcceleratorMatrixBCSR (cleared s0)) h w) /\
      stopped (CopyFrom T (Host (HostMatrixBCSR (cleared s0))) h w)).
Proof.
  split.
  - intros T src s h w Hs Hh Halloc Hcons.
    destruct (CopyFrom_onto_empty T src s h w Hs Hh Halloc) as [_ Hbad].
    destruct (Hbad Hcons) as (Hrun & Hasync).
    split; [exact Hrun |]. split; [congruence |].
    by rewrite CopyFrom_issues, Hrun.
  - intros T s0 h w Halloc Hnnz Hh.
    assert (~ shape_consistent (cleared s0)) as Hcons.
    { intros (_ & _ & Hz). cbn in Hz. unfold derived_nnz in *. cbn in Hz. congruence. }
    split.
    + destruct (CopyFrom_onto_empty T (HIPAcceleratorMatrixBCSR (cleared s0))
                  (cleared s0) h w eq_refl Hh Halloc) as [_ Hbad].
      destruct (Hbad Hcons) as (-> & _). exact I.
    + destruct (CopyFrom_onto_empty T (Host (HostMatrixBCSR (cleared s0)))
                  (cleared s0) h w eq_refl Hh Halloc) as [_ Hbad].
      destruct (Hbad Hcons) as (-> & _). exact I.
Qed.

Lemma transfer_from_inconsistent_source_aborts_witness :
  Clear one_block_handle one_block_world
  = Ok (cleared one_block_handle) (cleared_world OnDevice one_block_handle one_block_world)
  /\
  stopped (CopyFrom VT_double (HIPAcceleratorMatrixBCSR (cleared one_block_handle))
                    fresh_handle
                    (cleared_world OnDevice one_block_handle one_block_world)).
Proof.
  split; [reflexivity |].
  apply (proj2 transfer_from_inconsistent_source_aborts VT_double one_block_handle
           fresh_handle (cleared_world OnDevice one_block_handle one_block_world)).
  - unfold allocatable. cbn. lia.
  - discriminate.
  - reflexivity.
Defined.

(** ** Transfers between empty operands *)

(** The first-use step on an empty destination, fed with the layout of a
    source that [LeaveDataPtrBCSR] or [Clear] emptied: it stops at the
    [blockdim > 1] assertion, or allocates a destination that is not empty. *)
Lemma first_use_from_emptied sp T m d w :
  nnz_ d = 0 ->
  blockdim m <= 1 \/ derived_nnz m <> 0 ->
  match first_use sp T true m d w with
  | Ok x _ => nnz_ x <> 0
  | Abort _ => True
  | Fatal _ => False
  end.
Proof.
  intros Hd He. unfold first_use. rewrite AllocateBCSR_in_eq, Hd.
  unfold AllocateBCSR_args_ok. cbn [Z.ltb Z.compare].
  destruct (0 <=? nnzb m) eqn:Hn; [| exact I].
  destruct (0 <=? ncolb m); [| exact I].
  destruct (0 <=? nrowb m); [| exact I].
  destruct (1 <? blockdim m) eqn:Hb; [| exact I].
  cbn [andb]. apply Z.ltb_lt in Hb. apply Z.leb_le in Hn.
  destruct He as [He | He]; [lia |].
  destruct (0 <? nnzb m) eqn:Hp.
  - exact He.
  - apply Z.ltb_ge in Hp. assert (nnzb m = 0) as Hz by lia.
    unfold derived_nnz in He. rewrite Hz in He. exfalso. apply He. reflexivity.
Qed.

Lemma same_shape_b_nnz a b : nnz_ a <> nnz_ b -> same_shape_b a b = false.
Proof.
  intros H. unfold same_shape_b. by rewrite (proj2 (Z.eqb_neq _ _) H).
Qed.

Lemma CopyFrom_between_emptied T src s d w :
  operand_handle src = Some s -> nnz_ s = 0 -> nnz_ d = 0 ->
  blockdim (mat_ s) <= 1 \/ derived_nnz (mat_ s) <> 0 ->
  exists w', CopyFrom T src d w = Abort w' /\ CopyFromAsync T src d w = Abort w'.
Proof.
  intros Hs Hz Hd He. rewrite CopyFrom_eq, CopyFromAsync_eq, Hs, Hd. cbn [Z.eqb].
  pose proof (first_use_from_emptied OnDevice T (mat_ s) d w Hd He) as Hfu.
  destruct (first_use OnDevice T true (mat_ s) d w) as [x w1 | w1 | w1];
    [| by exists w1 | contradiction].
  exists w1. unfold finish. rewrite same_shape_b_nnz by congruence. done.
Qed.

Lemma CopyTo_between_emptied T dst d s w :
  operand_handle dst = Some d -> nnz_ s = 0 -> nnz_ d = 0 ->
  blockdim (mat_ s) <= 1 \/ derived_nnz (mat_ s) <> 0 ->
  exists w', CopyTo T dst s w = Abort w' /\ CopyToAsync T dst s w = Abort w'.
Proof.
  intros Hdst Hz Hd He. rewrite CopyTo_eq, CopyToAsync_eq, Hdst, Hd, Hz. cbn [Z.eqb].
  assert (first_use (space_of dst) T (match dst with Host _ => true | _ => true end)
            (mat_ s) (set_backend (local_backend_ s) d) w
          = first_use (space_of dst) T true (mat_ s)
              (set_backend (local_backend_ s) d) w) as -> by (by destruct dst).
  pose proof (first_use_from_emptied (space_of dst) T (mat_ s)
                (set_backend (local_backend_ s) d) w Hd He) as Hfu.
  destruct (first_use (space_of dst) T true (mat_ s)
              (set_backend (local_backend_ s) d) w) as [x w1 | w1 | w1];
    [| by exists w1 | contradiction].
  exists w1. unfold finish. rewrite same_shape_b_nnz by congruence. done.
Qed.

(** The first copy a synchronous transfer issues is the row-pointer copy, of
    [nrowb + 1] elements of [int]. *)
Lemma CopyFrom_first_copy T src s h w e es :
  operand_handle src = Some s ->
  0 <= nrowb (mat_ s) < Int.max_signed ->
  issued_copies w (CopyFrom T src h w) = e :: es ->
  copy_bytes e = 4 * (nrowb (mat_ s) + 1).
Proof.
  intros Hs Hr. rewrite CopyFrom_issues.
  destruct (CopyFrom T src h w) as [h' w' | |] eqn:E; try discriminate.
  apply CopyFrom_same_shape in E as (s' & Hs' & Hsame).
  assert (s' = s) as -> by congruence.
  destruct Hsame as (_ & _ & _ & Hnrowb & _).
  assert (row_offset_bytes (mat_ h') = 4 * (nrowb (mat_ s) + 1)) as Hbytes.
  { rewrite <- Hnrowb in Hr |- *. by apply row_offset_bytes_exact. }
  destruct src as [[x | f n] | x | c | f n]; try discriminate;
    cbn [copies_from three_copies]; intros [= <- _]; exact Hbytes.
Qed.

Lemma CopyTo_first_copy T dst h w e es :
  0 <= nrowb (mat_ h) < Int.max_signed ->
  issued_copies w (CopyTo T dst h w) = e :: es ->
  copy_bytes e = 4 * (nrowb (mat_ h) + 1).
Proof.
  intros Hr. rewrite CopyTo_issues.
  destruct (CopyTo T dst h w) as [dst' w' | |]; try discriminate.
  pose proof (row_offset_bytes_exact (mat_ h) Hr) as Hbytes.
  destruct dst' as [[x | f n] | x | c | f n]; try discriminate;
    cbn [copies_to three_copies]; intros [= <- _]; exact Hbytes.
Qed.

(** C4, on the code.  With [nnz == 0] on both sides a transfer is no
    harmless pass.

    - The asynchronous variants issue no copy: their copies sit under
      [if(this->nnz_ > 0)].
    - The operands the class itself empties make every variant stop at an
      assertion, synchronous and asynchronous alike, before any copy.
      [LeaveDataPtrBCSR] leaves [mat_.blockdim == 0] and [Clear] leaves the
      block counts of the matrix it released; the first-use step passes these
      to [AllocateBCSR], which fails [assert(blockdim > 1)] in the first case
      and in the second allocates a destination with [nnz != 0], so that
      [assert(this->nnz_ == src.nnz_)] fails.
    - The synchronous copies carry no guard on [nnz], and the first of them,
      the row-pointer copy, has [(nrowb + 1) * sizeof(int)] bytes, at least 4:
      no synchronous transfer issues it as a zero-length operation. *)
Theorem empty_transfer_is_not_a_noop :
  (forall T m h w,
      nnz_ h = 0 -> GetNnz m = 0 ->
      issued_copies w (CopyFromAsync T m h w) = [] /\
      issued_copies w (CopyToAsync T m h w) = []) /\
  (forall h w out s w',
      LeaveDataPtrBCSR h w = Ok (out, s) w' ->
      nnz_ s = 0 /\ blockdim (mat_ s) = 0) /\
  (forall h w s w',
      0 < nnz_ h -> nnz_ h = derived_nnz (mat_ h) ->
      Clear h w = Ok s w' ->
      nnz_ s = 0 /\ derived_nnz (mat_ s) <> 0) /\
  (forall T src s d w,
      operand_handle src = Some s -> nnz_ s = 0 -> nnz_ d = 0 ->
      blockdim (mat_ s) <= 1 \/ derived_nnz (mat_ s) <> 0 ->
      exists w', CopyFrom T src d w = Abort w' /\ CopyFromAsync T src d w = Abort w') /\
  (forall T dst d s w,
      operand_handle dst = Some d -> nnz_ s = 0 -> nnz_ d = 0 ->
      blockdim (mat_ s) <= 1 \/ derived_nnz (mat_ s) <> 0 ->
      exists w', CopyTo T dst s w = Abort w' /\ CopyToAsync T dst s w = Abort w') /\
  (forall T src s h w e es,
      operand_handle src = Some s ->
      0 <= nrowb (mat_ s) < Int.max_signed ->
      issued_copies w (CopyFrom T src h w) = e :: es ->
      copy_bytes e = 4 * (nrowb (mat_ s) + 1)) /\
  (forall T dst h w e es,
      0 <= nrowb (mat_ h) < Int.max_signed ->
      issued_copies w (CopyTo T dst h w) = e :: es ->
      copy_bytes e = 4 * (nrowb (mat_ h) + 1)).
Proof.
  split.
  { intros T m h w Hh Hm. split.
    - exact (CopyFromAsync_empty T m h w Hm).
    - exact (CopyToAsync_empty T m h w Hh). }
  split.
  { intros h w out s w'. rewrite LeaveDataPtrBCSR_eq.
    destruct (LeaveDataPtrBCSR_state_ok h); [| discriminate].
    intros [= <- <- _]. split; reflexivity. }
  split.
  { intros h w s w' Hpos Hcons. unfold Clear. rewrite Clear_in_eq.
    rewrite (proj2 (Z.ltb_lt _ _) Hpos). intros [= <- _].
    split; [reflexivity |]. unfold derived_nnz in *. cbn. lia. }
  split; [exact CopyFrom_between_emptied |].
  split; [exact CopyTo_between_emptied |].
  split; [exact CopyFrom_first_copy | exact CopyTo_first_copy].
Qed.

Lemma empty_transfer_is_not_a_noop_witness :
  Clear one_block_handle one_block_world
  = Ok (cleared one_block_handle) (cleared_world OnDevice one_block_handle one_block_world)
  /\
  (exists w',
      CopyFrom VT_double (HIPAcceleratorMatrixBCSR (cleared one_block_handle))
               fresh_handle (cleared_world OnDevice one_block_handle one_block_world)
      = Abort w' /\
      CopyFromAsync VT_double (HIPAcceleratorMatrixBCSR (cleared one_block_handle))
                    fresh_handle (cleared_world OnDevice one_block_handle one_block_world)
      = Abort w') /\
  (exists w',
      CopyFrom VT_double (HIPAcceleratorMatrixBCSR left_handle)
               fresh_handle initial_world = Abort w' /\
      CopyFromAsync VT_double (HIPAcceleratorMatrixBCSR left_handle)
                    fresh_handle initial_world = Abort w').
Proof.
  pose proof empty_transfer_is_not_a_noop as (_ & _ & _ & Hfrom & _).
  split; [reflexivity |]. split.
  - apply (Hfrom VT_double (HIPAcceleratorMatrixBCSR (cleared one_block_handle))
             (cleared one_block_handle) fresh_handle
             (cleared_world OnDevice one_block_handle one_block_world));
      [reflexivity | reflexivity | reflexivity | right; discriminate].
  - apply (Hfrom VT_double (HIPAcceleratorMatrixBCSR left_handle)
             left_handle fresh_handle initial_world);
      [reflexivity | reflexivity | reflexivity | left; cbn; lia].
Defined.

(** ** Transfers and releases *)

Lemma first_use_trace sp T (g : bool) m d w :
  exists es,
    trace (final_world (first_use sp T g m d w)) = trace w ++ es /\
    frees es = if g && AllocateBCSR_args_ok (nnzb m) (nrowb m) (ncolb m) (blockdim m)
                    && (0 <? nnz_ d)
               then three_frees sp (mat_ d) else [].
Proof.
  unfold first_use. destruct g; cbn [andb].
  - rewrite AllocateBCSR_in_eq.
    destruct (AllocateBCSR_args_ok _ _ _ _); cbn [andb];
      [| exists []; by rewrite app_nil_r].
    cbn zeta. destruct (0 <? nnz_ d), (0 <? nnzb m).
    + eexists. cbn. rewrite <- app_assoc. split; reflexivity.
    + eexists. cbn. split; reflexivity.
    + eexists. cbn. split; reflexivity.
    + exists []. by rewrite app_nil_r.
  - exists []. by rewrite app_nil_r.
Qed.

Lemma frees_three_copies async kind dst_m src_m this_m elt :
  frees (three_copies async kind dst_m src_m this_m elt) = [].
Proof. by destruct async. Qed.

Lemma frees_copies_from async elt src h' : frees (copies_from async elt src h') = [].
Proof.
  destruct src as [[s | f n] | s | c | f n]; try reflexivity; apply frees_three_copies.
Qed.

Lemma frees_copies_to async elt h dst' : frees (copies_to async elt h dst') = [].
Proof.
  destruct dst' as [[s | f n] | s | c | f n]; try reflexivity; apply frees_three_copies.
Qed.

Lemma finish_frees {A} w o1 this_of other_of (wrap : Handle -> A) cs es :
  trace (final_world o1) = trace w ++ es ->
  (forall x, frees (cs x) = []) ->
  issued_frees w (finish o1 this_of other_of wrap cs) = frees es.
Proof.
  intros Ht Hcs. unfold finish.
  destruct o1 as [x w1 | w1 | w1]; cbn in Ht; try by apply issued_frees_app.
  destruct (same_shape_b (this_of x) (other_of x)); [| by apply issued_frees_app].
  rewrite (issued_frees_app w _ (es ++ cs x)).
  - unfold frees in *. by rewrite List.filter_app, Hcs, app_nil_r.
  - cbn. by rewrite Ht, <- app_assoc.
Qed.

Lemma reject_frees {A} m w : issued_frees w (@reject A m w) = [].
Proof.
  unfold reject. destruct (MatFormat_eqb BCSR (GetMatFormat m));
    [| by apply issued_frees_same].
  unfold unsupported_type, bind, LOG_INFO, Info, Operand_Info, emit, FATAL_ERROR.
  destruct (class_of m); cbn;
    match goal with
    | |- issued_frees _ (Fatal (mkWorld _ _ (((_ ++ [?a]) ++ [?b]) ++ [?c]))) = _ =>
        rewrite (issued_frees_app w _ [a; b; c]);
          [reflexivity | cbn; by rewrite <- !app_assoc]
    end.
Qed.

(** X13.  With an empty source whose layout counts pass [AllocateBCSR]'s
    assertions and a populated device destination, [CopyToAsync] releases the
    destination's three arrays (its first-use test looks at the source's
    [nnz_], line 649), whatever the outcome of the shape assertions that
    follow.  [CopyTo] on the same operands releases nothing and stops at the
    first shape assertion in the world it was called in. *)
Theorem CopyToAsync_releases_populated_destination T d h w :
  nnz_ h = 0 -> 0 < nnz_ d ->
  0 <= nnzb (mat_ h) -> 0 <= nrowb (mat_ h) -> 0 <= ncolb (mat_ h) ->
  1 < blockdim (mat_ h) ->
  issued_frees w (CopyToAsync T (HIPAcceleratorMatrixBCSR d) h w)
    = three_frees OnDevice (mat_ d) /\
  issued_copies w (CopyToAsync T (HIPAcceleratorMatrixBCSR d) h w) = [] /\
  CopyTo T (HIPAcceleratorMatrixBCSR d) h w = Abort w.
Proof.
  intros Hh Hd Hnnzb Hnrowb Hncolb Hbd. split; [| split].
  - rewrite CopyToAsync_eq. cbn [operand_handle space_of]. rewrite Hh. cbn [Z.eqb].
    destruct (first_use_trace OnDevice T true (mat_ h)
                (set_backend (local_backend_ h) d) w) as (es & Ht & Hes).
    rewrite (finish_frees w _ _ _ _ _ es Ht).
    + rewrite Hes. unfold AllocateBCSR_args_ok.
      rewrite (proj2 (Z.leb_le _ _) Hnnzb), (proj2 (Z.leb_le _ _) Hncolb),
              (proj2 (Z.leb_le _ _) Hnrowb), (proj2 (Z.ltb_lt _ _) Hbd).
      cbn [andb nnz_ set_backend]. by rewrite (proj2 (Z.ltb_lt _ _) Hd).
    + intros x. cbn. reflexivity.
  - rewrite CopyToAsync_issues, Hh. by destruct (CopyToAsync _ _ _ _).
  - rewrite CopyTo_eq. cbn [operand_handle space_of].
    rewrite (proj2 (Z.eqb_neq (nnz_ d) 0)) by lia.
    rewrite first_use_skipped. unfold finish.
    assert (same_shape_b h (set_backend (local_backend_ h) d) = false) as ->;
      [| reflexivity].
    apply same_shape_b_false. intros (Hn & _). cbn in Hn. lia.
Qed.

Lemma CopyToAsync_releases_populated_destination_witness :
  issued_frees one_block_world
    (CopyToAsync VT_double (HIPAcceleratorMatrixBCSR one_block_handle) empty_blocked
                 one_block_world)
  = [EvFree OnDevice 1; EvFree OnDevice 2; EvFree OnDevice 3] /\
  CopyTo VT_double (HIPAcceleratorMatrixBCSR one_block_handle) empty_blocked
         one_block_world
  = Abort one_block_world.
Proof.
  destruct (CopyToAsync_releases_populated_destination VT_double one_block_handle
              empty_blocked one_block_world)
    as (Hfrees & _ & Hsync); try (cbn; lia); try reflexivity.
  split; [exact Hfrees | exact Hsync].
Defined.

(** X14.  [CopyFrom], [CopyFromAsync] and [CopyTo] never release storage,
    whatever the operands and however the run ends: the [Clear] inside
    [AllocateBCSR] is unreachable from them, since they allocate only a
    destination whose [nnz] is 0. *)
Theorem transfers_never_release T m h w :
  issued_frees w (CopyFrom T m h w) = [] /\
  issued_frees w (CopyFromAsync T m h w) = [] /\
  issued_frees w (CopyTo T m h w) = [].
Proof.
  assert (forall sp (d : Handle) mm,
             exists es,
               trace (final_world (first_use sp T (nnz_ d =? 0) mm d w)) = trace w ++ es /\
               frees es = []) as Hfirst.
  { intros sp d mm.
    destruct (first_use_trace sp T (nnz_ d =? 0) mm d w) as (es & Ht & Hes).
    exists es. split; [exact Ht |]. rewrite Hes.
    destruct (Z.eqb_spec (nnz_ d) 0) as [-> | _]; [| reflexivity].
    cbn [andb]. by rewrite andb_false_r. }
  split; [| split].
  - rewrite CopyFrom_eq. destruct (operand_handle m) as [s |]; [| apply reject_frees].
    destruct (Hfirst OnDevice h (mat_ s)) as (es & Ht & Hes).
    rewrite (finish_frees w _ _ _ _ _ es Ht); [exact Hes |].
    intros x. apply frees_copies_from.
  - rewrite CopyFromAsync_eq. destruct (operand_handle m) as [s |]; [| apply reject_frees].
    destruct (Hfirst OnDevice h (mat_ s)) as (es & Ht & Hes).
    rewrite (finish_frees w _ _ _ _ _ es Ht); [exact Hes |].
    intros x. destruct (0 <? nnz_ x); [apply frees_copies_from | reflexivity].
  - rewrite CopyTo_eq. destruct (operand_handle m) as [d |]; [| apply reject_frees].
    destruct (Hfirst (space_of m) (set_backend (local_backend_ h) d) (mat_ h))
      as (es & Ht & Hes).
    cbn [nnz_ set_backend] in Ht.
    rewrite (finish_frees w _ _ _ _ _ es Ht); [exact Hes |].
    intros x. apply frees_copies_to.
Qed.

(** ** Conversion *)

(** X15.  On a device CSR source with [nnz != 0], [ConvertFrom] clears the
    handle, presets [mat_.blockdim] to the handle's [blockdim_] and calls the
    regrouping kernel once; how it ends is how the kernel ends.  When the
    kernel returns [true] the layout is the kernel's and the scalar shape is
    recomputed from it, [nrow = nrowb * blockdim] and so on; when the kernel
    returns [false] so does [ConvertFrom]; when the kernel aborts or
    terminates, so does [ConvertFrom]. *)
Theorem ConvertFrom_cross_format
    (csr_to_bcsr_hip :
       Z -> int -> int -> int -> MatrixCSR -> Z -> MatrixBCSR -> Z -> M (bool * MatrixBCSR))
    T cm h w h1 w1 :
  csr_nnz_ cm <> 0 ->
  Clear h w = Ok h1 w1 ->
  ConvertFrom csr_to_bcsr_hip T (HIPAcceleratorMatrixCSR cm) h w
  = converted h1
      (csr_to_bcsr_hip (ROC_sparse_handle (local_backend_ h))
                       (csr_nnz_ cm) (csr_nrow_ cm) (csr_ncol_ cm) (csr_mat_ cm)
                       (csr_mat_descr_ cm)
                       (set_mat_blockdim (blockdim_ h) (mat_ h1)) (mat_descr_ h)
                       (with_events w1 [EvCsrToBcsr (csr_nnz_ cm) (csr_nrow_ cm)
                                                    (csr_ncol_ cm) (blockdim_ h)])).
Proof.
  intros Hnnz Hclear.
  assert (blockdim_ h1 = blockdim_ h /\ mat_descr_ h1 = mat_descr_ h /\
          local_backend_ h1 = local_backend_ h /\ nnz_ h1 <= 0) as (Hbd & Hdescr & Hbe & Hle).
  { unfold Clear in Hclear. rewrite Clear_in_eq in Hclear.
    destruct (Z.ltb_spec 0 (nnz_ h)); simplify_eq; cbn; repeat split; lia. }
  unfold ConvertFrom, bind. rewrite Hclear. cbn [GetNnz].
  rewrite (proj2 (Z.eqb_neq _ _) Hnnz).
  unfold Clear. rewrite Clear_in_eq, (proj2 (Z.ltb_ge 0 (nnz_ h1))) by exact Hle.
  unfold emit. cbn [mat_ set_mat blockdim set_mat_blockdim local_backend_ mat_descr_].
  rewrite Hbd, Hdescr, Hbe. unfold converted, with_events.
  destruct (csr_to_bcsr_hip _ _ _ _ _ _ _ _ _) as [[[|] m'] w' | w' | w'];
    reflexivity.
Qed.

Lemma ConvertFrom_cross_format_witness :
  ConvertFrom blocking_kernel VT_double (HIPAcceleratorMatrixCSR csr_identity4)
              (set_blockdim_ 2 fresh_handle) initial_world
  = Ok (true, mkHandle 4 4 8 2 (mkMatrixBCSR 21 22 23 2 2 2 2) 0 example_backend)
       (with_events initial_world [EvCsrToBcsr 4 4 4 2]).
Proof.
  rewrite (ConvertFrom_cross_format blocking_kernel VT_double csr_identity4
             (set_blockdim_ 2 fresh_handle) initial_world
             (set_blockdim_ 2 fresh_handle) initial_world).
  - reflexivity.
  - discriminate.
  - reflexivity.
Defined.

(** X16.  [ConvertFrom] from a source of this same class with [nnz != 0], at
    least one block, valid layout counts and the derived scalar shape succeeds on every destination that is populated or empty, whatever
    shape it had: the leading [Clear] empties it, so the copy that follows
    allocates it anew with the source's shape.  ([CopyFrom] alone stops at the
    shape assertions when the destination is populated with another shape.) *)
Theorem ConvertFrom_same_class_succeeds
    (csr_to_bcsr_hip :
       Z -> int -> int -> int -> MatrixCSR -> Z -> MatrixBCSR -> Z -> M (bool * MatrixBCSR))
    T s h w :
  populated_or_empty h ->
  nnz_ s <> 0 -> allocatable (mat_ s) -> shape_consistent s ->
  exists h' w',
    ConvertFrom csr_to_bcsr_hip T (HIPAcceleratorMatrixBCSR s) h w = Ok (true, h') w' /\
    same_shape h' s /\
    blockdim_ h' = blockdim_ h.
Proof.
  intros Hh Hnnz Halloc Hcons.
  destruct (Clear_in_returns OnDevice h w) as (h1 & w1 & E & Hbd & _ & Hempty & _).
  destruct (Hempty Hh) as (_ & _ & Hz).
  destruct (CopyFrom_onto_empty T (HIPAcceleratorMatrixBCSR s) s h1 w1 eq_refl Hz Halloc)
    as [Hok _].
  destruct (Hok Hcons) as (Hrun & _ & Hsame).
  unfold ConvertFrom, bind. unfold Clear. rewrite E. cbn [GetNnz].
  rewrite (proj2 (Z.eqb_neq _ _) Hnnz), Hrun.
  eexists _, _. split; [reflexivity |]. split; [exact Hsame | exact Hbd].
Qed.

Lemma ConvertFrom_same_class_succeeds_witness :
  exists h' w',
    ConvertFrom rejecting_kernel VT_double (HIPAcceleratorMatrixBCSR one_block_handle)
                handle_blockdim3 one_block_world = Ok (true, h') w' /\
    same_shape h' one_block_handle.
Proof.
  destruct (ConvertFrom_same_class_succeeds rejecting_kernel VT_double one_block_handle
              handle_blockdim3 one_block_world)
    as (h' & w' & Hrun & Hsame & _).
  - left. reflexivity.
  - discriminate.
  - unfold allocatable. cbn. lia.
  - repeat split.
  - exists h', w'. split; assumption.
Defined.

(** ** Multiply on a populated matrix *)

(** X17.  On a populated handle [Apply] and [ApplyAdd] check the operands
    before anything else: unless both sizes are non-negative and equal to
    [ncol] and [nrow] and both vectors are device vectors, they stop in the
    world they were called in and the kernel is not reached.  Otherwise the
    kernel is called once, with [alpha = 1, beta = 0] by [Apply] and
    [alpha = scalar, beta = 1] by [ApplyAdd], and the call decides the
    outcome: success returns, an error status is fatal. *)
Theorem multiply_checks_operands_then_status (Scalar : Type)
    (scalar_one scalar_zero : Scalar) (BCSR_IND_BASE : bool)
    (rocsparseTbsrmv :
       Z -> bool -> int -> int -> int -> Scalar -> Z -> ptr -> ptr -> ptr -> int ->
       ptr -> Scalar -> ptr -> M rocsparse_status)
    h v_in v_out scalar w :
  0 < nnz_ h ->
  Apply Scalar scalar_one scalar_zero BCSR_IND_BASE rocsparseTbsrmv h v_in v_out w
  = (if Apply_operands_ok h v_in v_out
     then checked
            (rocsparseTbsrmv (ROC_sparse_handle (local_backend_ h)) BCSR_IND_BASE
               (nrowb (mat_ h)) (ncolb (mat_ h)) (nnzb (mat_ h)) scalar_one
               (mat_descr_ h) (val (mat_ h)) (row_offset (mat_ h)) (col (mat_ h))
               (blockdim (mat_ h)) (vec_ v_in) scalar_zero (vec_ v_out)
               (with_events w [bsrmv_event BCSR_IND_BASE h v_in v_out]))
     else Abort w) /\
  ApplyAdd Scalar scalar_one BCSR_IND_BASE rocsparseTbsrmv h v_in scalar v_out w
  = (if Apply_operands_ok h v_in v_out
     then checked
            (rocsparseTbsrmv (ROC_sparse_handle (local_backend_ h)) BCSR_IND_BASE
               (nrowb (mat_ h)) (ncolb (mat_ h)) (nnzb (mat_ h)) scalar
               (mat_descr_ h) (val (mat_ h)) (row_offset (mat_ h)) (col (mat_ h))
               (blockdim (mat_ h)) (vec_ v_in) scalar_one (vec_ v_out)
               (with_events w [bsrmv_event BCSR_IND_BASE h v_in v_out]))
     else Abort w).
Proof.
  intros Hpop. unfold Apply, ApplyAdd, when, Apply_operands_ok.
  rewrite (proj2 (Z.ltb_lt _ _) Hpop). unfold bind, assert.
  destruct (0 <=? vec_size v_in); [| split; reflexivity].
  destruct (0 <=? vec_size v_out); [| split; reflexivity].
  destruct (vec_size v_in =? ncol_ h); [| split; reflexivity].
  destruct (vec_size v_out =? nrow_ h); [| split; reflexivity].
  destruct (is_HIPAcceleratorVector v_in); [| split; reflexivity].
  destruct (is_HIPAcceleratorVector v_out); [| split; reflexivity].
  cbn [andb]. unfold call_bsrmv, bind, emit, with_events, bsrmv_event, checked,
    CHECK_ROCSPARSE_ERROR, ret, FATAL_ERROR.
  split.
  - destruct (rocsparseTbsrmv _ _ _ _ _ scalar_one _ _ _ _ _ _ _ _ _)
      as [[| c] w' | w' | w']; reflexivity.
  - destruct (rocsparseTbsrmv _ _ _ _ _ scalar _ _ _ _ _ _ _ _ _)
      as [[| c] w' | w' | w']; reflexivity.
Qed.

Lemma multiply_checks_operands_then_status_witness :
  Apply Z 1 0 false marking_kernel one_block_handle short_vector example_vector
        one_block_world = Abort one_block_world /\
  ApplyAdd Z 1 false failing_multiply one_block_handle example_vector 5 example_vector
           one_block_world
  = Fatal (with_events one_block_world
             [bsrmv_event false one_block_handle example_vector example_vector]).
Proof.
  assert (0 < nnz_ one_block_handle) as Hpop by (cbn; lia).
  split.
  - rewrite (proj1 (multiply_checks_operands_then_status Z 1 0 false marking_kernel
                      one_block_handle short_vector example_vector 5 one_block_world
                      Hpop)).
    reflexivity.
  - rewrite (proj2 (multiply_checks_operands_then_status Z 1 0 false failing_multiply
                      one_block_handle example_vector example_vector 5 one_block_world
                      Hpop)).
    reflexivity.
Defined.

(** ** Round trip through the host *)

(** X18.  Copying a device matrix whose layout has at least one block and
    valid counts and whose scalar shape is the derived one to an empty host
    matrix, and from there to an empty device handle, succeeds in both hops; the
    final handle has the seven shape fields of the original, the second hop
    reads exactly the three host arrays the first hop wrote, and the byte
    counts of the two hops agree array by array. *)
Theorem round_trip_through_host T a b c w :
  allocatable (mat_ a) -> shape_consistent a ->
  nnz_ b = 0 -> nnz_ c = 0 ->
  exists b' w1 c' w2,
    CopyTo T (Host (HostMatrixBCSR b)) a w = Ok (Host (HostMatrixBCSR b')) w1 /\
    CopyFrom T (Host (HostMatrixBCSR b')) c w1 = Ok c' w2 /\
    same_shape c' a /\
    issued_copies w (CopyTo T (Host (HostMatrixBCSR b)) a w)
      = three_copies false hipMemcpyDeviceToHost (mat_ b') (mat_ a) (mat_ a) (sizeof T) /\
    issued_copies w1 (CopyFrom T (Host (HostMatrixBCSR b')) c w1)
      = three_copies false hipMemcpyHostToDevice (mat_ c') (mat_ b') (mat_ c') (sizeof T) /\
    (row_offset_bytes (mat_ c'), col_bytes (mat_ c'), val_bytes (sizeof T) (mat_ c'))
      = (row_offset_bytes (mat_ a), col_bytes (mat_ a), val_bytes (sizeof T) (mat_ a)).
Proof.
  intros Halloc Hcons Hb Hc.
  destruct (CopyTo_onto_empty T (Host (HostMatrixBCSR b)) b a w eq_refl Hb Halloc)
    as [Hok _].
  destruct (Hok Hcons) as (Hrun1 & Hsame1). clear Hok.
  set (b' := allocation_handle (nnzb (mat_ a)) (nrowb (mat_ a)) (ncolb (mat_ a))
                               (blockdim (mat_ a))
                               (set_backend (local_backend_ a) b) w) in *.
  set (w1 := with_events _ _) in Hrun1.
  assert (allocatable (mat_ b')) as Halloc' by exact Halloc.
  assert (shape_consistent b') as Hcons'.
  { apply (same_shape_consistent b' a); [by apply same_shape_sym | exact Hcons]. }
  destruct (CopyFrom_onto_empty T (Host (HostMatrixBCSR b')) b' c w1 eq_refl Hc Halloc')
    as [Hok _].
  destruct (Hok Hcons') as (Hrun2 & _ & Hsame2). clear Hok.
  eexists b', w1, _, _. split; [exact Hrun1 |]. split; [exact Hrun2 |].
  split.
  { destruct Hsame1 as (H1 & H2 & H3 & H4 & H5 & H6 & H7).
    destruct Hsame2 as (G1 & G2 & G3 & G4 & G5 & G6 & G7).
    repeat split; congruence. }
  split; [by rewrite CopyTo_issues, Hrun1 |].
  split; [by rewrite CopyFrom_issues, Hrun2 |].
  reflexivity.
Qed.

Lemma round_trip_through_host_witness :
  exists b' w1 c' w2,
    CopyTo VT_double (Host (HostMatrixBCSR fresh_handle)) one_block_handle one_block_world
    = Ok (Host (HostMatrixBCSR b')) w1 /\
    CopyFrom VT_double (Host (HostMatrixBCSR b')) fresh_handle w1 = Ok c' w2 /\
    same_shape c' one_block_handle.
Proof.
  destruct (round_trip_through_host VT_double one_block_handle fresh_handle fresh_handle
              one_block_world)
    as (b' & w1 & c' & w2 & Hrun1 & Hrun2 & Hsame & _).
  - unfold allocatable. cbn. lia.
  - repeat split.
  - reflexivity.
  - reflexivity.
  - exists b', w1, c', w2. split; [exact Hrun1 |]. split; assumption.
Defined.

(** ** The size of the value copy *)

Lemma val_bytes_exact elt m :
  0 < nnzb m -> 0 < blockdim m -> 0 < elt <= 16 ->
  Int.in_range (nnzb m * blockdim m * blockdim m) ->
  val_bytes elt m = elt * (nnzb m * blockdim m * blockdim m).
Proof.
  intros Hn Hb He Hfit. unfold val_bytes, bytes_of.
  assert (Int.in_range (nnzb m * blockdim m)) as Hfb.
  { unfold Int.in_range, Int.min_signed, Int.max_signed in *. nia. }
  rewrite (Int_mul_exact (nnzb m) (blockdim m)) by exact Hfb.
  rewrite Int_mul_exact by exact Hfit.
  unfold Int.in_range, Int.min_signed, Int.max_signed in *.
  assert (0 < nnzb m * blockdim m * blockdim m) by nia.
  rewrite (Z.mod_small (nnzb m * blockdim m * blockdim m)) by lia.
  rewrite Z.mod_small by nia. lia.
Qed.

(** X19.  A transfer between operands of one shape, populated with at least
    one block and a value count [n = nnzb * blockdim * blockdim] that fits in
    an [int], returns in both variants, and the third copy it issues, the
    value copy, has [sizeof(ValueType) * n] bytes in [CopyFrom] and [CopyTo]
    and [4 * n] bytes in [CopyFromAsync] and [CopyToAsync].  The two agree
    exactly when the value type is [float]; for every other value type the
    asynchronous copy is strictly shorter than the value array. *)
Theorem async_value_copy_complete_only_for_float :
  (forall T src s h w,
      operand_handle src = Some s ->
      0 < nnz_ h -> same_shape h s ->
      0 < nnzb (mat_ h) -> 0 < blockdim (mat_ h) ->
      Int.in_range (nnzb (mat_ h) * blockdim (mat_ h) * blockdim (mat_ h)) ->
      value_copies_compared T (mat_ h)
        (issued_copies w (CopyFrom T src h w))
        (issued_copies w (CopyFromAsync T src h w))) /\
  (forall T dst d h w,
      operand_handle dst = Some d ->
      0 < nnz_ h -> same_shape h d ->
      0 < nnzb (mat_ h) -> 0 < blockdim (mat_ h) ->
      Int.in_range (nnzb (mat_ h) * blockdim (mat_ h) * blockdim (mat_ h)) ->
      value_copies_compared T (mat_ h)
        (issued_copies w (CopyTo T dst h w))
        (issued_copies w (CopyToAsync T dst h w))).
Proof.
  assert (forall T m, 0 < nnzb m -> 0 < blockdim m ->
            Int.in_range (nnzb m * blockdim m * blockdim m) ->
            forall e_sync e_async,
              copy_bytes e_sync = val_bytes (sizeof T) m ->
              copy_bytes e_async = val_bytes sizeof_int m ->
              let n := nnzb m * blockdim m * blockdim m in
              copy_bytes e_sync = sizeof T * n /\
              copy_bytes e_async = 4 * n /\
              (copy_bytes e_async = copy_bytes e_sync <-> T = VT_float) /\
              (T <> VT_float -> copy_bytes e_async < copy_bytes e_sync)) as Hsizes.
  { intros T m Hn Hb Hfit e_sync e_async -> -> n. subst n.
    assert (0 < nnzb m * blockdim m * blockdim m) as Hpos by nia.
    rewrite (val_bytes_exact (sizeof T)), (val_bytes_exact sizeof_int);
      try assumption; try (unfold sizeof_int; lia); try (destruct T; cbn; lia).
    unfold sizeof_int.
    split; [reflexivity |]. split; [reflexivity |].
    destruct T; cbn [sizeof]; (split; [split |]); try congruence; try lia;
      try (intros; discriminate). }
  split.
  - intros T src s h w Hs Hpos Hsame Hn Hb Hfit.
    assert ((nnz_ h =? 0) = false) as Hz by (apply Z.eqb_neq; lia).
    rewrite CopyFrom_issues, CopyFromAsync_issues.
    rewrite CopyFrom_eq, CopyFromAsync_eq, Hs, Hz, first_use_skipped.
    unfold finish. rewrite (proj2 (same_shape_b_true h s) Hsame).
    rewrite (proj2 (Z.ltb_lt _ _) Hpos).
    destruct src as [[x | f n] | x | c | f n]; try discriminate;
      cbn [copies_from three_copies];
      (eexists _, _; split; [reflexivity |]; split; [reflexivity |]);
      by apply Hsizes.
  - intros T dst d h w Hd Hpos Hsame Hn Hb Hfit.
    pose proof Hsame as (Hnnz & _).
    assert ((nnz_ d =? 0) = false) as Hz by (apply Z.eqb_neq; lia).
    assert ((nnz_ h =? 0) = false) as Hzh by (apply Z.eqb_neq; lia).
    rewrite CopyTo_issues, CopyToAsync_issues.
    rewrite CopyTo_eq, CopyToAsync_eq, Hd, Hz, Hzh.
    assert (forall g : bool, match dst with Host _ => false | _ => false end = false)
      as Hg by (by destruct dst).
    rewrite (Hg true), first_use_skipped.
    unfold finish.
    assert (same_shape_b h (set_backend (local_backend_ h) d) = true) as ->
      by (by apply same_shape_b_true).
    rewrite (proj2 (Z.ltb_lt _ _) Hpos).
    destruct dst as [[x | f n] | x | c | f n]; try discriminate;
      cbn [rewrap copies_to three_copies];
      (eexists _, _; split; [reflexivity |]; split; [reflexivity |]);
      by apply Hsizes.
Qed.

Lemma async_value_copy_complete_only_for_float_witness :
  value_copies_compared VT_double (mat_ one_block_handle)
    (issued_copies one_block_world
       (CopyFrom VT_double (Host (HostMatrixBCSR host_one_block)) one_block_handle
                 one_block_world))
    (issued_copies one_block_world
       (CopyFromAsync VT_double (Host (HostMatrixBCSR host_one_block)) one_block_handle
                      one_block_world)).
Proof.
  apply (proj1 async_value_copy_complete_only_for_float VT_double
           (Host (HostMatrixBCSR host_one_block)) host_one_block one_block_handle
           one_block_world).
  - reflexivity.
  - reflexivity.
  - repeat split.
  - reflexivity.
  - reflexivity.
  - cbn. unfold Int.in_range, Int.min_signed, Int.max_signed. lia.
Defined.

(** ** What a conversion or a transfer leaves on the destination *)

(** X20.  [ConvertFrom] clears the destination before it looks at the source.
    On a populated handle, a source that is empty or of a class it has no
    path for makes it return ([true] for the empty source, [false] otherwise)
    with the handle in the empty state and its three arrays released: a
    conversion that reports failure has still discarded the matrix the handle
    held. *)
Theorem ConvertFrom_clears_before_probing
    (csr_to_bcsr_hip :
       Z -> int -> int -> int -> MatrixCSR -> Z -> MatrixBCSR -> Z -> M (bool * MatrixBCSR))
    T mat h w :
  0 < nnz_ h ->
  convert_unsupported mat \/ GetNnz mat = 0 ->
  ConvertFrom csr_to_bcsr_hip T mat h w
  = Ok (GetNnz mat =? 0, cleared h) (cleared_world OnDevice h w) /\
  empty_state (cleared h) /\
  issued_frees w (ConvertFrom csr_to_bcsr_hip T mat h w) = three_frees OnDevice (mat_ h).
Proof.
  intros Hpop Hmat.
  assert (ConvertFrom csr_to_bcsr_hip T mat h w
          = Ok (GetNnz mat =? 0, cleared h) (cleared_world OnDevice h w)) as Hrun.
  { unfold ConvertFrom, bind, Clear.
    rewrite Clear_in_eq, (proj2 (Z.ltb_lt _ _) Hpop).
    destruct (Z.eqb_spec (GetNnz mat) 0) as [Hz | Hnz]; [reflexivity |].
    destruct Hmat as [Hun | Hz]; [| contradiction].
    destruct mat as [[d | f n] | d | c | f n]; cbn in Hun; try contradiction;
      reflexivity. }
  split; [exact Hrun |]. split; [repeat split |].
  rewrite Hrun. by rewrite (issued_frees_app w _ (three_frees OnDevice (mat_ h))).
Qed.

Lemma ConvertFrom_clears_before_probing_witness :
  ConvertFrom rejecting_kernel VT_double (Host (HostMatrixBCSR host_one_block))
              one_block_handle one_block_world
  = Ok (false, cleared one_block_handle)
       (cleared_world OnDevice one_block_handle one_block_world) /\
  issued_frees one_block_world
    (ConvertFrom rejecting_kernel VT_double (Host (HostMatrixBCSR host_one_block))
                 one_block_handle one_block_world)
  = [EvFree OnDevice 1; EvFree OnDevice 2; EvFree OnDevice 3].
Proof.
  destruct (ConvertFrom_clears_before_probing rejecting_kernel VT_double
              (Host (HostMatrixBCSR host_one_block)) one_block_handle one_block_world)
    as (Hrun & _ & Hfrees).
  - cbn. lia.
  - left. exact I.
  - split; [exact Hrun | exact Hfrees].
Defined.

Lemma first_use_backend sp T (g : bool) m d w x w1 :
  first_use sp T g m d w = Ok x w1 -> local_backend_ x = local_backend_ d.
Proof.
  unfold first_use. destruct g; [| by intros [= <- _]].
  rewrite AllocateBCSR_in_eq.
  destruct (AllocateBCSR_args_ok _ _ _ _); [| discriminate].
  cbn zeta. destruct (0 <? nnz_ d), (0 <? nnzb m); intros [= <- _]; reflexivity.
Qed.

Lemma finish_Ok {A} o1 this_of other_of (wrap : Handle -> A) cs a w' :
  finish o1 this_of other_of wrap cs = Ok a w' ->
  exists x w1, o1 = Ok x w1 /\ a = wrap x.
Proof.
  unfold finish. destruct o1 as [x w1 | w1 | w1]; try discriminate.
  destruct (same_shape_b (this_of x) (other_of x)); [| discriminate].
  intros [= <- _]. by exists x, w1.
Qed.

(** X21.  [CopyTo] and [CopyToAsync] stamp the destination with the source's
    backend descriptor: whenever they return, the destination object carries
    [this->local_backend_].  [CopyFrom] and [CopyFromAsync] leave the
    descriptor of the object they fill as it was. *)
Theorem transfer_backend_descriptor T m h w :
  (forall m' w',
      CopyTo T m h w = Ok m' w' \/ CopyToAsync T m h w = Ok m' w' ->
      exists d', operand_handle m' = Some d' /\ local_backend_ d' = local_backend_ h) /\
  (forall h' w',
      CopyFrom T m h w = Ok h' w' \/ CopyFromAsync T m h w = Ok h' w' ->
      local_backend_ h' = local_backend_ h).
Proof.
  pose proof (@reject_not_Ok BaseMatrix m w) as HrejB.
  pose proof (@reject_not_Ok Handle m w) as HrejH.
  split.
  - intros m' w' Hrun.
    rewrite CopyTo_eq, CopyToAsync_eq in Hrun.
    destruct (operand_handle m) as [d |] eqn:Hd.
    + assert (exists g, finish (first_use (space_of m) T g (mat_ h)
                                  (set_backend (local_backend_ h) d) w)
                          (fun _ => h) (fun x => x) (rewrap m)
                          (fun x => copies_to false (sizeof T) h (rewrap m x))
                        = Ok m' w' \/
                        finish (first_use (space_of m) T g (mat_ h)
                                  (set_backend (local_backend_ h) d) w)
                          (fun _ => h) (fun x => x) (rewrap m)
                          (fun x => if 0 <? nnz_ h
                                    then copies_to true sizeof_int h (rewrap m x)
                                    else [])
                        = Ok m' w') as (g & Hg).
      { destruct Hrun as [E | E]; eexists; [left | right]; exact E. }
      assert (exists x w1, first_use (space_of m) T g (mat_ h)
                             (set_backend (local_backend_ h) d) w = Ok x w1 /\
                           m' = rewrap m x) as (x & w1 & Hfu & ->).
      { destruct Hg as [E | E]; by apply finish_Ok in E. }
      apply first_use_backend in Hfu. exists x. split; [| exact Hfu].
      by destruct m as [[? | ? ?] | ? | ? | ? ?].
    + exfalso. destruct Hrun as [E | E]; rewrite E in HrejB; exact HrejB.
  - intros h' w' Hrun.
    rewrite CopyFrom_eq, CopyFromAsync_eq in Hrun.
    destruct (operand_handle m) as [s |] eqn:Hs.
    + assert (exists x w1, first_use OnDevice T (nnz_ h =? 0) (mat_ s) h w = Ok x w1 /\
                           h' = x) as (x & w1 & Hfu & ->).
      { destruct Hrun as [E | E]; by apply finish_Ok in E. }
      by apply first_use_backend in Hfu.
    + exfalso. destruct Hrun as [E | E]; rewrite E in HrejH; exact HrejH.
Qed.

Lemma transfer_backend_descriptor_witness :
  exists m' w' d',
    CopyTo VT_double (HIPAcceleratorMatrixBCSR
                        (set_backend (mkBackend 64 9) fresh_handle))
           one_block_handle one_block_world
    = Ok m' w' /\
    operand_handle m' = Some d' /\
    local_backend_ d' = example_backend.
Proof.
  assert (exists m' w',
             CopyTo VT_double (HIPAcceleratorMatrixBCSR
                                 (set_backend (mkBackend 64 9) fresh_handle))
                    one_block_handle one_block_world = Ok m' w') as (m' & w' & Hrun)
    by (eexists _, _; vm_compute; reflexivity).
  destruct (proj1 (transfer_backend_descriptor VT_double
                     (HIPAcceleratorMatrixBCSR (set_backend (mkBackend 64 9) fresh_handle))
                     one_block_handle one_block_world) m' w' (or_introl Hrun))
    as (d' & Hd & Hbe).
  exists m', w', d'. split; [exact Hrun |]. split; [exact Hd | exact Hbe].
Defined.
